(** * convert.py: metadata analysis, plan building and progress tracking

    A shallow embedding of [convert.py] (batch H.264 -> HEVC transcoder
    driver) and the properties of its unit converters, metadata
    extractors, [check_hevc] plan builder and [ProgressNotifier].

    Conventions of the embedding.
    - A Python [str] and a Python [bytes] object are both a [string]
      (a sequence of 8-bit characters); [len] is [String.length].
    - A Python [int] is a [Z].  A Python [float] is a rational [Q] kept in
      lowest terms: arithmetic is exact, there is no rounding to 53 bits,
      no infinity and no NaN.  Decimal literals are read exactly.  An int
      too large for a float and a quotient beyond the range of a float
      give a number here, where Python raises [OverflowError]; the
      properties that depend on the value of a float are stated for
      numbers that a float holds exactly, and those that say what is
      raised for numbers within its range.
    - What the Python runtime prints for a float, how it quotes a string
      inside the text of a list, how bytes decode and what
      [os.path.basename] returns are operations of the host ([Host]); the
      development is parametric in them.
    - A computation that can raise returns [exc A]; code that updates
      local or object state before it raises is written in the state and
      exception monad [SE], so that the state at the raise is kept. *)

From Stdlib Require Import ZArith QArith Qabs Qround String Ascii List Bool Lia.
From Stdlib Require Import DecimalString.
From Stdlib Require DecimalZ DecimalPos.
Import ListNotations.
Set Warnings "-register-all".
Open Scope string_scope.
Open Scope Z_scope.

(* ================================================================== *)
(** * Part I. The embedding *)
(* ================================================================== *)

(** ** Python exceptions and the exception monad *)

Inductive exn : Type :=
| TypeError | ValueError | KeyError | AttributeError | ZeroDivisionError
| AssertionError | UnicodeDecodeError | EOFError | IndexError.

Inductive exc (A : Type) : Type :=
| Ok (a : A)
| Raise (e : exn).
Arguments Ok {A} a.
Arguments Raise {A} e.

Definition ebind {A B : Type} (m : exc A) (k : A -> exc B) : exc B :=
  match m with
  | Ok a => k a
  | Raise e => Raise e
  end.

Notation "x <- m ;; k" := (ebind m (fun x => k))
  (at level 61, m at next level, right associativity).
Notation "' p <- m ;; k" := (ebind m (fun v => match v with p => k end))
  (at level 61, p pattern, m at next level, right associativity).

(** State and exception: the state reached when an exception is raised
    is part of the result. *)
Definition SE (S A : Type) : Type := S -> S * exc A.

Definition ret {S A : Type} (a : A) : SE S A := fun s => (s, Ok a).

Definition throw {S A : Type} (e : exn) : SE S A := fun s => (s, Raise e).

Definition sbind {S A B : Type} (m : SE S A) (k : A -> SE S B) : SE S B :=
  fun s =>
    match m s with
    | (s', Ok a) => k a s'
    | (s', Raise e) => (s', Raise e)
    end.

Definition lift {S A : Type} (m : exc A) : SE S A := fun s => (s, m).

Definition gets {S A : Type} (f : S -> A) : SE S A := fun s => (s, Ok (f s)).

Definition modify {S : Type} (f : S -> S) : SE S unit :=
  fun s => (f s, Ok tt).

Definition when {S : Type} (b : bool) (m : SE S unit) : SE S unit :=
  if b then m else ret tt.

Notation "x <~ m ;; k" := (sbind m (fun x => k))
  (at level 61, m at next level, right associativity).
Notation "m ;;; k" := (sbind m (fun _ => k))
  (at level 61, right associativity).

(** ** Strings: the [str] and [bytes] methods the program uses *)

Module Str.

Fixpoint take (n : nat) (s : string) : string :=
  match n, s with
  | S n', String c s' => String c (take n' s')
  | _, _ => ""
  end.

Fixpoint drop (n : nat) (s : string) : string :=
  match n, s with
  | S n', String _ s' => drop n' s'
  | _, _ => s
  end.

Definition len (s : string) : Z := Z.of_nat (String.length s).

(** [s[:k]]: a negative [k] counts from the end. *)
Definition slice_to (s : string) (k : Z) : string :=
  if 0 <=? k then take (Z.to_nat k) s
  else take (Z.to_nat (Z.max 0 (len s + k))) s.

(** [s[k:]]: a negative [k] counts from the end. *)
Definition slice_from (s : string) (k : Z) : string :=
  if 0 <=? k then drop (Z.to_nat k) s
  else drop (Z.to_nat (Z.max 0 (len s + k))) s.

(** [s.find(c)] for a one-character [c]: first index, or [-1]. *)
Fixpoint find (c : ascii) (s : string) : Z :=
  match s with
  | "" => -1
  | String a s' =>
      if Ascii.eqb a c then 0
      else let r := find c s' in if r <? 0 then -1 else r + 1
  end.

(** [s.split(c)] for a one-character separator, no limit. *)
Fixpoint split_all (c : ascii) (s : string) : list string :=
  match s with
  | "" => [""]
  | String a s' =>
      if Ascii.eqb a c then "" :: split_all c s'
      else match split_all c s' with
           | x :: r => String a x :: r
           | [] => [String a ""]
           end
  end.

(** [s.split(c, maxsplit)]: at most [maxsplit] cuts, from the left. *)
Fixpoint split (c : ascii) (maxsplit : nat) (s : string) : list string :=
  match maxsplit with
  | O => [s]
  | S m =>
      match s with
      | "" => [""]
      | String a s' =>
          if Ascii.eqb a c then "" :: split c m s'
          else match split c maxsplit s' with
               | x :: r => String a x :: r
               | [] => [String a ""]
               end
      end
  end.

Fixpoint join (sep : string) (l : list string) : string :=
  match l with
  | [] => ""
  | [x] => x
  | x :: r => x ++ sep ++ join sep r
  end.

Fixpoint repeat (s : string) (n : nat) : string :=
  match n with
  | O => ""
  | S n' => s ++ repeat s n'
  end.

Fixpoint starts_with (p s : string) : bool :=
  match p, s with
  | "", _ => true
  | String a p', String b s' => Ascii.eqb a b && starts_with p' s'
  | _, _ => false
  end.

(** [p in s] for byte strings: [p] occurs as a contiguous block of [s]. *)
Fixpoint contains (p s : string) : bool :=
  starts_with p s ||
  match s with
  | "" => false
  | String _ s' => contains p s'
  end.

Definition is_space (a : ascii) : bool :=
  let n := N_of_ascii a in
  ((9 <=? n) && (n <=? 13) || (28 <=? n) && (n <=? 32))%N.

Fixpoint lstrip (s : string) : string :=
  match s with
  | String a s' => if is_space a then lstrip s' else s
  | "" => ""
  end.

Fixpoint rstrip (s : string) : string :=
  match s with
  | "" => ""
  | String a s' =>
      match rstrip s' with
      | "" => if is_space a then "" else String a ""
      | r => String a r
      end
  end.

Definition strip (s : string) : string := rstrip (lstrip s).

Definition is_digit (a : ascii) : bool :=
  let n := N_of_ascii a in ((48 <=? n) && (n <=? 57))%N.

Definition digit_val (a : ascii) : Z := Z.of_N (N_of_ascii a) - 48.

Definition of_Z (z : Z) : string := NilZero.string_of_int (Z.to_int z).

End Str.

(** ** Python values, as [json.loads] builds them *)

Inductive value : Type :=
| VNone
| VBool (b : bool)
| VInt (z : Z)
| VFloat (q : Q)
| VStr (s : string)
| VList (l : list value)
| VDict (kv : list (string * value)).

(** What the runtime and the standard library do and the model leaves
    open: [float_repr] is [repr] of a float, [str_repr] is [repr] of a
    str, [bytes_decode enc b] is [b.decode(enc)], [basename] is
    [os.path.basename]. *)
Class Host : Type := {
  float_repr : Q -> string;
  str_repr : string -> string;
  bytes_decode : string -> string -> exc string;
  basename : string -> string
}.

Module Py.

(** *** Numbers *)

Definition mkQ (n d : Z) : Q := Qred (Qmake n (Z.to_pos d)).

(** [int(x)] of a float: towards zero. *)
Definition trunc (q : Q) : Z := Z.quot (Qnum q) (Zpos (Qden q)).

(** [round(x)] of a float: to the nearest integer, ties to even. *)
Definition round_half_even (q : Q) : Z :=
  let n := Qnum q in
  let d := Zpos (Qden q) in
  let f := n / d in
  match 2 * (n mod d) ?= d with
  | Lt => f
  | Gt => f + 1
  | Eq => if Z.even f then f else f + 1
  end.

(** [round(x, k)] of a float. *)
Definition round_to (k : nat) (q : Q) : Q :=
  let p := 10 ^ Z.of_nat k in
  mkQ (round_half_even (Qred (q * inject_Z p))) p.

Definition is_zero (q : Q) : bool := Qnum q =? 0.

Definition qlt (a b : Q) : bool :=
  match Qcompare a b with Lt => true | _ => false end.

(** [a / b] on numbers: true division, a float. *)
Definition truediv (a b : Q) : exc Q :=
  if is_zero b then Raise ZeroDivisionError else Ok (Qred (a / b)).

(** *** Reading numbers from text *)

(** A run of decimal digits in which single underscores may separate
    digits; [seen] tells that the previous character was a digit. *)
Fixpoint digits_acc (acc : Z) (seen : bool) (s : string) : option Z :=
  match s with
  | "" => if seen then Some acc else None
  | String a s' =>
      if Str.is_digit a then digits_acc (acc * 10 + Str.digit_val a) true s'
      else if Ascii.eqb a "_" && seen then digits_acc acc false s'
      else None
  end.

Definition digits (s : string) : option Z := digits_acc 0 false s.

Fixpoint count_digits (s : string) : nat :=
  match s with
  | "" => O
  | String a s' => if Str.is_digit a then S (count_digits s') else count_digits s'
  end.

Definition signed {A : Type} (f : string -> option A) (neg : A -> A)
    (s : string) : option A :=
  match s with
  | String "-" r => option_map neg (f r)
  | String "+" r => f r
  | _ => f s
  end.

(** [int(s)] of a str: blanks around, a sign, digits. *)
Definition parse_int (s : string) : option Z :=
  signed digits Z.opp (Str.strip s).

(** Cut at the first [e] or [E]. *)
Fixpoint cut_exponent (s : string) : string * option string :=
  match s with
  | "" => ("", None)
  | String a s' =>
      if Ascii.eqb a "e" || Ascii.eqb a "E" then ("", Some s')
      else let '(m, e) := cut_exponent s' in (String a m, e)
  end.

Definition opt_digits (s : string) : option Z :=
  match s with "" => Some 0 | _ => digits s end.

(** The unsigned part of a decimal float literal:
    [digits [. digits] [e [sign] digits]], one of the two digit runs
    around the point may be empty. *)
Definition parse_mantissa (s : string) : option Q :=
  let '(m, e) := cut_exponent s in
  match Str.split "." 1 m with
  | [i] =>
      match digits i, e with
      | Some n, None => Some (mkQ n 1)
      | Some n, Some es =>
          match signed digits Z.opp es with
          | Some x => Some (Qred (inject_Z n * Qpower 10 x))
          | None => None
          end
      | None, _ => None
      end
  | [i; f] =>
      match i, f with
      | "", "" => None
      | _, _ =>
          match opt_digits i, opt_digits f with
          | Some n, Some k =>
              let p := 10 ^ Z.of_nat (count_digits f) in
              let q := mkQ (n * p + k) p in
              match e with
              | None => Some q
              | Some es =>
                  match signed digits Z.opp es with
                  | Some x => Some (Qred (q * Qpower 10 x))
                  | None => None
                  end
              end
          | _, _ => None
          end
      end
  | _ => None
  end.

(** [float(s)] of a str, decimal notation; the words [inf], [infinity]
    and [nan], which Python also reads, have no value here. *)
Definition parse_float (s : string) : option Q :=
  signed parse_mantissa Qopp (Str.strip s).

(** *** Operations on values *)

Definition truthy (v : value) : bool :=
  match v with
  | VNone => false
  | VBool b => b
  | VInt z => negb (z =? 0)
  | VFloat q => negb (is_zero q)
  | VStr s => negb (String.eqb s "")
  | VList l => match l with [] => false | _ => true end
  | VDict kv => match kv with [] => false | _ => true end
  end.

Definition is_none (v : value) : bool :=
  match v with VNone => true | _ => false end.

(** [v == s] for a str literal [s]. *)
Definition eq_str (v : value) (s : string) : bool :=
  match v with VStr t => String.eqb t s | _ => false end.

Definition of_opt {A : Type} (e : exn) (o : option A) : exc A :=
  match o with Some a => Ok a | None => Raise e end.

(** [int(v)] *)
Definition int (v : value) : exc Z :=
  match v with
  | VInt z => Ok z
  | VBool b => Ok (if b then 1 else 0)
  | VFloat q => Ok (trunc q)
  | VStr s => of_opt ValueError (parse_int s)
  | _ => Raise TypeError
  end.

(** [float(v)] *)
Definition float (v : value) : exc Q :=
  match v with
  | VInt z => Ok (inject_Z z)
  | VBool b => Ok (if b then 1%Q else 0%Q)
  | VFloat q => Ok q
  | VStr s => of_opt ValueError (parse_float s)
  | _ => Raise TypeError
  end.

Fixpoint assoc (k : string) (kv : list (string * value)) : option value :=
  match kv with
  | [] => None
  | (k', v) :: r => if String.eqb k' k then Some v else assoc k r
  end.

(** [v[k]] for a str key [k] *)
Definition getitem (v : value) (k : string) : exc value :=
  match v with
  | VDict kv => of_opt KeyError (assoc k kv)
  | _ => Raise TypeError
  end.

(** [v.get(k, dflt)] *)
Definition get (v : value) (k : string) (dflt : value) : exc value :=
  match v with
  | VDict kv => Ok (match assoc k kv with Some x => x | None => dflt end)
  | _ => Raise AttributeError
  end.

(** [v.find(c)] *)
Definition find (v : value) (c : ascii) : exc Z :=
  match v with
  | VStr s => Ok (Str.find c s)
  | _ => Raise AttributeError
  end.

(** [a, b = v.split(c, n)] *)
Definition split2 (v : value) (c : ascii) (n : nat) : exc (string * string) :=
  match v with
  | VStr s =>
      match Str.split c n s with
      | [a; b] => Ok (a, b)
      | _ => Raise ValueError
      end
  | _ => Raise AttributeError
  end.

(** [a, b, c = v.split(c, n)] *)
Definition split3 (v : value) (c : ascii) (n : nat)
    : exc (string * string * string) :=
  match v with
  | VStr s =>
      match Str.split c n s with
      | [a; b; d] => Ok (a, b, d)
      | _ => Raise ValueError
      end
  | _ => Raise AttributeError
  end.

(** A number as an operand of arithmetic *)
Definition num (v : value) : exc Q :=
  match v with
  | VInt z => Ok (inject_Z z)
  | VBool b => Ok (if b then 1%Q else 0%Q)
  | VFloat q => Ok q
  | _ => Raise TypeError
  end.

(** [v > n] for an int literal [n] *)
Definition gt_int (v : value) (n : Z) : exc bool :=
  match v with
  | VInt z => Ok (n <? z)
  | VBool b => Ok (n <? (if b then 1 else 0))
  | VFloat q => Ok (qlt (inject_Z n) q)
  | _ => Raise TypeError
  end.

Section WithHost.
Context `{Host}.

(** [repr(v)] *)
Fixpoint repr (v : value) : string :=
  match v with
  | VNone => "None"
  | VBool b => if b then "True" else "False"
  | VInt z => Str.of_Z z
  | VFloat q => float_repr q
  | VStr s => str_repr s
  | VList l => "[" ++ Str.join ", " (map repr l) ++ "]"
  | VDict kv =>
      "{" ++ Str.join ", "
        (map (fun p => match p with
                       | (k, x) => str_repr k ++ ": " ++ repr x
                       end) kv) ++ "}"
  end.

(** [str(v)], also what an f-string puts for [{v}] *)
Definition str (v : value) : string :=
  match v with
  | VStr s => s
  | _ => repr v
  end.

End WithHost.

End Py.

(** ** Unit converters *)

Module Units.

(** [f"{z:02d}"] *)
Definition fmt_02d (z : Z) : string :=
  if (0 <=? z) && (z <? 10) then "0" ++ Str.of_Z z else Str.of_Z z.

(** [f"{q:.2f}"]: two decimals, nearest, ties to even *)
Definition fmt_2f (q : Q) : string :=
  let k := Py.round_half_even (Qred (Qabs q * 100)) in
  (if Py.qlt q 0 then "-" else "")
  ++ Str.of_Z (k / 100) ++ "." ++ fmt_02d (k mod 100).

Section WithHost.
Context `{Host}.

(** [sec_hum(sec)]: seconds to [H:M:S.N] *)
Definition sec_hum (sec : value) : exc string :=
  n <- Py.int sec ;;
  d <- (if negb (Str.find "." (Py.str sec) =? -1)
        then match Str.split_all "." (Py.str sec) with
             | _ :: x :: _ => Ok (Str.slice_to x 3)
             | _ => Raise IndexError
             end
        else Ok "0") ;;
  let r := n mod 3600 in
  Ok (fmt_02d (n / 3600) ++ ":" ++ fmt_02d (r / 60) ++ ":"
      ++ fmt_02d (r mod 60) ++ "." ++ d).

End WithHost.

Definition units : list string :=
  ["B"; "KB"; "MB"; "GB"; "TB"; "PB"; "EB"; "ZB"; "YB"].

(** The [for s in units] loop of [size_hum], with its [else] clause. *)
Fixpoint size_hum_loop (neg : nat) (old : Z) (size : Q) (n : Q)
    (us : list string) : exc string :=
  match us with
  | [] => Ok (Str.repeat "-" neg ++ Str.of_Z old)
  | s :: rest =>
      q <- Py.truediv n size ;;
      if Py.qlt q 1 then Ok (Str.repeat "-" neg ++ fmt_2f n ++ s)
      else n' <- Py.truediv n size ;; size_hum_loop neg old size n' rest
  end.

(** [size_hum(n, size)] *)
Definition size_hum (n : Z) (size : Q) : exc string :=
  let neg := if 0 <=? n then O else 1%nat in
  let old := n in
  size_hum_loop neg old size (inject_Z (Z.abs n)) units.

(** [bitrate_hum = lambda x: f'{int(x/1000)}kb/s'] *)
Definition bitrate_hum (x : value) : exc string :=
  q <- Py.num x ;;
  k <- Py.truediv q 1000 ;;
  Ok (Str.of_Z (Py.trunc k) ++ "kb/s").

(** [shorten(s, max_length, placeholder)] *)
Definition shorten (s : string) (max_length : Z) (placeholder : string)
    : string :=
  if Str.len s <=? max_length then s
  else if max_length <=? Str.len placeholder then Str.slice_to s max_length
  else
    let remaining := max_length - Str.len placeholder in
    let head_length := remaining / 2 in
    let tail_length := remaining - head_length in
    Str.slice_to s head_length ++ placeholder
    ++ Str.slice_from s (- tail_length).

(** [hms2sec(d)]: [H:M:S.NNN] to seconds *)
Definition hms2sec (d : value) : exc Q :=
  '(_h, _m, _s) <- Py.split3 d ":" 3 ;;
  h <- Py.int (VStr _h) ;;
  m <- Py.int (VStr _m) ;;
  s <- Py.float (VStr _s) ;;
  Ok (Qred (inject_Z (h * 3600 + m * 60) + s)).

End Units.

(** A host for evaluation: floats print in positional notation with the
    digits of their exact decimal expansion (at most 17 after the point),
    strings are quoted with apostrophes, bytes decode to themselves and a
    path's base name is what follows its last slash or backslash. *)
Module SimpleHost.

Fixpoint frac_digits (fuel : nat) (r d : Z) : string :=
  match fuel with
  | O => ""
  | S f =>
      if r =? 0 then ""
      else Str.of_Z (r * 10 / d) ++ frac_digits f (r * 10 mod d) d
  end.

Definition float_repr (q : Q) : string :=
  let n := Z.abs (Qnum q) in
  let d := Zpos (Qden q) in
  (if Qnum q <? 0 then "-" else "") ++ Str.of_Z (n / d) ++ "."
  ++ (if n mod d =? 0 then "0" else frac_digits 17 (n mod d) d).

Fixpoint basename_acc (cur s : string) : string :=
  match s with
  | "" => cur
  | String a s' =>
      if Ascii.eqb a "/" || Ascii.eqb a "\" then basename_acc "" s'
      else basename_acc (cur ++ String a "") s'
  end.

#[global] Instance host : Host := {
  float_repr := float_repr;
  str_repr := fun s => "'" ++ s ++ "'";
  bytes_decode := fun _ b => Ok b;
  basename := basename_acc ""
}.

End SimpleHost.

(** ** The progress notifier *)

Module Notifier.

(** *** The four patterns, searched as [re.search] does: the leftmost
    position at which the pattern matches *)

Definition all_digits (l : list ascii) : bool := forallb Str.is_digit l.

Definition str2 (a b : ascii) : string := String a (String b "").

(** [(\d{2}):(\d{2}):(\d{2})\.\d{2}] at the head of [s] *)
Definition match_clock (s : string) : option (string * string * string) :=
  match s with
  | String h1 (String h2 (String ":" (String m1 (String m2 (String ":"
      (String s1 (String s2 (String "." (String f1 (String f2 _)))))))))) =>
      if all_digits [h1; h2; m1; m2; s1; s2; f1; f2]
      then Some (str2 h1 h2, str2 m1 m2, str2 s1 s2)
      else None
  | _ => None
  end.

(** [prefix] followed by a clock, anywhere in [s] *)
Fixpoint search_clock (prefix s : string) : option (string * string * string) :=
  match (if Str.starts_with prefix s
         then match_clock (Str.drop (String.length prefix) s)
         else None) with
  | Some g => Some g
  | None =>
      match s with
      | "" => None
      | String _ s' => search_clock prefix s'
      end
  end.

(** [_DURATION_RX.search(line)], the three groups *)
Definition DURATION_RX : string -> option (string * string * string) :=
  search_clock "Duration: ".

(** [_PROGRESS_RX.search(line)], the three groups *)
Definition PROGRESS_RX : string -> option (string * string * string) :=
  search_clock "time=".

(** [(\d{2}\.\d{2}|\d{2}) fps] at the head of [s]: the first alternative
    is tried first, the second when the first does not lead to a match *)
Definition match_fps (s : string) : option string :=
  let alt1 :=
    match s with
    | String a (String b (String "." (String c (String d r)))) =>
        if all_digits [a; b; c; d] && Str.starts_with " fps" r
        then Some (String a (String b (String "." (String c (String d "")))))
        else None
    | _ => None
    end in
  match alt1 with
  | Some g => Some g
  | None =>
      match s with
      | String a (String b r) =>
          if all_digits [a; b] && Str.starts_with " fps" r
          then Some (str2 a b)
          else None
      | _ => None
      end
  end.

(** [_FPS_RX.search(line)], group 1 *)
Fixpoint FPS_RX (s : string) : option string :=
  match match_fps s with
  | Some g => Some g
  | None =>
      match s with
      | "" => None
      | String _ s' => FPS_RX s'
      end
  end.

(** The longest [x] without a line feed such that [s] starts with [x]
    followed by an apostrophe and a colon: the greedy group of
    [_SOURCE_RX] and the two characters after it *)
Fixpoint greedy_quote (s : string) : option string :=
  let here := if Str.starts_with "':" s then Some "" else None in
  match s with
  | "" => here
  | String a s' =>
      if Ascii.eqb a "010" then here
      else match greedy_quote s' with
           | Some x => Some (String a x)
           | None => here
           end
  end.

(** [_SOURCE_RX.search(line)], group 1 *)
Fixpoint SOURCE_RX (s : string) : option string :=
  match (if Str.starts_with "from '" s
         then greedy_quote (Str.drop 6 s) else None) with
  | Some g => Some g
  | None =>
      match s with
      | "" => None
      | String _ s' => SOURCE_RX s'
      end
  end.

(** *** The object and its surroundings *)

(** The [tqdm] bar, as far as the notifier uses it: the arguments it is
    created with and the counter [n] that [update] advances. *)
Record pbar : Type := mk_pbar {
  bar_desc : option string;
  bar_total : option Z;
  bar_unit : string;
  bar_n : Z
}.

(** [tqdm(desc=..., total=..., unit=...)]: a new bar, its counter at 0 *)
Definition tqdm (desc : option string) (total : option Z) (unit : string)
    : pbar := mk_pbar desc total unit 0.

(** [bar.update(k)]: the counter advances by [k] *)
Definition update (k : Z) (p : pbar) : pbar :=
  mk_pbar (bar_desc p) (bar_total p) (bar_unit p) (bar_n p + k).

Record notifier : Type := mk_notifier {
  lines : list string;
  line_acc : string;
  duration : option Z;
  source : option string;
  started : bool;
  bar : option pbar;
  fps : option Z;
  encoding : string
}.

(** What the notifier writes to and reads from: the text printed to
    [self.file], the lines [input()] will return, and the messages put
    on the [stdin] queue. *)
Record world : Type := mk_world {
  out : list string;
  tty : list string;
  queue : list string
}.

Definition state : Type := notifier * world.

(** [__init__(file, encoding, tqdm)] *)
Definition init (enc : string) : notifier :=
  mk_notifier [] "" None None false None None enc.

Definition set_lines (l : list string) (o : notifier) : notifier :=
  mk_notifier l (line_acc o) (duration o) (source o) (started o) (bar o)
    (fps o) (encoding o).
Definition set_line_acc (a : string) (o : notifier) : notifier :=
  mk_notifier (lines o) a (duration o) (source o) (started o) (bar o)
    (fps o) (encoding o).
Definition set_duration (d : option Z) (o : notifier) : notifier :=
  mk_notifier (lines o) (line_acc o) d (source o) (started o) (bar o)
    (fps o) (encoding o).
Definition set_source (x : option string) (o : notifier) : notifier :=
  mk_notifier (lines o) (line_acc o) (duration o) x (started o) (bar o)
    (fps o) (encoding o).
Definition set_bar (b : option pbar) (o : notifier) : notifier :=
  mk_notifier (lines o) (line_acc o) (duration o) (source o) (started o) b
    (fps o) (encoding o).
Definition set_fps (f : option Z) (o : notifier) : notifier :=
  mk_notifier (lines o) (line_acc o) (duration o) (source o) (started o)
    (bar o) f (encoding o).

Definition on_self (f : notifier -> notifier) : SE state unit :=
  modify (fun s => (f (fst s), snd s)).

Definition self {A : Type} (f : notifier -> A) : SE state A :=
  gets (fun s => f (fst s)).

(** [l[-2:]] *)
Definition last2 {A : Type} (l : list A) : list A :=
  skipn (List.length l - 2) l.

(** [_seconds(hours, minutes, seconds)] *)
Definition _seconds (hours minutes seconds : string) : exc Z :=
  h <- Py.int (VStr hours) ;;
  m <- Py.int (VStr minutes) ;;
  s <- Py.int (VStr seconds) ;;
  Ok ((h * 60 + m) * 60 + s).

(** [newline(self)] *)
Definition newline : SE state string :=
  line <~ self line_acc ;;
  on_self (fun o => set_lines (lines o ++ [line])%list o) ;;;
  on_self (fun o => set_lines (last2 (lines o)) o) ;;;
  on_self (set_line_acc "") ;;;
  ret line.

(** [get_fps(self, line)] *)
Definition get_fps (line : string) : exc (option Z) :=
  match FPS_RX line with
  | Some g => q <- Py.float (VStr g) ;; Ok (Some (Py.round_half_even q))
  | None => Ok None
  end.

(** [get_duration(self, line)] *)
Definition get_duration (line : string) : exc (option Z) :=
  match DURATION_RX line with
  | Some (h, m, s) => d <- _seconds h m s ;; Ok (Some d)
  | None => Ok None
  end.

Section WithHost.
Context `{Host}.

(** [get_source(self, line)] *)
Definition get_source (enc : string) (line : string) : exc (option string) :=
  match SOURCE_RX line with
  | Some g =>
      p <- bytes_decode enc g ;;
      Ok (Some (Units.shorten (basename p) 50 "[...]"))
  | None => Ok None
  end.

(** [progress(self, line)] *)
Definition progress (line : string) : SE state unit :=
  match PROGRESS_RX line with
  | Some (h, m, s) =>
      total <~ self duration ;;
      current <~ lift (_seconds h m s) ;;
      f <~ self fps ;;
      let '(unit, current, total) :=
        match f with
        | Some fps =>
            (" frames", current * fps,
             match total with
             | Some t => if t =? 0 then total else Some (t * fps)
             | None => total
             end)
        | None => (" seconds", current, total)
        end in
      b <~ self bar ;;
      when (match b with None => true | Some _ => false end)
        (src <~ self source ;;
         on_self (set_bar (Some (tqdm src total unit)))) ;;;
      on_self (fun o => set_bar (option_map (fun p => update (current - bar_n p) p)
                                   (bar o)) o)
  | None => ret tt
  end.

(** The argument [char] of [__call__]: a [bytes] or a [str] object. *)
Inductive chunk : Type :=
| Bytes (b : string)
| Text (s : string).

Definition CRLF : string := String "013" (String "010" "").

(** [input()]: the next line of the terminal, [EOFError] at its end *)
Definition input : SE state string :=
  fun s =>
    match tty (snd s) with
    | l :: r => ((fst s, mk_world (out (snd s)) r (queue (snd s))), Ok l)
    | [] => (s, Raise EOFError)
    end.

(** [print(text, end="", file=self.file)] *)
Definition print (text : string) : SE state unit :=
  modify (fun s => (fst s, mk_world (out (snd s) ++ [text])%list
                             (tty (snd s)) (queue (snd s)))).

(** [stdin.put(msg)] *)
Definition put (msg : string) : SE state unit :=
  modify (fun s => (fst s, mk_world (out (snd s)) (tty (snd s))
                             (queue (snd s) ++ [msg])%list)).

(** The branch of [__call__] taken on a carriage return or line feed *)
Definition on_separator : SE state unit :=
  line <~ newline ;;
  d <~ self duration ;;
  when (match d with None => true | _ => false end)
    (x <~ lift (get_duration line) ;; on_self (set_duration x)) ;;;
  src <~ self source ;;
  when (match src with None => true | _ => false end)
    (enc <~ self encoding ;;
     x <~ lift (get_source enc line) ;; on_self (set_source x)) ;;;
  f <~ self fps ;;
  when (match f with None => true | _ => false end)
    (x <~ lift (get_fps line) ;; on_self (set_fps x)) ;;;
  progress line.

(** The branch of [__call__] taken on any other bytes *)
Definition on_other (char : string) (stdin : bool) : SE state unit :=
  on_self (fun o => set_line_acc (line_acc o ++ char) o) ;;;
  acc <~ self line_acc ;;
  when (String.eqb (Str.slice_from acc (-6)) "[y/N] ")
    (enc <~ self encoding ;;
     text <~ lift (bytes_decode enc acc) ;;
     print text ;;;
     when stdin (l <~ input ;; put (l ++ String "010" "")) ;;;
     _ <~ newline ;;
     ret tt).

(** [__call__(self, char, stdin)]; [stdin] tells that a queue was
    passed. *)
Definition call (char : chunk) (stdin : bool) : SE state unit :=
  match char with
  | Text _ => throw TypeError
  | Bytes c =>
      if Str.contains c CRLF then on_separator else on_other c stdin
  end.

(** A loop feeding chunks, as [call_ffmpeg] does with the bytes it reads;
    it stops at the first exception. *)
Fixpoint feed (cs : list chunk) (stdin : bool) : SE state unit :=
  match cs with
  | [] => ret tt
  | c :: r => call c stdin ;;; feed r stdin
  end.

End WithHost.

(** The bytes of [s], one chunk each *)
Fixpoint bytes_of (s : string) : list chunk :=
  match s with
  | "" => []
  | String a s' => Bytes (String a "") :: bytes_of s'
  end.

End Notifier.

(** ** Metadata extractors *)

Module Meta.

(** [int(a) / int(b)] for the two halves of a [num/den] text *)
Definition ratio (a b : string) : exc Q :=
  x <- Py.int (VStr a) ;;
  y <- Py.int (VStr b) ;;
  Py.truediv (inject_Z x) (inject_Z y).

(** [calc_bitrate(d, a, file_size, duration)] *)
Definition calc_bitrate (d a : value) (file_size : Z) (duration : Q)
    : exc value :=
  let bitrate := VInt 0 in
  f <- Py.get a "format" VNone ;;
  bitrate <- (if Py.truthy f
              then x <- Py.get f "bit_rate" (VStr "0") ;;
                   z <- Py.int x ;; Ok (VInt z)
              else Ok bitrate) ;;
  bitrate <- (if negb (Py.truthy bitrate)
              then tags <- Py.get d "tags" VNone ;;
                   if Py.truthy tags
                   then x <- Py.get tags "BPS-eng" (VStr "0") ;;
                        z <- Py.int x ;; Ok (VInt z)
                   else Ok bitrate
              else Ok bitrate) ;;
  if negb (Py.truthy bitrate)
  then
    duration <-
      (if Py.is_zero duration
       then _duration_ts <- Py.get d "duration_ts" VNone ;;
            if negb (Py.is_none _duration_ts)
            then _time_base <- Py.get d "time_base" VNone ;;
                 if negb (Py.is_none _time_base)
                 then '(_time_base_a, _time_base_b) <-
                        Py.split2 _time_base "/" 2 ;;
                      ts <- Py.int _duration_ts ;;
                      x <- Py.int (VStr _time_base_a) ;;
                      y <- Py.int (VStr _time_base_b) ;;
                      Py.truediv (inject_Z (ts * x)) (inject_Z y)
                 else Ok duration
            else Ok duration
       else Ok duration) ;;
    if negb (Py.is_zero duration)
    then q <- Py.truediv (inject_Z (file_size * 8)) duration ;;
         Ok (VFloat q)
    else Ok bitrate
  else Ok bitrate.

(** The text of a frame rate, [num/den] or a number: the two [else]
    branches of [calc_fps] *)
Definition parse_rate (fps : value) : exc value :=
  i <- Py.find fps "/" ;;
  if negb (i =? -1)
  then '(_a, _b) <- Py.split2 fps "/" 2 ;;
       q <- ratio _a _b ;;
       Ok (VFloat (Py.round_to 3 q))
  else
    j <- Py.find fps "." ;;
    if j =? -1
    then z <- Py.int fps ;; Ok (VInt z)
    else q <- Py.float fps ;; Ok (VFloat (Py.round_to 3 q)).

(** [calc_fps(d, duration)] *)
Definition calc_fps (d : value) (duration : Q) : exc value :=
  fps <- Py.get d "r_frame_rate" VNone ;;
  if Py.is_none fps
  then
    fps <- Py.get d "avg_frame_rate" VNone ;;
    if Py.is_none fps
    then
      tag <- Py.get d "tags" VNone ;;
      if negb (Py.is_none tag)
      then x <- Py.get tag "NUMBER_OF_FRAMES-eng" (VStr "0") ;;
           _frames <- Py.int x ;;
           if negb (_frames =? 0) && negb (Py.is_zero duration)
           then q <- Py.truediv (inject_Z _frames) duration ;;
                Ok (VFloat (Py.round_to 3 q))
           else Ok fps
      else Ok fps
    else parse_rate fps
  else parse_rate fps.

Section WithHost.
Context `{Host}.

(** The two tags read first, for video and for audio *)
Definition duration_tags (tags : value) : exc value :=
  duration <- Py.get tags "DURATION-eng" (VStr "") ;;
  if negb (Py.truthy duration)
  then Py.get tags "DURATION" (VStr "")
  else Ok duration.

(** The [elif (f := a.get('format'))] branch, for video and for audio *)
Definition duration_format (a : value) (duration : value) : exc value :=
  f <- Py.get a "format" VNone ;;
  if Py.truthy f
  then duration <- Py.get f "duration" (VStr "") ;;
       if Py.truthy duration
       then q <- Py.float duration ;;
            t <- Units.sec_hum (VFloat q) ;; Ok (VStr t)
       else Ok duration
  else Ok duration.

(** Lines 281 to 290: the frame count over the whole frames per second
    of [avg_frame_rate] *)
Definition duration_frames (d tags : value) (duration : value) : exc value :=
  x <- Py.get tags "NUMBER_OF_FRAMES-eng" (VStr "0") ;;
  _frames <- Py.int x ;;
  _frm_per_sec <- Py.get d "avg_frame_rate" (VStr "0") ;;
  i <- Py.find _frm_per_sec "/" ;;
  _frm_per_sec <-
    (if negb (i =? -1)
     then '(_a, _b) <- Py.split2 _frm_per_sec "/" 2 ;;
          q <- ratio _a _b ;; Ok (Py.trunc q)
     else Py.int _frm_per_sec) ;;
  if negb (_frames =? 0) && negb (_frm_per_sec =? 0)
  then q <- Py.truediv (inject_Z _frames) (inject_Z _frm_per_sec) ;;
       t <- Units.sec_hum (VFloat q) ;; Ok (VStr t)
  else Ok duration.

(** [calc_duration(d, a)] *)
Definition calc_duration (d a : value) : exc value :=
  let duration := VStr "" in
  codec_type <- Py.getitem d "codec_type" ;;
  if Py.eq_str codec_type "video" then
    tags <- Py.get d "tags" VNone ;;
    if Py.truthy tags then
      duration <- duration_tags tags ;;
      if negb (Py.truthy duration)
      then duration_frames d tags duration
      else Ok duration
    else duration_format a duration
  else if Py.eq_str codec_type "audio" then
    tags <- Py.get d "tags" VNone ;;
    duration <-
      (if Py.truthy tags then
         duration <- duration_tags tags ;;
         if negb (Py.truthy duration) then
           x <- Py.get tags "BPS-eng" (VStr "0") ;;
           _bps <- Py.int x ;;
           y <- Py.get tags "NUMBER_OF_BYTES-eng" (VStr "0") ;;
           _bytes <- Py.int y ;;
           if negb (_bps =? 0) && negb (_bytes =? 0)
           then q <- Py.truediv (inject_Z (_bytes * 8)) (inject_Z _bps) ;;
                t <- Units.sec_hum (VFloat q) ;; Ok (VStr t)
           else Ok duration
         else Ok duration
       else duration_format a duration) ;;
    if negb (Py.truthy duration) then
      _time_base <- Py.get d "time_base" VNone ;;
      if negb (Py.is_none _time_base) then
        '(_time_base_a, _time_base_b) <- Py.split2 _time_base "/" 2 ;;
        _nb_frames <- Py.get d "nb_frames" VNone ;;
        if negb (Py.is_none _nb_frames) then
          nb <- Py.int _nb_frames ;;
          x <- Py.int (VStr _time_base_a) ;;
          y <- Py.int (VStr _time_base_b) ;;
          q <- Py.truediv (inject_Z (nb * x)) (inject_Z y) ;;
          t <- Units.sec_hum (VFloat q) ;; Ok (VStr t)
        else Ok duration
      else Ok duration
    else Ok duration
  else if Py.eq_str codec_type "subtitle" then
    tags <- Py.get d "tags" VNone ;;
    if Py.truthy tags
    then Py.get tags "DURATION-eng" (VStr "")
    else Ok duration
  else Ok duration.

End WithHost.

End Meta.

(** ** The stream classifier and plan builder *)

Module Hevc.

(** [InfoResult] *)
Record InfoResult : Type := mk_info {
  main_encoder : value;
  main_bitrate : value;
  main_fps : value;
  main_resolution : string;
  main_duration : value;
  cmd_main_stream : string;
  cmd_copy_stream : string;
  desc : string
}.

(** [Result] *)
Record Result : Type := mk_result {
  is_valid : bool;
  err : string;
  info : InfoResult
}.

(** The local variables of [check_hevc] that outlive one stream *)
Record locals : Type := mk_locals {
  l_valid : bool;
  l_err : string;
  l_info : InfoResult;
  _i_v : Z;
  _i_a : Z;
  _i_s : Z;
  cmd_vf : string
}.

Definition locals0 : locals :=
  mk_locals false "" (mk_info (VStr "") (VInt 0) (VInt 0) "" (VStr "") "" "" "")
    0 0 0 "".

Definition result_of (l : locals) : Result :=
  mk_result (l_valid l) (l_err l) (l_info l).

Definition on_info (f : InfoResult -> InfoResult) (l : locals) : locals :=
  mk_locals (l_valid l) (l_err l) (f (l_info l)) (_i_v l) (_i_a l) (_i_s l)
    (cmd_vf l).

Definition set_main_encoder (x : value) (i : InfoResult) : InfoResult :=
  mk_info x (main_bitrate i) (main_fps i) (main_resolution i)
    (main_duration i) (cmd_main_stream i) (cmd_copy_stream i) (desc i).
Definition set_main_bitrate (x : value) (i : InfoResult) : InfoResult :=
  mk_info (main_encoder i) x (main_fps i) (main_resolution i)
    (main_duration i) (cmd_main_stream i) (cmd_copy_stream i) (desc i).
Definition set_main_fps (x : value) (i : InfoResult) : InfoResult :=
  mk_info (main_encoder i) (main_bitrate i) x (main_resolution i)
    (main_duration i) (cmd_main_stream i) (cmd_copy_stream i) (desc i).
Definition set_main_resolution (x : string) (i : InfoResult) : InfoResult :=
  mk_info (main_encoder i) (main_bitrate i) (main_fps i) x
    (main_duration i) (cmd_main_stream i) (cmd_copy_stream i) (desc i).
Definition set_main_duration (x : value) (i : InfoResult) : InfoResult :=
  mk_info (main_encoder i) (main_bitrate i) (main_fps i) (main_resolution i)
    x (cmd_main_stream i) (cmd_copy_stream i) (desc i).
Definition set_cmd_main_stream (x : string) (i : InfoResult) : InfoResult :=
  mk_info (main_encoder i) (main_bitrate i) (main_fps i) (main_resolution i)
    (main_duration i) x (cmd_copy_stream i) (desc i).
Definition set_cmd_copy_stream (x : string) (i : InfoResult) : InfoResult :=
  mk_info (main_encoder i) (main_bitrate i) (main_fps i) (main_resolution i)
    (main_duration i) (cmd_main_stream i) x (desc i).
Definition set_desc (x : string) (i : InfoResult) : InfoResult :=
  mk_info (main_encoder i) (main_bitrate i) (main_fps i) (main_resolution i)
    (main_duration i) (cmd_main_stream i) (cmd_copy_stream i) x.

Definition set_valid (b : bool) (l : locals) : locals :=
  mk_locals b (l_err l) (l_info l) (_i_v l) (_i_a l) (_i_s l) (cmd_vf l).
Definition set_err (e : string) (l : locals) : locals :=
  mk_locals (l_valid l) e (l_info l) (_i_v l) (_i_a l) (_i_s l) (cmd_vf l).
Definition set_i_v (z : Z) (l : locals) : locals :=
  mk_locals (l_valid l) (l_err l) (l_info l) z (_i_a l) (_i_s l) (cmd_vf l).
Definition set_i_a (z : Z) (l : locals) : locals :=
  mk_locals (l_valid l) (l_err l) (l_info l) (_i_v l) z (_i_s l) (cmd_vf l).
Definition set_i_s (z : Z) (l : locals) : locals :=
  mk_locals (l_valid l) (l_err l) (l_info l) (_i_v l) (_i_a l) z (cmd_vf l).
Definition set_cmd_vf (s : string) (l : locals) : locals :=
  mk_locals (l_valid l) (l_err l) (l_info l) (_i_v l) (_i_a l) (_i_s l) s.

(** How a pass through the loop body ends: at its end, or at the
    [return] of line 403. *)
Inductive flow : Type := Next | Return.

(** The double quote that opens and closes the filter text. *)
Definition dq : string := String "034" "".

Definition scale_pad : string :=
  "scale=1920:-1:force_original_aspect_ratio=decrease,pad=1920:1080:(ow-iw)/2:(oh-ih)/2".

(** Lines 386 to 389 and 396 to 399: the filter [x] opens the text of
    [cmd_vf] when it is empty and is added after a comma otherwise *)
Definition add_filter (x : string) : SE locals unit :=
  modify (fun l => set_cmd_vf
                     (if negb (Py.truthy (VStr (cmd_vf l)))
                      then "-vf " ++ dq ++ x
                      else cmd_vf l ++ "," ++ x) l).

(** [-map 0:t:i -c:t:i ] *)
Definition map_codec (t : string) (i : Z) : string :=
  "-map 0:" ++ t ++ ":" ++ Str.of_Z i ++ " -c:" ++ t ++ ":" ++ Str.of_Z i
  ++ " ".

Definition add_copy (x : string) : SE locals unit :=
  modify (on_info (fun i => set_cmd_copy_stream (cmd_copy_stream i ++ x) i)).

Definition add_desc (x : string) : SE locals unit :=
  modify (on_info (fun i => set_desc (desc i ++ x) i)).

Definition nl : string := String "010" "".

(** What [enumerate] iterates over: the items of a list, the keys of a
    dict, the characters of a str. *)
Definition iterate (v : value) : exc (list value) :=
  match v with
  | VList l => Ok l
  | VDict kv => Ok (map (fun p => VStr (fst p)) kv)
  | VStr s => Ok (map (fun a => VStr (String a "")) (list_ascii_of_string s))
  | _ => Raise TypeError
  end.

Section WithHost.
Context `{Host}.

(** The main video stream: lines 381 to 407 *)
Definition main_stream (_d _codec_name _codec_type _duration _bitrate : value)
    : SE locals flow :=
  modify (on_info (fun i => set_main_bitrate _bitrate
                              (set_main_encoder _codec_name i))) ;;;
  iv <~ gets _i_v ;;
  modify (on_info (set_cmd_main_stream (map_codec "v" iv ++ "hevc_amf "))) ;;;
  _main_fps <~ lift (q <- Units.hms2sec _duration ;; Meta.calc_fps _d q) ;;
  modify (on_info (set_main_fps _main_fps)) ;;;
  fast <~ lift (Py.gt_int _main_fps 32) ;;
  when fast (add_filter "fps=30") ;;;
  r <~ lift (w <- Py.get _d "width" (VStr "") ;;
             h <- Py.get _d "height" (VStr "") ;;
             Ok (Py.str w ++ "x" ++ Py.str h)) ;;
  modify (on_info (set_main_resolution r)) ;;;
  when (Str.len r <? 5)
    (r' <~ lift (w <- Py.get _d "coded_width" (VStr "") ;;
                 h <- Py.get _d "coded_height" (VStr "") ;;
                 Ok (Py.str w ++ "x" ++ Py.str h)) ;;
     modify (on_info (set_main_resolution r'))) ;;;
  _main_resolution <~ gets (fun l => main_resolution (l_info l)) ;;
  big <~ lift ('(w, h) <- Py.split2 (VStr _main_resolution) "x" 2 ;;
               iw <- Py.int (VStr w) ;;
               if 1920 <? iw
               then ih <- Py.int (VStr h) ;; Ok (1080 <? ih)
               else Ok false) ;;
  when big (add_filter scale_pad) ;;;
  if negb (Py.truthy _bitrate) || negb (Py.truthy _duration)
     || negb (Py.truthy _main_fps)
  then modify (set_err "empty main_bitrate/duration/fps") ;;; ret Return
  else
    modify (on_info (set_main_duration _duration)) ;;;
    line <~ lift (pix <- Py.get _d "pix_fmt" (VStr "") ;;
                  fo <- Py.get _d "field_order" (VStr "") ;;
                  dar <- Py.get _d "display_aspect_ratio" (VStr "") ;;
                  b <- Units.bitrate_hum _bitrate ;;
                  Ok (Py.str _duration ++ ", " ++ Py.str _codec_type ++ ":"
                      ++ Py.str _codec_name ++ " " ++ Py.str pix ++ "("
                      ++ Py.str fo ++ "), " ++ Py.str dar ++ " "
                      ++ _main_resolution ++ "@" ++ Py.str _main_fps
                      ++ "fps " ++ b ++ nl)) ;;
    add_desc line ;;;
    modify (fun l => set_i_v (_i_v l + 1) l) ;;;
    ret Next.

(** Every other stream: lines 409 to 441 *)
Definition other_stream (_d _codec_name _codec_type _pix_fmt _bitrate : value)
    : SE locals flow :=
  if Py.eq_str _codec_type "video" then
    (if negb (Py.eq_str _pix_fmt "yuv420p") then ret tt
     else
       iv <~ gets _i_v ;;
       add_copy (map_codec "v" iv ++ "copy ") ;;;
       _ <~ lift (Units.bitrate_hum _bitrate) ;; ret tt) ;;;
    modify (fun l => set_i_v (_i_v l + 1) l) ;;;
    ret Next
  else if Py.eq_str _codec_type "audio" then
    ia <~ gets _i_a ;;
    (if negb (Py.eq_str _codec_name "aac")
     then add_copy (map_codec "a" ia ++ "aac -async 1 -apad 1 ")
     else add_copy (map_codec "a" ia ++ "copy ")) ;;;
    line <~ lift (b <- Units.bitrate_hum _bitrate ;;
                  _sample_rate <- Py.get _d "sample_rate" (VStr "") ;;
                  _channel_layout <- Py.get _d "channel_layout" (VStr "") ;;
                  Ok (Py.str _codec_type ++ ":" ++ Py.str _codec_name ++ " "
                      ++ Py.str _sample_rate ++ " " ++ Py.str _channel_layout
                      ++ " " ++ b ++ nl)) ;;
    add_desc line ;;;
    modify (fun l => set_i_a (_i_a l + 1) l) ;;;
    ret Next
  else if Py.eq_str _codec_type "subtitle" then
    k <~ gets _i_s ;;
    add_copy (map_codec "s" k) ;;;
    add_copy "copy " ;;;
    line <~ lift (b <- Units.bitrate_hum _bitrate ;;
                  Ok (Py.str _codec_type ++ ":" ++ Py.str _codec_name ++ " "
                      ++ b ++ nl)) ;;
    add_desc line ;;;
    modify (fun l => set_i_s (_i_s l + 1) l) ;;;
    ret Next
  else if Py.eq_str _codec_type "data" && Py.eq_str _codec_name "bin_data"
  then ret Next
  else _ <~ lift (Units.bitrate_hum _bitrate) ;; ret Next.

(** The body of the [for] loop, for one stream [_d] *)
Definition stream (j_data : value) (_old_size : Z) (_d : value)
    : SE locals flow :=
  _codec_name <~ lift (Py.getitem _d "codec_name") ;;
  _codec_type <~ lift (Py.getitem _d "codec_type") ;;
  _pix_fmt <~ lift (Py.get _d "pix_fmt" (VStr "N/A")) ;;
  sec <~ lift (x <- Py.get _d "duration" (VInt 0) ;;
               q <- Py.float x ;; Ok (Py.trunc q)) ;;
  _bitrate <~ lift (x <- Py.get _d "bit_rate" (VStr "N/A") ;;
                    if negb (Py.eq_str x "N/A")
                    then y <- Py.get _d "bit_rate" (VInt 0) ;; Py.int y
                    else Ok 0) ;;
  _duration <~ lift (if negb (sec =? 0)
                     then t <- Units.sec_hum (VInt sec) ;; Ok (VStr t)
                     else Ok (VInt sec)) ;;
  _duration <~ lift (if negb (Py.truthy _duration)
                     then Meta.calc_duration _d j_data
                     else Ok _duration) ;;
  (if Py.truthy _duration then ret tt else throw AssertionError) ;;;
  _bitrate <~ lift (if _bitrate =? 0
                    then q <- Units.hms2sec _duration ;;
                         Meta.calc_bitrate _d j_data _old_size q
                    else Ok (VInt _bitrate)) ;;
  enc <~ gets (fun l => main_encoder (l_info l)) ;;
  if negb (Py.truthy enc) && Py.eq_str _codec_type "video"
     && negb (Py.eq_str _codec_name "mjpeg")
  then main_stream _d _codec_name _codec_type _duration _bitrate
  else other_stream _d _codec_name _codec_type _pix_fmt _bitrate.

(** [for _i, _d in enumerate(...)], left at the first [return] *)
Fixpoint for_streams (j_data : value) (_old_size : Z) (ds : list value)
    : SE locals flow :=
  match ds with
  | [] => ret Next
  | _d :: rest =>
      f <~ stream j_data _old_size _d ;;
      match f with
      | Next => for_streams j_data _old_size rest
      | Return => ret Return
      end
  end.

(** Lines 442 to 448, after the loop *)
Definition finish : SE locals unit :=
  vf <~ gets cmd_vf ;;
  when (Py.truthy (VStr vf))
    (modify (set_cmd_vf (vf ++ dq ++ " ")) ;;;
     vf <~ gets cmd_vf ;;
     modify (on_info (fun i => set_cmd_main_stream (vf ++ cmd_main_stream i) i)) ;;;
     when (Str.contains "scale=1920" vf)
       (modify (on_info (fun i => set_cmd_main_stream
                                    (cmd_main_stream i ++ " -s 1920x1080 ") i)))) ;;;
  i <~ gets l_info ;;
  when (Py.truthy (main_encoder i) && Py.truthy (main_bitrate i)
        && Py.truthy (main_fps i) && Py.truthy (VStr (main_resolution i))
        && Py.truthy (main_duration i) && Py.truthy (VStr (cmd_main_stream i))
        && Py.truthy (VStr (cmd_copy_stream i)))
    (modify (set_valid true)).

(** What the probe tool left on its standard output: nothing, text that
    [json.loads] rejects, or a document. *)
Inductive probe_stdout : Type :=
| Empty
| Garbage
| Doc (j_data : value).

(** The file and the probe run, as [check_hevc] sees them: the size of the
    file ([None] when it does not exist) and the two output channels of
    the probe tool. *)
Record probe : Type := mk_probe {
  st_size : option Z;
  stdout : probe_stdout;
  stderr : string
}.

(** The body of the [try] statement *)
Definition try_body (_old_size : Z) (out : probe_stdout) : SE locals unit :=
  match out with
  | Empty => ret tt
  | Garbage => throw ValueError
  | Doc j_data =>
      ds <~ lift (x <- Py.getitem j_data "streams" ;; iterate x) ;;
      f <~ for_streams j_data _old_size ds ;;
      match f with
      | Return => ret tt
      | Next => finish
      end
  end.

(** [check_hevc(fname, ffprobe)] *)
Definition check_hevc (p : probe) : Result :=
  match st_size p with
  | None => result_of (set_err "file not exist or 0 bytes" locals0)
  | Some _old_size =>
      if _old_size =? 0
      then result_of (set_err "file not exist or 0 bytes" locals0)
      else
        match try_body _old_size (stdout p) locals0 with
        | (l, Ok _) => result_of l
        | (l, Raise _) => result_of (set_err (stderr p) l)
        end
  end.

End WithHost.

End Hevc.

(** ** The batch driver: the test for an output that already exists *)

Module Driver.

(** [abs(b)] of a bool *)
Definition abs_bool (b : bool) : Z := Z.abs (if b then 1 else 0).

(** [_valid and abs(hms2sec(_dur) < hms2sec(_main_duration)) < 2], line
    536 *)
Definition skip_converted (_valid : bool) (_dur _main_duration : value)
    : exc bool :=
  if _valid
  then a <- Units.hms2sec _dur ;;
       b <- Units.hms2sec _main_duration ;;
       Ok (abs_bool (Py.qlt a b) <? 2)
  else Ok false.

(** [(_old_size - _new_size) if _new_size else 0], line 596; the new
    size is 0 when the output does not exist *)
Definition single_saved (_old_size _new_size : Z) : Z :=
  if negb (_new_size =? 0) then _old_size - _new_size else 0.

(** How lines 598 to 620 count one conversion. *)
Inductive outcome : Type := Converted | ConvertError.

(** The test of line 598 and, in its [else] branch, the warning of line
    617, whose text holds the difference of the two durations.  The
    difference is the exact one: it is the difference the code computes
    when both durations and their difference are held exactly by a
    float, as for whole seconds. *)
Definition judge (_valid : bool) (_single_saved : Z)
    (_dur _main_duration : value) : exc outcome :=
  ok <- (if _valid && (0 <? _single_saved)
         then a <- Units.hms2sec _dur ;;
              b <- Units.hms2sec _main_duration ;;
              Ok (Py.qlt (Qabs (a - b)) 2)
         else Ok false) ;;
  if ok then Ok Converted
  else a <- Units.hms2sec _dur ;;
       b <- Units.hms2sec _main_duration ;;
       Ok ConvertError.

(** One run of the encoder as the loop of [call_ffmpeg] sees it: what
    each [read(1)] returned, the last one being the one after which
    [poll()] reported the exit, and the exit code. *)
Record run : Type := mk_run {
  reads : list string;
  last_read : string;
  returncode : Z
}.

(** All that the loop read from the encoder in a run. *)
Definition output (r : run) : string :=
  fold_right append "" (reads r ++ [last_read r])%list.

(** Every [read(1)] returned one byte or none. *)
Definition bytewise (r : run) : Prop :=
  forall out, In out (reads r ++ [last_read r])%list ->
              (String.length out <= 1)%nat.

Section WithHost.
Context `{Host}.

(** The [while] loop of lines 187 to 193, over the reads of a run *)
Fixpoint pump (outs : list string) : SE Notifier.state unit :=
  match outs with
  | [] => ret tt
  | out :: rest =>
      when (Py.truthy (VStr out)) (Notifier.call (Notifier.Bytes out) false) ;;;
      pump rest
  end.

(** [call_ffmpeg(cmd, use_tqdm)], for a run of the encoder that is not
    interrupted from the keyboard.  The notifier is local to the call;
    an exception of the loop is raised again by the handler of line 196,
    and the [else] clause of the [try] is outside every handler. *)
Definition call_ffmpeg (r : run) (use_tqdm : bool)
    : SE Notifier.world unit :=
  if negb use_tqdm then ret tt
  else
    fun w =>
      let '((notifier, w'), e) :=
        (pump (reads r ++ [last_read r])%list ;;;
         when (negb (returncode r =? 0))
           (ls <~ Notifier.self Notifier.lines ;;
            enc <~ Notifier.self Notifier.encoding ;;
            match List.last (map Some ls) None with
            | None => throw IndexError
            | Some l => _ <~ lift (bytes_decode enc l) ;; ret tt
            end)) (Notifier.init "utf8", w) in
      (w', e).

(** What the loop of [main] does with one file. *)
Inductive decision : Type :=
| Skip        (* [skipped += 1; continue] *)
| CheckErr    (* [check_err += 1; continue] *)
| Convert.    (* the encoder is started *)

(** [MIN_SIZE = 0.5 * 1024 * 1024 * 1024] *)
Definition MIN_SIZE : Z := 536870912.

(** Lines 493 to 546 for one file: [size1] and [size2] are the two
    sizes read at lines 496 and 514, [h265] tells that the name without
    its extension ends with [.H265], [src] is what [check_hevc] finds for
    the file, and [out] what it finds for the converted name, [None]
    when no such file exists. *)
Definition decide (size1 size2 : Z) (h265 : bool) (src : Hevc.probe)
    (out : option Hevc.probe) : exc decision :=
  if size1 <? MIN_SIZE then Ok Skip
  else if h265 then
    let r := Hevc.check_hevc src in
    if Hevc.is_valid r && Py.eq_str (Hevc.main_encoder (Hevc.info r)) "hevc"
    then Ok Skip else Ok Skip
  else if size2 =? 0 then Ok Skip
  else
    let r := Hevc.check_hevc src in
    if Py.truthy (VStr (Hevc.err r)) then Ok CheckErr
    else if negb (Hevc.is_valid r)
            || negb (Py.truthy (Hevc.main_encoder (Hevc.info r)))
    then Ok Skip
    else
      done <- match out with
              | Some o =>
                  let r' := Hevc.check_hevc o in
                  skip_converted (Hevc.is_valid r')
                    (Hevc.main_duration (Hevc.info r'))
                    (Hevc.main_duration (Hevc.info r))
              | None => Ok false
              end ;;
      if done then Ok Skip
      else
        let _need :=
          negb (Py.eq_str (Hevc.main_encoder (Hevc.info r)) "hevc")
          && negb (Py.eq_str (Hevc.main_encoder (Hevc.info r)) "av1") in
        if negb _need then Ok Skip else Ok Convert.

End WithHost.

(** Lines 565 to 574: the share of the main bit rate to aim at, by the
    size of the source; the sizes are those of 4, 3, 2 and 1 GiB *)
Definition factor (_old_size : Z) : Q :=
  if 4 * 1024 * 1024 * 1024 <? _old_size then 0.6
  else if 3 * 1024 * 1024 * 1024 <=? _old_size then 0.65
  else if 2 * 1024 * 1024 * 1024 <=? _old_size then 0.7
  else if 1 * 1024 * 1024 * 1024 <=? _old_size then 0.75
  else 0.8.

End Driver.

(** ** The fallback chains, as the specification words them *)

Module Spec.

(** The container-level [bit_rate], 0 when there is none *)
Definition container_bitrate (a : value) : exc Z :=
  f <- Py.get a "format" VNone ;;
  if Py.truthy f
  then x <- Py.get f "bit_rate" (VStr "0") ;; Py.int x
  else Ok 0.

(** The tag [BPS-eng], 0 when there is none *)
Definition tag_bitrate (d : value) : exc Z :=
  tags <- Py.get d "tags" VNone ;;
  if Py.truthy tags
  then x <- Py.get tags "BPS-eng" (VStr "0") ;; Py.int x
  else Ok 0.

(** [duration_ts] times [time_base], [dflt] when one of them is absent *)
Definition stream_seconds (d : value) (dflt : Q) : exc Q :=
  _duration_ts <- Py.get d "duration_ts" VNone ;;
  if Py.is_none _duration_ts then Ok dflt
  else
    _time_base <- Py.get d "time_base" VNone ;;
    if Py.is_none _time_base then Ok dflt
    else
      '(x, y) <- Py.split2 _time_base "/" 2 ;;
      ts <- Py.int _duration_ts ;;
      x <- Py.int (VStr x) ;;
      y <- Py.int (VStr y) ;;
      Py.truediv (inject_Z (ts * x)) (inject_Z y).

(** File size in bits over the duration in seconds; the duration is the
    one supplied, or the stream's own when none was supplied.  The
    quotient is a float; without a duration the value is the int 0. *)
Definition computed_bitrate (d : value) (file_size : Z) (duration : Q)
    : exc value :=
  seconds <- (if Py.is_zero duration then stream_seconds d duration
              else Ok duration) ;;
  if Py.is_zero seconds then Ok (VInt 0)
  else q <- Py.truediv (inject_Z (file_size * 8)) seconds ;; Ok (VFloat q).

(** First non-zero wins: container, tag, computed. *)
Definition derived_bitrate (d a : value) (file_size : Z) (duration : Q)
    : exc value :=
  b <- container_bitrate a ;;
  if negb (b =? 0) then Ok (VInt b)
  else
    b <- tag_bitrate d ;;
    if negb (b =? 0) then Ok (VInt b)
    else computed_bitrate d file_size duration.

(** A value is an integer number: an int (a bool is one in Python). *)
Definition is_int (v : value) : bool :=
  match v with
  | VInt _ | VBool _ => true
  | _ => false
  end.

End Spec.

(** ** Sample inputs *)

Module Samples.

(** A video stream and a container, both without a bit rate. *)
Definition no_bitrate_stream : value :=
  VDict [("index", VInt 0); ("codec_name", VStr "h264");
         ("codec_type", VStr "video"); ("pix_fmt", VStr "yuv420p");
         ("width", VInt 1280); ("height", VInt 720);
         ("r_frame_rate", VStr "25/1"); ("duration", VStr "3.000000")].

Definition aac_stream : value :=
  VDict [("index", VInt 1); ("codec_name", VStr "aac");
         ("codec_type", VStr "audio"); ("duration", VStr "3.000000");
         ("bit_rate", VStr "128000")].

Definition no_bitrate_doc : value :=
  VDict [("streams", VList [no_bitrate_stream; aac_stream]);
         ("format", VDict [("filename", VStr "a.mp4");
                           ("duration", VStr "3.000000")])].



(** A file whose only stream is a video stream that has every field. *)
Definition video_only : value :=
  VDict [("streams",
          VList [VDict [("index", VInt 0); ("codec_name", VStr "h264");
                        ("codec_type", VStr "video");
                        ("pix_fmt", VStr "yuv420p");
                        ("width", VInt 1280); ("height", VInt 720);
                        ("r_frame_rate", VStr "30/1");
                        ("duration", VStr "10.000000");
                        ("bit_rate", VStr "1000000")]]);
         ("format", VDict [("duration", VStr "10.000000");
                           ("bit_rate", VStr "1100000")])].

(** The same video stream with an audio stream after it. *)
Definition video_audio : value :=
  VDict [("streams",
          VList [VDict [("index", VInt 0); ("codec_name", VStr "h264");
                        ("codec_type", VStr "video");
                        ("pix_fmt", VStr "yuv420p");
                        ("width", VInt 1280); ("height", VInt 720);
                        ("r_frame_rate", VStr "30/1");
                        ("duration", VStr "10.000000");
                        ("bit_rate", VStr "1000000")];
                 VDict [("index", VInt 1); ("codec_name", VStr "mp3");
                        ("codec_type", VStr "audio");
                        ("duration", VStr "10.000000");
                        ("bit_rate", VStr "128000")]]);
         ("format", VDict [("duration", VStr "10.000000");
                           ("bit_rate", VStr "1100000")])].

End Samples.

(** ** Reasoning about state and exception computations *)

(** From a state in [P], the computation ends in a state in [Q a] when it
    returns [a] and in a state in [E] when it raises. *)
Definition triple {S A : Type} (P : S -> Prop) (m : SE S A)
    (Q : A -> S -> Prop) (E : S -> Prop) : Prop :=
  forall s, P s ->
    match m s with
    | (s', Ok a) => Q a s'
    | (s', Raise _) => E s'
    end.

(** [I] holds after the computation when it held before, however the
    computation ends. *)
Definition inv {S A : Type} (I : S -> Prop) (m : SE S A) : Prop :=
  triple I m (fun _ => I) I.

(** ** The notifier, as the specification words it *)

Module NotifierSpec.

Import Notifier.

(** The bytes of [l], appended one by one to a buffer holding [acc],
    neither end a line nor complete the prompt. *)
Fixpoint plain (acc l : string) : bool :=
  match l with
  | "" => true
  | String a r =>
      negb (Str.contains (String a "") CRLF)
      && negb (String.eqb (Str.slice_from (acc ++ String a "") (-6)) "[y/N] ")
      && plain (acc ++ String a "") r
  end.

Section WithHost.
Context `{Host}.

(** The prompt as the specification has it: the partial line is echoed,
    a line of input is read and queued with a line feed, and the partial
    line is then handled as a completed line is. *)
Definition prompt_as_completed_line (char : string) : SE state unit :=
  on_self (fun o => set_line_acc (line_acc o ++ char) o) ;;;
  acc <~ self line_acc ;;
  enc <~ self encoding ;;
  text <~ lift (bytes_decode enc acc) ;;
  print text ;;;
  l <~ input ;;
  put (l ++ String "010" "") ;;;
  on_separator.

End WithHost.

End NotifierSpec.

(** ** Conditions on the state and the result of [check_hevc] *)

Module HevcSpec.

Import Hevc.

(** The main duration is still empty, or [hms2sec] reads it. *)
Abbreviation duration_ok :=
  (fun l : locals =>
     main_duration (l_info l) = VStr ""
     \/ exists q, Units.hms2sec (main_duration (l_info l)) = Ok q).

(** The condition of line 447, on the record returned. *)
Abbreviation all_set :=
  (fun i : InfoResult =>
     Py.truthy (main_encoder i) = true
     /\ Py.truthy (main_bitrate i) = true
     /\ Py.truthy (main_fps i) = true
     /\ main_resolution i <> ""
     /\ Py.truthy (main_duration i) = true
     /\ cmd_main_stream i <> ""
     /\ cmd_copy_stream i <> "").

(** The main fragment and the main resolution are not empty. *)
Abbreviation main_filled :=
  (fun l : locals =>
     cmd_main_stream (l_info l) <> "" /\ main_resolution (l_info l) <> "").

(** Once the main stream set its duration, its fragment and its
    resolution are there. *)
Abbreviation fragments_ok :=
  (fun l : locals =>
     Py.truthy (main_duration (l_info l)) = true -> main_filled l).

Abbreviation no_rate_text := "empty main_bitrate/duration/fps"%string.

(** The error text after one stream: still empty when the loop goes on,
    the text of line 402 at the [return]. *)
Definition err_after (f : flow) (l : locals) : Prop :=
  match f with
  | Next => l_err l = ""
  | Return => l_err l = no_rate_text
  end.

(** The fields of the main stream and what goes with them. *)
Definition main_part (l : locals)
    : value * value * value * string * value * string * string * string :=
  (main_encoder (l_info l), main_bitrate (l_info l), main_fps (l_info l),
   main_resolution (l_info l), main_duration (l_info l),
   cmd_main_stream (l_info l), cmd_vf l, l_err l).

(** A stream that can become the main one: a video stream whose codec
    is not mjpeg, the second and third part of the test of line 380. *)
Definition main_candidate (_d : value) : bool :=
  match Py.getitem _d "codec_name", Py.getitem _d "codec_type" with
  | Ok _codec_name, Ok _codec_type =>
      Py.eq_str _codec_type "video" && negb (Py.eq_str _codec_name "mjpeg")
  | _, _ => false
  end.

(** A main encoder is set and the main fields are [m0]. *)
Abbreviation frozen m0 :=
  (fun l : locals =>
     Py.truthy (main_encoder (l_info l)) = true /\ main_part l = m0).

End HevcSpec.

(** ** Characters of a string *)

Module Chars.

(** Every character of [s] satisfies [p]. *)
Fixpoint all (p : ascii -> bool) (s : string) : bool :=
  match s with
  | "" => true
  | String a s' => p a && all p s'
  end.

(** [s.count(c)] for a one-character [c] *)
Fixpoint count (c : ascii) (s : string) : nat :=
  match s with
  | "" => O
  | String a s' => if Ascii.eqb a c then S (count c s') else count c s'
  end.

(** A digit or the minus sign: the characters of [str(z)] for an int. *)
Definition numeric (a : ascii) : bool := Str.is_digit a || Ascii.eqb a "-".

End Chars.

(* ================================================================== *)
(** * Part II. Properties *)
(* ================================================================== *)

(** ** Case analysis on the exception monad *)

(** One step: split on a computation under a bind, on a test, or on a
    pair that is taken apart. *)
Ltac split_cond b :=
  lazymatch b with
  | negb ?x => split_cond x
  | andb ?x _ => split_cond x
  | orb ?x _ => split_cond x
  | true => fail
  | false => fail
  | _ => destruct b eqn:?
  end.

Ltac exc_step :=
  match goal with
  | |- context [if ?b then _ else _] => split_cond b
  | |- context [match ?p with (_, _) => _ end] => destruct p
  | |- context [ebind ?m _] =>
      lazymatch m with
      | Ok _ => fail
      | Raise _ => fail
      | ebind _ _ => fail
      | (if _ then _ else _) => fail
      | _ => destruct m eqn:?
      end
  end.

(** ** Strings *)

Lemma length_take (n : nat) (s : string) :
  String.length (Str.take n s) = Nat.min n (String.length s).
Proof.
  revert s; induction n as [|n IH]; intros [|c s]; simpl; auto.
Qed.

Lemma take_all (n : nat) (s : string) :
  (String.length s <= n)%nat -> Str.take n s = s.
Proof.
  revert s; induction n as [|n IH]; intros [|c s]; simpl; intros Hl;
    try reflexivity; try lia.
  rewrite IH by lia. reflexivity.
Qed.

Lemma length_drop (n : nat) (s : string) :
  String.length (Str.drop n s) = (String.length s - n)%nat.
Proof.
  revert s; induction n as [|n IH]; intros [|c s]; simpl; auto.
Qed.

Lemma length_app (a b : string) :
  String.length (a ++ b) = (String.length a + String.length b)%nat.
Proof.
  induction a as [|c a IH]; simpl; auto.
Qed.

(** ** shorten *)

Section Shorten.

Variables (s placeholder : string) (max_length : Z).

Abbreviation budget := (max_length - Str.len placeholder).

Lemma shorten_fits :
  Str.len s <= max_length -> Units.shorten s max_length placeholder = s.
Proof.
  intros Hl. unfold Units.shorten.
  destruct (Z.leb_spec (Str.len s) max_length); [reflexivity | lia].
Qed.

Lemma shorten_cut :
  max_length < Str.len s -> 0 <= max_length <= Str.len placeholder ->
  Units.shorten s max_length placeholder = Str.take (Z.to_nat max_length) s.
Proof.
  intros Hl [H0 Hp]. unfold Units.shorten, Str.slice_to.
  destruct (Z.leb_spec (Str.len s) max_length); [lia|].
  destruct (Z.leb_spec max_length (Str.len placeholder)); [|lia].
  destruct (Z.leb_spec 0 max_length); [reflexivity | lia].
Qed.

Lemma shorten_middle :
  max_length < Str.len s -> Str.len placeholder < max_length ->
  Units.shorten s max_length placeholder
  = Str.take (Z.to_nat (budget / 2)) s ++ placeholder
    ++ Str.drop (String.length s - Z.to_nat ((budget + 1) / 2)) s.
Proof.
  intros Hl Hp. unfold Units.shorten, Str.slice_to, Str.slice_from.
  destruct (Z.leb_spec (Str.len s) max_length); [lia|].
  destruct (Z.leb_spec max_length (Str.len placeholder)); [lia|].
  assert (Hb : 0 < budget) by lia.
  assert (Hc : budget - budget / 2 = (budget + 1) / 2)
    by (Z.div_mod_to_equations; lia).
  assert (Hh : 0 <= budget / 2) by (Z.div_mod_to_equations; lia).
  assert (Ht : 0 < (budget + 1) / 2) by (Z.div_mod_to_equations; lia).
  rewrite Hc.
  destruct (Z.leb_spec 0 (budget / 2)); [|lia].
  destruct (Z.leb_spec 0 (- ((budget + 1) / 2))); [lia|].
  do 3 f_equal. unfold Str.len in *. lia.
Qed.

End Shorten.

(** C9.  [shorten] returns [s] when it fits; a prefix of [max_length]
    characters when [max_length] (a length, so not negative) is at most
    the length of the placeholder; and otherwise a head of the floor half
    of the budget [max_length - len(placeholder)], the placeholder, and a
    tail of the ceiling half.  The six cases of the docstring hold.  For a
    negative [max_length] the slice [s[:max_length]] drops characters from
    the end. *)
Theorem shorten_spec (s placeholder : string) (max_length : Z) :
  let budget := max_length - Str.len placeholder in
  let head := Str.take (Z.to_nat (budget / 2)) s in
  let tail := Str.drop (String.length s - Z.to_nat ((budget + 1) / 2)) s in
  (Str.len s <= max_length ->
     Units.shorten s max_length placeholder = s)
  /\ (max_length < Str.len s -> 0 <= max_length <= Str.len placeholder ->
        Units.shorten s max_length placeholder
        = Str.take (Z.to_nat max_length) s
        /\ Str.len (Units.shorten s max_length placeholder) = max_length)
  /\ (max_length < Str.len s -> Str.len placeholder < max_length ->
        Units.shorten s max_length placeholder = head ++ placeholder ++ tail
        /\ Str.len head = budget / 2
        /\ Str.len tail = (budget + 1) / 2
        /\ budget / 2 + (budget + 1) / 2 = budget
        /\ Str.len (Units.shorten s max_length placeholder) = max_length)
  /\ (max_length < 0 ->
        Units.shorten s max_length placeholder
        = Str.take (Z.to_nat (Str.len s + max_length)) s)
  /\ Units.shorten "123456789" 5 "..." = "1...9"
  /\ Units.shorten "123456789" 6 "..." = "1...89"
  /\ Units.shorten "123456789" 7 "..." = "12...89"
  /\ Units.shorten "123456789" 3 "..." = "123"
  /\ Units.shorten "123456789" 0 "..." = ""
  /\ Units.shorten "123456789" 10 "..." = "123456789".
Proof.
  intros budget head tail.
  split; [apply shorten_fits|].
  split.
  { intros Hl Hp. rewrite shorten_cut by assumption. split; [reflexivity|].
    unfold Str.len in *. rewrite length_take. lia. }
  split.
  { intros Hl Hp.
    assert (Hb : 0 < budget) by (unfold budget; lia).
    assert (Hh : 0 <= budget / 2 < budget) by (Z.div_mod_to_equations; lia).
    assert (Ht : 0 < (budget + 1) / 2 <= budget)
      by (Z.div_mod_to_equations; lia).
    assert (Hs : budget / 2 + (budget + 1) / 2 = budget)
      by (Z.div_mod_to_equations; lia).
    assert (Lh : Str.len head = budget / 2).
    { unfold head, Str.len in *. rewrite length_take. unfold budget in *. lia. }
    assert (Lt : Str.len tail = (budget + 1) / 2).
    { unfold tail, Str.len in *. rewrite length_drop. unfold budget in *. lia. }
    rewrite shorten_middle by assumption. fold budget head tail.
    repeat split; try assumption.
    unfold Str.len in *. rewrite !length_app. unfold budget in *. lia. }
  split.
  { intros Hn. unfold Units.shorten, Str.slice_to.
    assert (0 <= Str.len s) by (unfold Str.len; lia).
    assert (0 <= Str.len placeholder) by (unfold Str.len; lia).
    destruct (Z.leb_spec (Str.len s) max_length); [lia|].
    destruct (Z.leb_spec max_length (Str.len placeholder)); [|lia].
    destruct (Z.leb_spec 0 max_length); [lia|].
    f_equal. lia. }
  repeat split; reflexivity.
Qed.

(** The seven-character budget of the docstring: two at the head, the
    dots, two at the tail. *)
Lemma shorten_spec_witness :
  Units.shorten "123456789" 7 "..."
  = Str.take 2 "123456789" ++ "..." ++ Str.drop 7 "123456789".
Proof.
  refine (proj1 (proj1 (proj2 (proj2 (shorten_spec "123456789" "..." 7)))
                   _ _)); reflexivity.
Defined.

(** ** size_hum *)

Lemma qlt_true (a b : Q) : Py.qlt a b = true <-> (a < b)%Q.
Proof.
  unfold Py.qlt. rewrite Qlt_alt.
  destruct (a ?= b)%Q; split; intros E; congruence.
Qed.

Lemma qlt_false (a b : Q) : Py.qlt a b = false <-> (b <= a)%Q.
Proof.
  rewrite <- Bool.not_true_iff_false, qlt_true. split.
  - apply Qnot_lt_le.
  - apply Qle_not_lt.
Qed.

Lemma qlt_proper (a a' b b' : Q) :
  (a == a')%Q -> (b == b')%Q -> Py.qlt a b = Py.qlt a' b'.
Proof.
  intros Ha Hb. unfold Py.qlt. rewrite Ha, Hb. reflexivity.
Qed.

Lemma fmt_2f_proper (a b : Q) : (a == b)%Q -> Units.fmt_2f a = Units.fmt_2f b.
Proof.
  intros E. unfold Units.fmt_2f.
  rewrite (qlt_proper a b 0 0 E (Qeq_refl 0)).
  assert (R : Qred (Qabs a * 100) = Qred (Qabs b * 100)).
  { apply Qred_complete. rewrite E. reflexivity. }
  rewrite R. reflexivity.
Qed.

Lemma truediv_1024 (q : Q) : Py.truediv q 1024 = Ok (Qred (q / 1024)).
Proof. reflexivity. Qed.

Lemma pow1024_pos (k : nat) : 0 < 1024 ^ Z.of_nat k.
Proof. apply Z.pow_pos_nonneg; lia. Qed.

Lemma pow1024_ge1 (k : nat) : 1 <= 1024 ^ Z.of_nat k.
Proof.
  generalize (pow1024_pos k). generalize (1024 ^ Z.of_nat k). intros; lia.
Qed.

Lemma pow1024_S (k : nat) :
  1024 ^ Z.of_nat (S k) = 1024 * 1024 ^ Z.of_nat k.
Proof. rewrite Nat2Z.inj_succ, Z.pow_succ_r by lia. reflexivity. Qed.

Lemma div1024_le (q : Q) (z : Z) :
  (inject_Z (1024 * z) <= q)%Q -> (inject_Z z <= q / 1024)%Q.
Proof.
  intros Hq. apply Qle_shift_div_l; [reflexivity|].
  rewrite inject_Z_mult in Hq. rewrite Qmult_comm. exact Hq.
Qed.

Lemma div1024_lt (q : Q) (z : Z) :
  (q < inject_Z (1024 * z))%Q -> (q / 1024 < inject_Z z)%Q.
Proof.
  intros Hq. apply Qlt_shift_div_r; [reflexivity|].
  rewrite inject_Z_mult in Hq. rewrite Qmult_comm. exact Hq.
Qed.

(** The loop runs through every unit when the number is at least
    [1024 ^ len(units)]. *)
Lemma size_hum_loop_exhaust (neg : nat) (old : Z) (us : list string) :
  forall q : Q,
    (inject_Z (1024 ^ Z.of_nat (List.length us)) <= q)%Q ->
    Units.size_hum_loop neg old 1024 q us
    = Ok (Str.repeat "-" neg ++ Str.of_Z old).
Proof.
  induction us as [|u us IH]; intros q Hq; [reflexivity|].
  cbn [Units.size_hum_loop]. rewrite truediv_1024. cbn [ebind].
  cbn [List.length] in Hq. rewrite pow1024_S in Hq.
  assert (Hd : (inject_Z (1024 ^ Z.of_nat (List.length us)) <= q / 1024)%Q)
    by (apply div1024_le; exact Hq).
  assert (H1 : Py.qlt (Qred (q / 1024)) 1 = false).
  { apply qlt_false. rewrite Qred_correct.
    eapply Qle_trans; [|exact Hd].
    change 1%Q with (inject_Z 1). rewrite <- Zle_Qle.
    apply pow1024_ge1. }
  rewrite H1. apply IH. rewrite Qred_correct. exact Hd.
Qed.

(** The loop stops at the unit of index [k] when the number lies in
    [1024^k, 1024^(k+1)), and below 1024 for [k = 0]. *)
Lemma size_hum_loop_unit (neg : nat) (old : Z) (us : list string) :
  forall (k : nat) (q : Q),
    (k < List.length us)%nat ->
    (k = O \/ (inject_Z (1024 ^ Z.of_nat k) <= q)%Q) ->
    (q < inject_Z (1024 ^ Z.of_nat (S k)))%Q ->
    Units.size_hum_loop neg old 1024 q us
    = Ok (Str.repeat "-" neg
          ++ Units.fmt_2f (q / inject_Z (1024 ^ Z.of_nat k))
          ++ nth k us "").
Proof.
  induction us as [|u us IH]; intros k q Hk Hlo Hhi; [simpl in Hk; lia|].
  cbn [Units.size_hum_loop]. rewrite truediv_1024. cbn [ebind].
  destruct k as [|k].
  - assert (H1 : Py.qlt (Qred (q / 1024)) 1 = true).
    { apply qlt_true. rewrite Qred_correct.
      change 1%Q with (inject_Z 1). apply div1024_lt. exact Hhi. }
    rewrite H1. cbn [nth]. do 3 f_equal. apply fmt_2f_proper.
    change (inject_Z (1024 ^ Z.of_nat 0)) with 1%Q. field.
  - destruct Hlo as [Hlo|Hlo]; [discriminate|].
    rewrite pow1024_S in Hlo. rewrite pow1024_S in Hhi.
    assert (Hd : (inject_Z (1024 ^ Z.of_nat k) <= q / 1024)%Q)
      by (apply div1024_le; exact Hlo).
    assert (H1 : Py.qlt (Qred (q / 1024)) 1 = false).
    { apply qlt_false. rewrite Qred_correct.
      eapply Qle_trans; [|exact Hd].
      change 1%Q with (inject_Z 1). rewrite <- Zle_Qle.
      apply pow1024_ge1. }
    rewrite H1.
    rewrite (IH k (Qred (q / 1024))).
    + cbn [nth]. do 3 f_equal. apply fmt_2f_proper.
      rewrite Qred_correct, pow1024_S, inject_Z_mult.
      assert (Hp : ~ (inject_Z (1024 ^ Z.of_nat k) == 0)%Q).
      { intros E. pose proof (pow1024_pos k) as P.
        change 0%Q with (inject_Z 0) in E.
        apply (proj1 (inject_Z_injective _ _)) in E.
        rewrite E in P. discriminate P. }
      change (inject_Z 1024) with 1024%Q. field. exact Hp.
    + simpl in Hk. lia.
    + right. rewrite Qred_correct. exact Hd.
    + rewrite Qred_correct. apply div1024_lt. exact Hhi.
Qed.

(** The unit chosen is the first one in which the scaled magnitude is
    below 1024, and the sign of [n] is kept before the two-decimal
    number. *)
Lemma size_hum_unit (n : Z) (k : nat) :
  (k < 9)%nat ->
  (k = O \/ 1024 ^ Z.of_nat k <= Z.abs n) ->
  Z.abs n < 1024 ^ Z.of_nat (S k) ->
  Units.size_hum n 1024
  = Ok ((if 0 <=? n then "" else "-")
        ++ Units.fmt_2f (inject_Z (Z.abs n) / inject_Z (1024 ^ Z.of_nat k))
        ++ nth k Units.units "").
Proof.
  intros Hk Hlo Hhi. unfold Units.size_hum.
  rewrite (size_hum_loop_unit _ _ Units.units k).
  - destruct (0 <=? n); reflexivity.
  - exact Hk.
  - destruct Hlo as [Hlo|Hlo]; [left; exact Hlo | right].
    rewrite <- Zle_Qle. exact Hlo.
  - rewrite <- Zlt_Qlt. exact Hhi.
Qed.

Lemma size_hum_examples :
  Units.size_hum 1023 1024 = Ok "1023.00B"
  /\ Units.size_hum 1024 1024 = Ok "1.00KB"
  /\ Units.size_hum (-2048) 1024 = Ok "-2.00KB"
  /\ Units.size_hum 0 1024 = Ok "0.00B".
Proof. repeat split; vm_compute; reflexivity. Qed.

(** A count of at least [1024 ^ 9] comes back as the integer itself. *)
Lemma size_hum_large (n : Z) :
  1024 ^ 9 <= n -> Units.size_hum n 1024 = Ok (Str.of_Z n).
Proof.
  intros Hn. unfold Units.size_hum.
  rewrite size_hum_loop_exhaust.
  - destruct (Z.leb_spec 0 n); [reflexivity|].
    assert (0 < 1024 ^ 9) by reflexivity. lia.
  - rewrite <- Zle_Qle. change (Z.of_nat (List.length Units.units)) with 9.
    assert (0 < 1024 ^ 9) by reflexivity. lia.
Qed.

(** C8.  Where the claim fails: for a negative count of magnitude at
    least [1024 ^ 9] the [else] clause of the loop puts a minus sign
    before [str(old)], which carries the sign of [n] already, so the
    result is not the original integer as a string.  At [-(1024 ^ 9)] it
    is the text with two minus signs. *)
Theorem size_hum_negative_overflow (n : Z) :
  n <= - 1024 ^ 9 ->
  Units.size_hum n 1024 = Ok ("-" ++ Str.of_Z n)
  /\ Units.size_hum (- 1024 ^ 9) 1024 = Ok "--1237940039285380274899124224"
  /\ Str.of_Z (- 1024 ^ 9) = "-1237940039285380274899124224".
Proof.
  intros Hn. split; [|split; vm_compute; reflexivity].
  unfold Units.size_hum.
  assert (P : 0 < 1024 ^ 9) by reflexivity.
  rewrite size_hum_loop_exhaust.
  - destruct (Z.leb_spec 0 n); [lia | reflexivity].
  - rewrite <- Zle_Qle. change (Z.of_nat (List.length Units.units)) with 9.
    lia.
Qed.

Lemma size_hum_negative_overflow_witness :
  Units.size_hum (- 2 ^ 100) 1024 = Ok ("-" ++ Str.of_Z (- 2 ^ 100)).
Proof.
  refine (proj1 (size_hum_negative_overflow (- 2 ^ 100) _)).
  vm_compute. discriminate.
Defined.

(** ** calc_bitrate *)

(** The code is the chain of the specification: container [bit_rate],
    then the tag [BPS-eng], then file size over duration; the first
    non-zero one is returned. *)
Lemma calc_bitrate_chain (d a : value) (file_size : Z) (duration : Q) :
  Meta.calc_bitrate d a file_size duration
  = Spec.derived_bitrate d a file_size duration.
Proof.
  unfold Meta.calc_bitrate, Spec.derived_bitrate, Spec.container_bitrate,
    Spec.tag_bitrate, Spec.computed_bitrate, Spec.stream_seconds.
  repeat (cbn [ebind negb andb orb Py.truthy Z.eqb]; try reflexivity;
          exc_step).
  all: cbn [ebind negb andb orb Py.truthy Z.eqb].
  all: try congruence.
  all: repeat match goal with
              | E : (_ =? _) = true |- _ => apply Z.eqb_eq in E; subst
              end.
  all: reflexivity.
Qed.

(** When neither the container nor the tag gives a bit rate, what comes
    back is the int 0 or a float. *)
Lemma calc_bitrate_computed_float (d a v : value) (file_size : Z)
    (duration : Q) :
  Spec.container_bitrate a = Ok 0 ->
  Spec.tag_bitrate d = Ok 0 ->
  Meta.calc_bitrate d a file_size duration = Ok v ->
  v = VInt 0 \/ exists q, v = VFloat q.
Proof.
  intros Hc Ht. rewrite calc_bitrate_chain. unfold Spec.derived_bitrate.
  rewrite Hc. cbn [ebind Z.eqb negb]. rewrite Ht. cbn [ebind Z.eqb negb].
  unfold Spec.computed_bitrate.
  destruct (if Py.is_zero duration then Spec.stream_seconds d duration
            else Ok duration) as [s|e]; cbn [ebind]; [|discriminate].
  destruct (Py.is_zero s).
  - intros E. left. congruence.
  - destruct (Py.truediv (inject_Z (file_size * 8)) s) as [q|e];
      cbn [ebind]; [|discriminate].
    intros E. right. exists q. congruence.
Qed.

(** C5.  Where the claim fails: with no container bit rate and no
    [BPS-eng] tag, a file of 1000 bytes lasting 3.0 seconds gets the
    bit rate 8000/3, a float that is no integer; [check_hevc] hands it on
    as the main bit rate. *)
Theorem calc_bitrate_not_integer :
  Meta.calc_bitrate Samples.no_bitrate_stream Samples.no_bitrate_doc 1000 3
  = Ok (VFloat (8000 # 3))
  /\ Spec.is_int (VFloat (8000 # 3)) = false
  /\ ~ (exists z : Z, (8000 # 3 == inject_Z z)%Q)
  /\ Hevc.main_bitrate
       (Hevc.info (Hevc.check_hevc
                     (Hevc.mk_probe (Some 1000)
                        (Hevc.Doc Samples.no_bitrate_doc) "")))
     = VFloat (8000 # 3).
Proof.
  split; [vm_compute; reflexivity|].
  split; [reflexivity|].
  split; [|vm_compute; reflexivity].
  intros [z Hz]. unfold Qeq in Hz. cbn in Hz. lia.
Qed.

(** ** Rules for state and exception computations *)

Section Rules.

Context {S : Type}.

Lemma triple_ret {A} (P : S -> Prop) (a : A) Q E :
  (forall s, P s -> Q a s) -> triple P (ret a) Q E.
Proof. intros H s Hs. exact (H s Hs). Qed.

Lemma triple_throw {A} (P : S -> Prop) e (Q : A -> S -> Prop) (E : S -> Prop) :
  (forall s, P s -> E s) -> triple P (throw e) Q E.
Proof. intros H s Hs. exact (H s Hs). Qed.

Lemma triple_bind {A B} (P : S -> Prop) (m : SE S A) (k : A -> SE S B)
    (R : A -> S -> Prop) Q E :
  triple P m R E -> (forall a, triple (R a) (k a) Q E) ->
  triple P (sbind m k) Q E.
Proof.
  intros Hm Hk s Hs. unfold sbind. specialize (Hm s Hs).
  destruct (m s) as [s' [a|e]]; [exact (Hk a s' Hm) | exact Hm].
Qed.

Lemma triple_lift {A} (P : S -> Prop) (m : exc A) (Q : A -> S -> Prop)
    (E : S -> Prop) :
  (forall a s, m = Ok a -> P s -> Q a s) ->
  (forall e s, m = Raise e -> P s -> E s) ->
  triple P (lift m) Q E.
Proof.
  intros HQ HE s Hs. unfold lift. destruct m as [a|e]; eauto.
Qed.

Lemma triple_gets {A} (P : S -> Prop) (f : S -> A) Q E :
  (forall s, P s -> Q (f s) s) -> triple P (gets f) Q E.
Proof. intros H s Hs. exact (H s Hs). Qed.

Lemma triple_modify (P : S -> Prop) (f : S -> S) Q E :
  (forall s, P s -> Q tt (f s)) -> triple P (modify f) Q E.
Proof. intros H s Hs. exact (H s Hs). Qed.

Lemma triple_conseq {A} (P P' : S -> Prop) (m : SE S A)
    (Q Q' : A -> S -> Prop) (E E' : S -> Prop) :
  triple P' m Q' E' ->
  (forall s, P s -> P' s) ->
  (forall a s, Q' a s -> Q a s) ->
  (forall s, E' s -> E s) ->
  triple P m Q E.
Proof.
  intros H HP HQ HE s Hs. specialize (H s (HP s Hs)).
  destruct (m s) as [s' [a|e]]; auto.
Qed.

Lemma inv_ret {A} (I : S -> Prop) (a : A) : inv I (ret a).
Proof. apply triple_ret. auto. Qed.

Lemma inv_throw {A} (I : S -> Prop) e : inv I (@throw S A e).
Proof. apply triple_throw. auto. Qed.

Lemma inv_lift {A} (I : S -> Prop) (m : exc A) : inv I (lift m).
Proof. apply triple_lift; auto. Qed.

Lemma inv_gets {A} (I : S -> Prop) (f : S -> A) : inv I (gets f).
Proof. apply triple_gets. auto. Qed.

Lemma inv_modify (I : S -> Prop) (f : S -> S) :
  (forall s, I s -> I (f s)) -> inv I (modify f).
Proof. intros H. apply triple_modify. exact H. Qed.

Lemma inv_bind {A B} (I : S -> Prop) (m : SE S A) (k : A -> SE S B) :
  inv I m -> (forall a, inv I (k a)) -> inv I (sbind m k).
Proof. intros Hm Hk. eapply triple_bind; [exact Hm | exact Hk]. Qed.

Lemma inv_bind_lift {A B} (I : S -> Prop) (m : exc A) (k : A -> SE S B) :
  (forall a, m = Ok a -> inv I (k a)) -> inv I (sbind (lift m) k).
Proof.
  intros Hk s Hs. unfold sbind, lift.
  destruct m as [a|e]; [exact (Hk a eq_refl s Hs) | exact Hs].
Qed.

Lemma inv_when (I : S -> Prop) (b : bool) (m : SE S unit) :
  inv I m -> inv I (when b m).
Proof. intros H. destruct b; [exact H | apply inv_ret]. Qed.

Lemma inv_fst {A} (I : S -> Prop) (m : SE S A) (s : S) :
  inv I m -> I s -> I (fst (m s)).
Proof.
  intros H Hs. specialize (H s Hs). destruct (m s) as [s' [a|e]]; exact H.
Qed.

End Rules.

(** The rules applied as far as they go; what is left are the updates of
    the state. *)
Ltac inv_step :=
  lazymatch goal with
  | |- inv _ (ret _) => apply inv_ret
  | |- inv _ (throw _) => apply inv_throw
  | |- inv _ (lift _) => apply inv_lift
  | |- inv _ (gets _) => apply inv_gets
  | |- inv _ (when _ _) => apply inv_when
  | |- inv _ (sbind (lift _) _) => apply inv_bind_lift; intros ? ?
  | |- inv _ (sbind _ _) => apply inv_bind; [|intros ?]
  | |- inv _ (modify _) => apply inv_modify; intros ? ?
  | |- inv _ (match ?x with _ => _ end) =>
      lazymatch x with
      | match ?y with _ => _ end => destruct y; cbv beta iota
      | _ => destruct x; cbv beta iota
      end
  end.

Ltac inv_auto := repeat inv_step.

(** ** The notifier: the history of completed lines *)

Import Notifier.

Lemma last2_length {A} (l : list A) : (List.length (last2 l) <= 2)%nat.
Proof. unfold last2. rewrite length_skipn. lia. Qed.

Lemma last2_short {A} (l : list A) : (List.length l <= 2)%nat -> last2 l = l.
Proof.
  intros Hl. unfold last2.
  replace (List.length l - 2)%nat with O by lia. reflexivity.
Qed.

Lemma newline_eq (o : notifier) (w : world) :
  newline (o, w)
  = ((set_line_acc "" (set_lines (last2 (lines o ++ [line_acc o])%list) o), w),
     Ok (line_acc o)).
Proof. reflexivity. Qed.

Section NotifierHistory.

Context `{Host}.

(** No step after [newline] touches the history. *)
Lemma progress_keeps_lines (L : list string) (line : string) :
  inv (fun s : state => lines (fst s) = L) (progress line).
Proof.
  unfold progress, on_self, self.
  destruct (PROGRESS_RX line) as [[[h m] s]|]; inv_auto; assumption.
Qed.

Lemma after_newline_keeps_lines (L : list string) (line : string) :
  inv (fun s : state => lines (fst s) = L)
    (d <~ self duration ;;
     when (match d with None => true | _ => false end)
       (x <~ lift (get_duration line) ;; on_self (set_duration x)) ;;;
     src <~ self source ;;
     when (match src with None => true | _ => false end)
       (enc <~ self encoding ;;
        x <~ lift (get_source enc line) ;; on_self (set_source x)) ;;;
     f <~ self fps ;;
     when (match f with None => true | _ => false end)
       (x <~ lift (get_fps line) ;; on_self (set_fps x)) ;;;
     progress line).
Proof.
  unfold on_self, self.
  repeat first [ apply progress_keeps_lines | inv_step ]; assumption.
Qed.

Lemma on_separator_lines (s : state) :
  lines (fst (fst (on_separator s)))
  = last2 (lines (fst s) ++ [line_acc (fst s)])%list.
Proof.
  destruct s as [o w]. unfold on_separator, sbind at 1.
  rewrite newline_eq.
  apply (inv_fst (fun s : state =>
                    lines (fst s) = last2 (lines o ++ [line_acc o])%list));
    [apply after_newline_keeps_lines | reflexivity].
Qed.

Lemma on_other_lines (c : string) (stdin : bool) (s : state) :
  lines (fst (fst (on_other c stdin s))) = lines (fst s)
  \/ lines (fst (fst (on_other c stdin s)))
     = last2 (lines (fst s) ++ [(line_acc (fst s) ++ c)%string])%list.
Proof.
  destruct s as [o w]. unfold on_other, on_self, self, when.
  cbn [sbind modify gets fst snd set_line_acc line_acc].
  destruct (String.eqb (Str.slice_from (line_acc o ++ c) (-6)) "[y/N] ");
    [|left; reflexivity].
  cbn [sbind modify gets fst snd set_line_acc encoding lift].
  destruct (bytes_decode (encoding o) (line_acc o ++ c)) as [text|e];
    [|left; reflexivity].
  unfold print. cbn [sbind modify gets fst snd].
  destruct stdin.
  - unfold input, put. cbn [sbind modify gets fst snd tty].
    destruct (tty w) as [|l r]; [left; reflexivity|].
    right. reflexivity.
  - right. reflexivity.
Qed.

Lemma call_lines (c : chunk) (stdin : bool) (s : state) :
  lines (fst (fst (call c stdin s))) = lines (fst s)
  \/ lines (fst (fst (call c stdin s)))
     = last2 (lines (fst s) ++ [line_acc (fst s)])%list
  \/ exists b, c = Bytes b
       /\ lines (fst (fst (call c stdin s)))
          = last2 (lines (fst s) ++ [(line_acc (fst s) ++ b)%string])%list.
Proof.
  destruct c as [b|t]; [|left; reflexivity].
  unfold call. destruct (Str.contains b CRLF).
  - right. left. apply on_separator_lines.
  - destruct (on_other_lines b stdin s) as [E|E]; [left; exact E|].
    right. right. exists b. split; [reflexivity | exact E].
Qed.

Lemma call_bounded (c : chunk) (stdin : bool) (s : state) :
  (List.length (lines (fst s)) <= 2)%nat ->
  (List.length (lines (fst (fst (call c stdin s)))) <= 2)%nat.
Proof.
  intros Hs.
  destruct (call_lines c stdin s) as [E|[E|[b [_ E]]]]; rewrite E;
    [exact Hs | apply last2_length | apply last2_length].
Qed.

Lemma feed_bounded (cs : list chunk) (stdin : bool) :
  forall s : state,
    (List.length (lines (fst s)) <= 2)%nat ->
    (List.length (lines (fst (fst (feed cs stdin s)))) <= 2)%nat.
Proof.
  induction cs as [|c cs IH]; intros s Hs; [exact Hs|].
  cbn [feed]. unfold sbind.
  pose proof (call_bounded c stdin s Hs) as Hc.
  destruct (call c stdin s) as [s' [u|e]]; [apply IH; exact Hc | exact Hc].
Qed.

(** C10.  The history holds at most two lines after every call, also a
    call that raises: a call leaves it alone or puts the line just
    completed at its end and keeps the last two, in order.  So it holds
    at most two lines after any run of calls on a new notifier. *)
Theorem history_bounded :
  (forall (s : state) (c : chunk) (stdin : bool),
     (List.length (lines (fst s)) <= 2)%nat ->
     let after := lines (fst (fst (call c stdin s))) in
     (List.length after <= 2)%nat
     /\ (after = lines (fst s)
         \/ after = last2 (lines (fst s) ++ [line_acc (fst s)])%list
         \/ exists b, c = Bytes b
              /\ after = last2 (lines (fst s) ++ [(line_acc (fst s) ++ b)%string])%list))
  /\ (forall (cs : list chunk) (stdin : bool) (enc : string) (w : world),
        (List.length
           (lines (fst (fst (feed cs stdin (init enc, w))))) <= 2)%nat).
Proof.
  split.
  - intros s c stdin Hs after. split.
    + apply call_bounded. exact Hs.
    + apply call_lines.
  - intros cs stdin enc w. apply feed_bounded. cbn. lia.
Qed.

End NotifierHistory.

(** Three lines fed byte by byte: the first one is gone. *)
Lemma history_bounded_witness :
  lines (fst (fst (feed (bytes_of ("a" ++ Hevc.nl ++ "b" ++ Hevc.nl ++ "c" ++ Hevc.nl))
                     false (init "utf8", mk_world [] [] []))))
  = ["b"; "c"]
  /\ (List.length (lines (fst (fst (call (Bytes Hevc.nl) false
         (set_line_acc "c" (set_lines ["a"; "b"] (init "utf8")),
          mk_world [] [] []))))) <= 2)%nat.
Proof.
  split; [reflexivity|].
  refine (proj1 (proj1 history_bounded
            (set_line_acc "c" (set_lines ["a"; "b"] (init "utf8")),
             mk_world [] [] []) (Bytes Hevc.nl) false _)).
  cbn. lia.
Defined.

(** ** The notifier: feeding plain bytes *)

Import NotifierSpec.

Lemma bytes_of_app (a b : string) :
  bytes_of (a ++ b) = (bytes_of a ++ bytes_of b)%list.
Proof. induction a as [|c a IH]; simpl; [reflexivity | rewrite IH; reflexivity]. Qed.

Lemma append_assoc (a b c : string) : (a ++ b) ++ c = a ++ (b ++ c).
Proof. induction a as [|x a IH]; simpl; [reflexivity | rewrite IH; reflexivity]. Qed.

Lemma append_nil_r (a : string) : a ++ "" = a.
Proof. induction a as [|x a IH]; simpl; [reflexivity | rewrite IH; reflexivity]. Qed.

Section NotifierFeed.

Context `{Host}.

Lemma feed_app (cs1 cs2 : list chunk) (stdin : bool) (s : state) :
  feed (cs1 ++ cs2)%list stdin s
  = (feed cs1 stdin ;;; feed cs2 stdin) s.
Proof.
  revert s; induction cs1 as [|c cs1 IH]; intros s; [reflexivity|].
  cbn [app feed]. unfold sbind.
  destruct (call c stdin s) as [s' [u|e]]; [|reflexivity].
  rewrite IH. reflexivity.
Qed.

(** Plain bytes only grow the buffer. *)
Lemma feed_plain (l : string) (stdin : bool) :
  forall (o : notifier) (w : world),
    plain (line_acc o) l = true ->
    feed (bytes_of l) stdin (o, w)
    = ((set_line_acc (line_acc o ++ l) o, w), Ok tt).
Proof.
  induction l as [|a l IH]; intros o w Hp.
  - cbn. rewrite append_nil_r. destruct o; reflexivity.
  - cbn [plain] in Hp.
    apply andb_prop in Hp. destruct Hp as [Hp Hr].
    apply andb_prop in Hp. destruct Hp as [Hsep Hprompt].
    apply negb_true_iff in Hsep. apply negb_true_iff in Hprompt.
    cbn [bytes_of feed]. unfold sbind at 1. unfold call. rewrite Hsep.
    unfold on_other, on_self, self, when.
    cbn [sbind modify gets fst snd set_line_acc line_acc].
    rewrite Hprompt. cbn [ret].
    rewrite (IH (set_line_acc (line_acc o ++ String a "") o) w).
    + cbn [set_line_acc line_acc lines duration source started bar fps
             encoding].
      rewrite append_assoc. reflexivity.
    + exact Hr.
Qed.

(** A plain line and its line feed, fed to a notifier with an empty
    buffer: the line is handled by [on_separator]. *)
Lemma feed_line (l : string) (stdin : bool) (o : notifier) (w : world) :
  line_acc o = "" ->
  plain "" l = true ->
  feed (bytes_of (l ++ Hevc.nl)) stdin (o, w)
  = on_separator (set_line_acc l o, w).
Proof.
  intros Ha Hp. rewrite bytes_of_app, feed_app. unfold sbind at 1.
  rewrite feed_plain by (rewrite Ha; exact Hp).
  rewrite Ha. cbn [append bytes_of Hevc.nl feed]. unfold sbind at 1.
  change (call (Bytes (String "010" "")) stdin) with on_separator.
  destruct (on_separator (set_line_acc l o, w)) as [s' [[]|e]]; reflexivity.
Qed.

End NotifierFeed.

(** ** The notifier: progress in frames *)

Ltac notifier_eval :=
  unfold sbind, gets, modify, lift, ret, when;
  cbn [fst snd init
       set_line_acc set_lines set_duration set_source set_fps set_bar
       lines line_acc duration source started bar fps encoding
       last2 app List.length Nat.sub skipn ebind option_map
       tqdm update bar_desc bar_total bar_unit bar_n].

Section NotifierProgress.

Context `{Host}.

Lemma first_line (enc : string) (w : world) (l1 : string)
    (src1 : option string) :
  DURATION_RX l1 = Some ("00", "05", "30") ->
  FPS_RX l1 = Some "29.97" ->
  PROGRESS_RX l1 = None ->
  get_source enc l1 = Ok src1 ->
  on_separator (set_line_acc l1 (init enc), w)
  = ((mk_notifier [l1] "" (Some 330) src1 false None (Some 30) enc, w),
     Ok tt).
Proof.
  intros Hd Hf Hp Hs.
  unfold on_separator. unfold sbind at 1. rewrite newline_eq.
  unfold self, on_self, get_duration, get_fps, progress.
  notifier_eval. rewrite Hd, Hf, Hp.
  change (_seconds "00" "05" "30") with (@Ok Z 330).
  change (Py.float (VStr "29.97")) with (Ok (2997 # 100)).
  notifier_eval. rewrite Hs.
  change (Py.round_half_even (2997 # 100)) with 30. reflexivity.
Qed.

Lemma second_line (enc : string) (w : world) (l1 l2 : string)
    (src1 src2 : option string) :
  PROGRESS_RX l2 = Some ("00", "01", "00") ->
  get_source enc l2 = Ok src2 ->
  exists desc,
    on_separator
      (set_line_acc l2
         (mk_notifier [l1] "" (Some 330) src1 false None (Some 30) enc), w)
    = ((mk_notifier [l1; l2] "" (Some 330) desc false
          (Some (mk_pbar desc (Some 9900) " frames" 1800)) (Some 30) enc,
        w), Ok tt).
Proof.
  intros Hp Hs.
  unfold on_separator. unfold sbind at 1. rewrite newline_eq.
  unfold self, on_self, progress. notifier_eval. rewrite Hp.
  change (_seconds "00" "01" "00") with (@Ok Z 60).
  notifier_eval.
  destruct src1 as [x|].
  - exists (Some x). notifier_eval. reflexivity.
  - exists src2. notifier_eval. rewrite Hs. notifier_eval. reflexivity.
Qed.

(** C6.  A new notifier is fed, byte by byte, a line in which the
    duration pattern finds 00:05:30 and the frame rate pattern finds
    29.97, and then a line in which the progress pattern finds 00:01:00.
    The bar it creates counts frames: its total is 330 * 30 = 9900 and its
    position is 60 * round(29.97) = 60 * 30 = 1800.  (The unit label of
    the bar is the text [" frames"], with the blank the bar prints after
    the number.) *)
Theorem progress_in_frames (enc : string) (w : world) (stdin : bool)
    (l1 l2 : string) (src1 src2 : option string) :
  plain "" l1 = true ->
  plain "" l2 = true ->
  DURATION_RX l1 = Some ("00", "05", "30") ->
  FPS_RX l1 = Some "29.97" ->
  PROGRESS_RX l1 = None ->
  PROGRESS_RX l2 = Some ("00", "01", "00") ->
  get_source enc l1 = Ok src1 ->
  get_source enc l2 = Ok src2 ->
  exists desc,
    bar (fst (fst (feed (bytes_of (l1 ++ Hevc.nl ++ l2 ++ Hevc.nl)) stdin
                     (init enc, w))))
    = Some (mk_pbar desc (Some 9900) " frames" 1800)
    /\ get_fps l1 = Ok (Some 30)
    /\ 1800 = 60 * Py.round_half_even (2997 # 100)
    /\ 9900 = 330 * 30.
Proof.
  intros P1 P2 Hd Hf Hp1 Hp2 Hs1 Hs2.
  rewrite <- append_assoc, bytes_of_app, feed_app. unfold sbind at 1.
  rewrite feed_line by (try reflexivity; exact P1).
  rewrite (first_line enc w l1 src1 Hd Hf Hp1 Hs1).
  rewrite feed_line by (try reflexivity; exact P2).
  destruct (second_line enc w l1 l2 src1 src2 Hp2 Hs2) as [desc E].
  exists desc. rewrite E. split; [reflexivity|].
  split; [|split; reflexivity].
  unfold get_fps. rewrite Hf. reflexivity.
Qed.

End NotifierProgress.

(** The lines an encoder prints: the input header with the duration, the
    stream line with the frame rate, and a progress line. *)
Lemma progress_in_frames_witness :
  exists desc,
    bar (fst (fst (feed
      (bytes_of ("  Duration: 00:05:30.00, start: 0.000000, 29.97 fps"
                 ++ Hevc.nl
                 ++ "frame= 1800 q=28.0 size= 256kB time=00:01:00.00 speed=2x"
                 ++ Hevc.nl))
      false (init "utf8", mk_world [] [] []))))
    = Some (mk_pbar desc (Some 9900) " frames" 1800)
    /\ get_fps "  Duration: 00:05:30.00, start: 0.000000, 29.97 fps"
       = Ok (Some 30)
    /\ 1800 = 60 * Py.round_half_even (2997 # 100)
    /\ 9900 = 330 * 30.
Proof.
  refine (progress_in_frames "utf8" (mk_world [] [] []) false
            "  Duration: 00:05:30.00, start: 0.000000, 29.97 fps"
            "frame= 1800 q=28.0 size= 256kB time=00:01:00.00 speed=2x"
            None None _ _ _ _ _ _ _ _); vm_compute; reflexivity.
Defined.

(** ** The notifier: the interactive prompt *)

Section NotifierPrompt.

Context `{Host}.

(** C4, as amended.  When a chunk that is no separator makes the buffer
    end with the prompt and the buffer decodes, the partial line is
    echoed; a line of input is read and queued with a line feed only when
    a queue was passed; the partial line goes to the history, of which the
    last two lines are kept, and the buffer is cleared.  Nothing is
    extracted from the line: duration, source, frame rate and bar stay as
    they were. *)
Theorem prompt_flushes_without_extraction (o : notifier) (w : world)
    (c : string) (stdin : bool) (text : string) :
  Str.contains c CRLF = false ->
  String.eqb (Str.slice_from (line_acc o ++ c) (-6)) "[y/N] " = true ->
  bytes_decode (encoding o) (line_acc o ++ c) = Ok text ->
  (stdin = true -> tty w <> []) ->
  call (Bytes c) stdin (o, w)
  = ((mk_notifier (last2 (lines o ++ [(line_acc o ++ c)%string])%list) ""
        (duration o) (source o) (started o) (bar o) (fps o) (encoding o),
      mk_world (out w ++ [text])%list
        (if stdin then tl (tty w) else tty w)
        (if stdin then (queue w ++ [(hd "" (tty w) ++ Hevc.nl)%string])%list
         else queue w)),
     Ok tt).
Proof.
  intros Hsep Hprompt Hdec Htty.
  unfold call. rewrite Hsep.
  unfold on_other, on_self, self, newline, print, put, input.
  notifier_eval. rewrite Hprompt. notifier_eval. rewrite Hdec.
  destruct stdin.
  - cbn [tty out queue fst snd].
    destruct (tty w) as [|l r]; [exfalso; apply Htty; reflexivity|].
    reflexivity.
  - reflexivity.
Qed.

End NotifierPrompt.

Lemma prompt_flushes_without_extraction_witness :
  call (Bytes " ") true
    (set_line_acc "File 'a.mp4' already exists. Overwrite? [y/N]"
       (init "utf8"), mk_world [] ["y"] [])
  = ((mk_notifier ["File 'a.mp4' already exists. Overwrite? [y/N] "] ""
        None None false None None "utf8",
      mk_world ["File 'a.mp4' already exists. Overwrite? [y/N] "] []
        [("y" ++ Hevc.nl)%string]),
     Ok tt).
Proof.
  refine (prompt_flushes_without_extraction
            (set_line_acc "File 'a.mp4' already exists. Overwrite? [y/N]"
               (init "utf8"))
            (mk_world [] ["y"] []) " " true
            "File 'a.mp4' already exists. Overwrite? [y/N] " _ _ _ _);
    try reflexivity.
  intros _. discriminate.
Defined.

(** C4, as stated, fails.  The buffer holds a partial line with a
    duration in it and the blank that completes the prompt arrives: the
    call leaves the duration unset, where the handling of a completed line
    sets it to 330 seconds; and without a queue no input is read. *)
Lemma prompt_counterexample :
  let s0 : state :=
    (set_line_acc "Duration: 00:05:30.00 [y/N]" (init "utf8"),
     mk_world [] ["y"] []) in
  duration (fst (fst (call (Bytes " ") true s0))) = None
  /\ duration (fst (fst (prompt_as_completed_line " " s0))) = Some 330
  /\ call (Bytes " ") true s0 <> prompt_as_completed_line " " s0
  /\ tty (snd (fst (call (Bytes " ") false s0))) = ["y"]
  /\ queue (snd (fst (call (Bytes " ") false s0))) = [].
Proof.
  cbv zeta. repeat split; try (vm_compute; reflexivity).
  vm_compute. discriminate.
Qed.

(** ** check_hevc: exceptions *)

Import Hevc.
Import HevcSpec.

Ltac hevc_unfold :=
  unfold stream, main_stream, other_stream, add_filter, add_copy, add_desc.

Section HevcExceptions.

Context `{Host}.

(** The validity flag stays down through the loop. *)
Lemma stream_keeps_invalid (j_data : value) (_old_size : Z) (_d : value) :
  inv (fun l => l_valid l = false) (stream j_data _old_size _d).
Proof. hevc_unfold. inv_auto; assumption. Qed.

Lemma for_streams_keeps_invalid (j_data : value) (_old_size : Z)
    (ds : list value) :
  inv (fun l => l_valid l = false) (for_streams j_data _old_size ds).
Proof.
  induction ds as [|d ds IH]; cbn [for_streams]; [apply inv_ret|].
  apply inv_bind; [apply stream_keeps_invalid|].
  intros [|]; [exact IH | apply inv_ret].
Qed.

(** The steps after the loop do not raise. *)
Lemma finish_returns (l : locals) : exists l', finish l = (l', Ok tt).
Proof.
  unfold finish, when, sbind, gets, modify, ret.
  repeat match goal with
         | |- context [if ?b then _ else _] => destruct b
         end; eexists; reflexivity.
Qed.

(** When the body of the [try] statement raises, the flag is down. *)
Lemma try_body_raise_invalid (_old_size : Z) (out : probe_stdout) :
  triple (fun l => l_valid l = false) (try_body _old_size out)
    (fun _ _ => True) (fun l => l_valid l = false).
Proof.
  destruct out as [| |j_data]; cbn [try_body].
  - apply triple_ret. auto.
  - apply triple_throw. auto.
  - eapply triple_bind with (R := fun _ l => l_valid l = false).
    { apply triple_lift; auto. }
    intros ds.
    eapply triple_bind with (R := fun _ l => l_valid l = false).
    { apply for_streams_keeps_invalid. }
    intros [|].
    + intros l _. destruct (finish_returns l) as [l' E]. rewrite E. exact I.
    + apply triple_ret. auto.
Qed.

(** C7.  [check_hevc] is a total function: whatever the file and the
    probe output, it returns a result and nothing is raised to the
    caller.  When the body of the [try] statement raises, at whatever
    point [l] of the parse, the result is invalid, its error string is the
    diagnostic text of the probe tool, and it carries what the parse had
    filled in by then. *)
Theorem check_hevc_catches (p : probe) (_old_size : Z) (l : locals)
    (e : exn) :
  st_size p = Some _old_size ->
  _old_size <> 0 ->
  try_body _old_size (stdout p) locals0 = (l, Raise e) ->
  check_hevc p = mk_result false (stderr p) (l_info l)
  /\ is_valid (check_hevc p) = false
  /\ err (check_hevc p) = stderr p.
Proof.
  intros Hs Hz Ht.
  assert (E : check_hevc p = mk_result false (stderr p) (l_info l)).
  { unfold check_hevc. rewrite Hs.
    destruct (Z.eqb_spec _old_size 0) as [|_]; [contradiction|].
    rewrite Ht.
    pose proof (try_body_raise_invalid _old_size (stdout p) locals0
                  eq_refl) as Hv.
    rewrite Ht in Hv. unfold result_of, set_err.
    cbn [l_valid l_err l_info]. rewrite Hv. reflexivity. }
  rewrite E. repeat split.
Qed.

End HevcExceptions.

(** A run that stops while the main stream has no frame rate: the
    comparison of [None] with 32 raises, after the encoder name and the
    bit rate were filled in. *)
Lemma check_hevc_catches_witness :
  check_hevc
    (mk_probe (Some 5000)
       (Doc (VDict [("streams",
                     VList [VDict [("codec_name", VStr "h264");
                                   ("codec_type", VStr "video");
                                   ("duration", VStr "10.0");
                                   ("bit_rate", VStr "1000")]])]))
       "moov atom not found")
  = mk_result false "moov atom not found"
      (mk_info (VStr "h264") (VInt 1000) VNone "" (VStr "")
         "-map 0:v:0 -c:v:0 hevc_amf " "" "").
Proof.
  refine (proj1 (check_hevc_catches
    (mk_probe (Some 5000)
       (Doc (VDict [("streams",
                     VList [VDict [("codec_name", VStr "h264");
                                   ("codec_type", VStr "video");
                                   ("duration", VStr "10.0");
                                   ("bit_rate", VStr "1000")]])]))
       "moov atom not found")
    5000
    (mk_locals false ""
       (mk_info (VStr "h264") (VInt 1000) VNone "" (VStr "")
          "-map 0:v:0 -c:v:0 hevc_amf " "" "") 0 0 0 "")
    TypeError _ _ _)).
  - reflexivity.
  - discriminate.
  - vm_compute. reflexivity.
Defined.

(** ** check_hevc: the main duration is a clock string *)

Section HevcDuration.

Context `{Host}.

Lemma stream_duration_parses (j_data : value) (_old_size : Z) (_d : value) :
  inv (fun l => main_duration (l_info l) = VStr ""
                \/ exists q, Units.hms2sec (main_duration (l_info l)) = Ok q)
    (stream j_data _old_size _d).
Proof.
  hevc_unfold. inv_auto; try assumption.
  right. cbn [on_info l_info set_main_duration main_duration].
  match goal with
  | E : ebind (Units.hms2sec ?d) _ = Ok _ |- _ =>
      destruct (Units.hms2sec d) as [q|]; [exists q; reflexivity | discriminate E]
  end.
Qed.

End HevcDuration.

Section HevcResult.

Context `{Host}.

Lemma for_streams_duration_parses (j_data : value) (_old_size : Z)
    (ds : list value) :
  inv duration_ok (for_streams j_data _old_size ds).
Proof.
  induction ds as [|d ds IH]; cbn [for_streams]; [apply inv_ret|].
  apply inv_bind; [apply stream_duration_parses|].
  intros [|]; [exact IH | apply inv_ret].
Qed.

Lemma try_body_duration_parses (_old_size : Z) (out : probe_stdout) :
  inv duration_ok (try_body _old_size out).
Proof.
  destruct out as [| |j_data]; cbn [try_body];
    [apply inv_ret | apply inv_throw |].
  apply inv_bind_lift. intros ds _.
  apply inv_bind; [apply for_streams_duration_parses|].
  intros [|]; [|apply inv_ret].
  unfold finish. inv_auto; assumption.
Qed.

(** What [check_hevc] returns as the main duration is the empty string
    or a string that [hms2sec] reads. *)
Lemma check_hevc_duration_parses (p : probe) :
  main_duration (info (check_hevc p)) = VStr ""
  \/ exists q, Units.hms2sec (main_duration (info (check_hevc p))) = Ok q.
Proof.
  unfold check_hevc.
  destruct (st_size p) as [sz|]; [|left; reflexivity].
  destruct (sz =? 0); [left; reflexivity|].
  pose proof (inv_fst duration_ok (try_body sz (stdout p)) locals0
                (try_body_duration_parses sz (stdout p))
                (or_introl eq_refl)) as Hd.
  destruct (try_body sz (stdout p) locals0) as [l [u|e]]; exact Hd.
Qed.

Lemma eqb_empty_false (s : string) : negb (String.eqb s "") = true -> s <> "".
Proof.
  intros E ->. discriminate E.
Qed.

Lemma finish_valid :
  triple (fun l => l_valid l = false) finish
    (fun _ l => l_valid l = true -> all_set (l_info l))
    (fun l => l_valid l = false).
Proof.
  unfold finish.
  eapply triple_bind with (R := fun _ l => l_valid l = false);
    [apply inv_gets|]. intros vf.
  eapply triple_bind with (R := fun _ l => l_valid l = false).
  { change (inv (fun l => l_valid l = false)
              (when (Py.truthy (VStr vf))
                 (modify (set_cmd_vf (vf ++ dq ++ " ")) ;;;
                  vf0 <~ gets cmd_vf ;;
                  modify (on_info (fun i => set_cmd_main_stream
                                              (vf0 ++ cmd_main_stream i) i)) ;;;
                  when (Str.contains "scale=1920" vf0)
                    (modify (on_info (fun i => set_cmd_main_stream
                               (cmd_main_stream i ++ " -s 1920x1080 ") i)))))).
    inv_auto; assumption. }
  intros _ l Hl. unfold sbind, gets, when, modify, ret. cbn [Py.truthy].
  match goal with
  | |- context [if ?c then _ else _] => destruct c eqn:C
  end; [|congruence].
  intros _.
  repeat (apply andb_prop in C; destruct C as [C ?]).
  repeat split; try assumption; apply eqb_empty_false; assumption.
Qed.

Lemma try_body_valid (_old_size : Z) (out : probe_stdout) :
  triple (fun l => l_valid l = false) (try_body _old_size out)
    (fun _ l => l_valid l = true -> all_set (l_info l))
    (fun l => l_valid l = false).
Proof.
  destruct out as [| |j_data]; cbn [try_body].
  - apply triple_ret. congruence.
  - apply triple_throw. auto.
  - eapply triple_bind with (R := fun _ l => l_valid l = false).
    { apply triple_lift; auto. }
    intros ds.
    eapply triple_bind with (R := fun _ l => l_valid l = false).
    { apply for_streams_keeps_invalid. }
    intros [|].
    + apply finish_valid.
    + apply triple_ret. congruence.
Qed.

(** A valid result has every field of line 447 set. *)
Lemma check_hevc_valid_all_set (p : probe) :
  is_valid (check_hevc p) = true -> all_set (info (check_hevc p)).
Proof.
  unfold check_hevc.
  destruct (st_size p) as [sz|]; [|discriminate].
  destruct (sz =? 0); [discriminate|].
  pose proof (try_body_valid sz (stdout p) locals0 eq_refl) as Hv.
  destruct (try_body sz (stdout p) locals0) as [l [u|e]].
  - exact Hv.
  - cbn [result_of set_err is_valid l_valid]. congruence.
Qed.

End HevcResult.

(** ** The batch driver: an output that exists is skipped *)

Section Skip.

Context `{Host}.

Lemma abs_bool_lt_2 (b : bool) : (Driver.abs_bool b <? 2) = true.
Proof. destruct b; reflexivity. Qed.

(** C3.  The condition of line 536 compares the absolute value of a
    bool with 2, so it is true whenever both duration strings can be
    read, whatever the two durations are.  The durations [check_hevc]
    returns can be read: when the source probed as valid, the test is
    true exactly when the existing output probes as valid. *)
Theorem skip_converted_always :
  (forall (_dur _main_duration : value) (a b : Q),
     Units.hms2sec _dur = Ok a ->
     Units.hms2sec _main_duration = Ok b ->
     Driver.skip_converted true _dur _main_duration = Ok true)
  /\ (forall src out : probe,
        is_valid (check_hevc src) = true ->
        Driver.skip_converted (is_valid (check_hevc out))
          (main_duration (info (check_hevc out)))
          (main_duration (info (check_hevc src)))
        = Ok (is_valid (check_hevc out))).
Proof.
  assert (G : forall (_dur _main_duration : value) (a b : Q),
             Units.hms2sec _dur = Ok a ->
             Units.hms2sec _main_duration = Ok b ->
             Driver.skip_converted true _dur _main_duration = Ok true).
  { intros d m a b Ha Hb. unfold Driver.skip_converted.
    rewrite Ha, Hb. cbn [ebind]. rewrite abs_bool_lt_2. reflexivity. }
  split; [exact G|].
  intros src out Hsrc.
  destruct (is_valid (check_hevc out)) eqn:Hout; [|reflexivity].
  assert (P : forall p, is_valid (check_hevc p) = true ->
                        exists q, Units.hms2sec
                                    (main_duration (info (check_hevc p)))
                                  = Ok q).
  { intros p Hp.
    destruct (check_hevc_valid_all_set p Hp) as (_ & _ & _ & _ & Hd & _).
    destruct (check_hevc_duration_parses p) as [E|E]; [|exact E].
    rewrite E in Hd. discriminate Hd. }
  destruct (P src Hsrc) as [b Hb]. destruct (P out Hout) as [a Ha].
  exact (G _ _ a b Ha Hb).
Qed.

End Skip.

(** An output of 5 seconds for a source of 2 hours: the test is true. *)
Lemma skip_converted_always_witness :
  Driver.skip_converted true (VStr "00:00:05.0") (VStr "02:00:00.0")
  = Ok true.
Proof.
  refine (proj1 skip_converted_always (VStr "00:00:05.0")
            (VStr "02:00:00.0") 5%Q 7200%Q _ _); reflexivity.
Defined.

(** ** check_hevc: validity needs a kept secondary stream *)

Lemma triple_bind_lift {S A B : Type} (P : S -> Prop) (m : exc A)
    (k : A -> SE S B) (Q : B -> S -> Prop) (E : S -> Prop) :
  (forall a, m = Ok a -> triple P (k a) Q E) ->
  (forall s, P s -> E s) ->
  triple P (sbind (lift m) k) Q E.
Proof.
  intros Hk HE s Hs. unfold sbind, lift.
  destruct m as [a|e]; [exact (Hk a eq_refl s Hs) | exact (HE s Hs)].
Qed.

Lemma triple_bind_keep {S A B : Type} (P : S -> Prop) (m : SE S A)
    (k : A -> SE S B) (Q : B -> S -> Prop) :
  inv P m ->
  (forall a, triple P (k a) Q (fun _ => True)) ->
  triple P (sbind m k) Q (fun _ => True).
Proof.
  intros Hm Hk. eapply triple_bind with (R := fun _ => P); [|exact Hk].
  eapply triple_conseq; [exact Hm | | |]; auto.
Qed.

Lemma triple_of_inv {S A : Type} (P : S -> Prop) (m : SE S A)
    (Q : A -> S -> Prop) :
  inv P m -> (forall a s, P s -> Q a s) ->
  triple P m Q (fun _ => True).
Proof.
  intros Hm HQ. eapply triple_conseq; [exact Hm | | |]; auto.
Qed.

Lemma append_nonempty_r (a b : string) : b <> "" -> a ++ b <> "".
Proof.
  intros Hb E. destruct a as [|c a]; [exact (Hb E) | discriminate E].
Qed.

Lemma append_nonempty_l (a b : string) : a <> "" -> a ++ b <> "".
Proof.
  intros Ha E. destruct a as [|c a]; [exact (Ha eq_refl) | discriminate E].
Qed.

Section HevcFragments.

Context `{Host}.

Lemma resolution_nonempty (d : value) (kw kh r : string) :
  (w <- Py.get d kw (VStr "") ;;
   h <- Py.get d kh (VStr "") ;; Ok (Py.str w ++ "x" ++ Py.str h)) = Ok r ->
  r <> "".
Proof.
  destruct (Py.get d kw (VStr "")) as [w|]; [|discriminate]. cbn [ebind].
  destruct (Py.get d kh (VStr "")) as [h|]; [|discriminate]. cbn [ebind].
  intros E. injection E as <-. apply append_nonempty_r. discriminate.
Qed.

Lemma main_stream_fills (_d _codec_name _codec_type _duration _bitrate : value) :
  triple (fun _ => True)
    (main_stream _d _codec_name _codec_type _duration _bitrate)
    (fun f l => f = Next -> main_filled l) (fun _ => True).
Proof.
  unfold main_stream.
  eapply triple_bind_keep; [inv_auto; exact I|]. intros _.
  eapply triple_bind_keep; [inv_auto; exact I|]. intros iv.
  eapply triple_bind with
    (R := fun _ l => cmd_main_stream (l_info l) <> "").
  { apply triple_modify. intros l _.
    cbn [on_info l_info set_cmd_main_stream cmd_main_stream].
    apply append_nonempty_r. discriminate. }
  intros _.
  apply triple_bind_lift; [|auto]. intros _main_fps _.
  eapply triple_bind_keep; [inv_auto; assumption|]. intros _.
  apply triple_bind_lift; [|auto]. intros fast _.
  eapply triple_bind_keep;
    [unfold add_filter; inv_auto; assumption|]. intros _.
  apply triple_bind_lift; [|auto]. intros r Hr.
  apply resolution_nonempty in Hr.
  eapply triple_bind with (R := fun _ l => main_filled l).
  { apply triple_modify. intros l Hl. split; [exact Hl | exact Hr]. }
  intros _.
  eapply triple_bind_keep.
  { apply inv_when. apply inv_bind_lift. intros r' Hr'.
    apply resolution_nonempty in Hr'.
    apply inv_modify. intros l [Hc _]. split; [exact Hc | exact Hr']. }
  intros _.
  eapply triple_bind_keep; [inv_auto; assumption|]. intros _main_resolution.
  apply triple_bind_lift; [|auto]. intros big _.
  eapply triple_bind_keep;
    [unfold add_filter; inv_auto; assumption|]. intros _.
  destruct (negb (Py.truthy _bitrate) || negb (Py.truthy _duration)
            || negb (Py.truthy _main_fps)).
  - eapply triple_bind_keep; [inv_auto; assumption|]. intros _.
    apply triple_ret. intros l _ E. discriminate E.
  - apply triple_of_inv; [|auto].
    unfold add_desc. inv_auto; assumption.
Qed.

Lemma stream_fragments_ok (j_data : value) (_old_size : Z) (_d : value) :
  triple fragments_ok (stream j_data _old_size _d)
    (fun f l => f = Next -> fragments_ok l) (fun _ => True).
Proof.
  unfold stream.
  repeat (apply triple_bind_lift; [intros ? _ | auto]).
  eapply triple_bind_keep; [inv_auto; assumption|]. intros _.
  apply triple_bind_lift; [intros ? _ | auto].
  eapply triple_bind_keep; [inv_auto; assumption|]. intros enc.
  match goal with
  | |- triple _ (if ?c then _ else _) _ _ => destruct c
  end.
  - eapply triple_conseq; [apply main_stream_fills | | |].
    + intros; exact I.
    + intros f l Hf E _. exact (Hf E).
    + intros; exact I.
  - apply triple_of_inv; [|auto].
    unfold other_stream, add_copy, add_desc. inv_auto; assumption.
Qed.

Lemma for_streams_fragments_ok (j_data : value) (_old_size : Z)
    (ds : list value) :
  triple fragments_ok (for_streams j_data _old_size ds)
    (fun f l => f = Next -> fragments_ok l) (fun _ => True).
Proof.
  induction ds as [|d ds IH]; cbn [for_streams].
  - apply triple_ret. auto.
  - eapply triple_bind; [apply stream_fragments_ok|].
    intros [|].
    + eapply triple_conseq; [exact IH | | |].
      * intros l Hl. exact (Hl eq_refl).
      * intros f l Hf. exact Hf.
      * intros; exact I.
    + apply triple_ret. intros l _ E. discriminate E.
Qed.

End HevcFragments.

Lemma nonempty_eqb (s : string) : s <> "" -> negb (String.eqb s "") = true.
Proof.
  intros Hs. destruct (String.eqb_spec s ""); [contradiction | reflexivity].
Qed.

Lemma triple_conj {S A : Type} (P : S -> Prop) (m : SE S A)
    (Q1 Q2 : A -> S -> Prop) (E1 E2 : S -> Prop) :
  triple P m Q1 E1 -> triple P m Q2 E2 ->
  triple P m (fun a s => Q1 a s /\ Q2 a s) (fun s => E1 s /\ E2 s).
Proof.
  intros H1 H2 s Hs. specialize (H1 s Hs). specialize (H2 s Hs).
  destruct (m s) as [s' [a|e]]; split; assumption.
Qed.

Lemma triple_frame {S A : Type} (I P : S -> Prop) (m : SE S A)
    (Q : A -> S -> Prop) :
  inv I m -> (forall s, P s -> I s) -> (forall a s, I s -> Q a s) ->
  triple P m Q (fun _ => True).
Proof.
  intros Hm HP HQ. eapply triple_conseq; [exact Hm | | |]; auto.
Qed.

Section HevcValid.

Context `{Host}.

Ltac finish_case Hv He Hb Hf Hd Hr :=
  cbn [l_info l_valid on_info set_cmd_vf set_cmd_main_stream set_valid
       main_encoder main_bitrate main_fps main_resolution main_duration
       cmd_main_stream cmd_copy_stream];
  rewrite He, Hb, Hf, Hd, (nonempty_eqb _ Hr); cbn [andb];
  match goal with
  | |- context [negb (String.eqb ?m "") && _] =>
      let M := fresh "M" in
      assert (M : m <> "");
      [ | rewrite (nonempty_eqb _ M); cbn [andb];
          match goal with
          | |- context [if negb ?c then _ else _] => destruct c
          end; cbn [negb];
          eexists; (split; [reflexivity|]);
          cbn [l_info l_valid on_info set_cmd_vf set_cmd_main_stream
               set_valid cmd_main_stream cmd_copy_stream];
          repeat split; solve [reflexivity | exact Hv | exact M] ]
  end.

(** The steps after the loop, when the main stream is complete: the
    result is valid exactly when the copy fragment is not empty. *)
Lemma finish_result (l : locals) :
  l_valid l = false ->
  cmd_main_stream (l_info l) <> "" ->
  main_resolution (l_info l) <> "" ->
  Py.truthy (main_encoder (l_info l)) = true ->
  Py.truthy (main_bitrate (l_info l)) = true ->
  Py.truthy (main_fps (l_info l)) = true ->
  Py.truthy (main_duration (l_info l)) = true ->
  exists l',
    finish l = (l', Ok tt)
    /\ l_valid l' = negb (String.eqb (cmd_copy_stream (l_info l)) "")
    /\ cmd_copy_stream (l_info l') = cmd_copy_stream (l_info l)
    /\ cmd_main_stream (l_info l') <> "".
Proof.
  intros Hv Hc Hr He Hb Hf Hd.
  unfold finish, when, sbind, gets, modify, ret. cbn [Py.truthy].
  destruct (negb (String.eqb (cmd_vf l) "")).
  - cbn [cmd_vf set_cmd_vf].
    destruct (Str.contains "scale=1920" (cmd_vf l ++ dq ++ " ")).
    + finish_case Hv He Hb Hf Hd Hr.
      apply append_nonempty_l, append_nonempty_r. exact Hc.
    + finish_case Hv He Hb Hf Hd Hr.
      apply append_nonempty_r. exact Hc.
  - finish_case Hv He Hb Hf Hd Hr. exact Hc.
Qed.

(** One stream fills the main fragment or the copy fragment, never
    both. *)
Lemma stream_first (j_data : value) (_old_size : Z) (_d : value) :
  triple (fun l => main_encoder (l_info l) = VStr ""
                   /\ cmd_copy_stream (l_info l) = "")
    (stream j_data _old_size _d)
    (fun _ l => Py.truthy (main_encoder (l_info l)) = false
                \/ cmd_copy_stream (l_info l) = "")
    (fun _ => True).
Proof.
  unfold stream.
  repeat (apply triple_bind_lift; [intros ? _ | auto]).
  eapply triple_bind_keep; [inv_auto; assumption|]. intros _.
  apply triple_bind_lift; [intros ? _ | auto].
  eapply triple_bind_keep; [inv_auto; assumption|]. intros enc.
  match goal with
  | |- triple _ (if ?c then _ else _) _ _ => destruct c
  end.
  - apply triple_frame with (I := fun l => cmd_copy_stream (l_info l) = "").
    + unfold main_stream, add_filter, add_desc. inv_auto; assumption.
    + intros l [_ E]. exact E.
    + intros _ l E. right. exact E.
  - apply triple_frame with (I := fun l => main_encoder (l_info l) = VStr "").
    + unfold other_stream, add_copy, add_desc. inv_auto; assumption.
    + intros l [E _]. exact E.
    + intros _ l E. left. rewrite E. reflexivity.
Qed.

End HevcValid.

Section HevcClaim.

Context `{Host}.

Lemma finish_keeps (e0 : value) (c0 : string) :
  inv (fun l => main_encoder (l_info l) = e0
                /\ cmd_copy_stream (l_info l) = c0) finish.
Proof. unfold finish. inv_auto; assumption. Qed.

Lemma finish_invalid (l : locals) :
  l_valid l = false ->
  Py.truthy (main_encoder (l_info l)) = false
  \/ cmd_copy_stream (l_info l) = "" ->
  l_valid (fst (finish l)) = false.
Proof.
  intros Hv Hq.
  pose proof (finish_valid l Hv) as Hf.
  pose proof (finish_keeps (main_encoder (l_info l))
                (cmd_copy_stream (l_info l)) l (conj eq_refl eq_refl)) as Hk.
  destruct (finish l) as [l' [u|e]]; cbn [fst]; [|exact Hf].
  destruct (l_valid l') eqn:V; [|reflexivity].
  destruct (Hf eq_refl) as (He & _ & _ & _ & _ & _ & Hc).
  destruct Hk as [Ke Kc]. rewrite Ke in He. rewrite Kc in Hc.
  destruct Hq as [Q|Q]; [congruence | contradiction].
Qed.

(** C1, as amended.  A valid result has the main stream resolved and
    both fragments non-empty.  When the loop over the streams runs
    through and leaves a named main stream with bit rate, frame rate and
    duration set, the result is valid exactly when the copy fragment is
    not empty, that is, when a stream other than the main one was kept;
    the main fragment is not empty then.  A document with a single stream
    is never valid. *)
Theorem check_hevc_valid_iff_copy (p : probe) :
  (is_valid (check_hevc p) = true -> all_set (info (check_hevc p)))
  /\ (forall (_old_size : Z) (j_data : value) (ds : list value) (l : locals),
        st_size p = Some _old_size ->
        _old_size <> 0 ->
        stdout p = Doc j_data ->
        (x <- Py.getitem j_data "streams" ;; iterate x) = Ok ds ->
        for_streams j_data _old_size ds locals0 = (l, Ok Next) ->
        Py.truthy (main_encoder (l_info l)) = true ->
        Py.truthy (main_bitrate (l_info l)) = true ->
        Py.truthy (main_fps (l_info l)) = true ->
        Py.truthy (main_duration (l_info l)) = true ->
        is_valid (check_hevc p)
        = negb (String.eqb (cmd_copy_stream (l_info l)) "")
        /\ cmd_copy_stream (info (check_hevc p)) = cmd_copy_stream (l_info l)
        /\ cmd_main_stream (info (check_hevc p)) <> "")
  /\ (forall (j_data _d : value),
        stdout p = Doc j_data ->
        Py.getitem j_data "streams" = Ok (VList [_d]) ->
        is_valid (check_hevc p) = false).
Proof.
  split; [apply check_hevc_valid_all_set|]. split.
  - intros sz j ds l Hs Hz Ho Hds Hl He Hb Hf Hd.
    pose proof (for_streams_keeps_invalid j sz ds locals0 eq_refl) as Hv.
    pose proof (for_streams_fragments_ok j sz ds locals0) as Hm.
    rewrite Hl in Hv, Hm.
    destruct (Hm ltac:(discriminate) eq_refl Hd) as [Hc Hr].
    destruct (finish_result l Hv Hc Hr He Hb Hf Hd) as (l' & E & V & C & M).
    unfold check_hevc. rewrite Hs.
    destruct (Z.eqb_spec sz 0) as [|_]; [contradiction|].
    rewrite Ho. cbn [try_body]. unfold sbind at 1. unfold lift.
    rewrite Hds. unfold sbind. rewrite Hl, E.
    cbn [result_of is_valid info]. auto.
  - intros j d Ho Hg. unfold check_hevc.
    destruct (st_size p) as [sz|]; [|reflexivity].
    destruct (sz =? 0); [reflexivity|].
    rewrite Ho. cbn [try_body]. unfold sbind at 1. unfold lift.
    rewrite Hg. cbn [ebind iterate for_streams]. unfold sbind.
    pose proof (stream_keeps_invalid j sz d locals0 eq_refl) as Hv.
    pose proof (stream_first j sz d locals0 (conj eq_refl eq_refl)) as Hq.
    destruct (stream j sz d locals0) as [l [[|]|e]];
      cbn [ret result_of set_err is_valid l_valid]; try exact Hv.
    pose proof (finish_invalid l Hv Hq) as Hi.
    destruct (finish l) as [l' [u|e]]; exact Hi.
Qed.

End HevcClaim.

(** A video stream and an audio stream: the audio stream fills the copy
    fragment and the result is valid. *)
Lemma check_hevc_valid_iff_copy_witness :
  is_valid (check_hevc (mk_probe (Some 5000) (Doc Samples.video_audio) ""))
  = true
  /\ cmd_copy_stream
       (info (check_hevc (mk_probe (Some 5000) (Doc Samples.video_audio) "")))
     = "-map 0:a:0 -c:a:0 aac -async 1 -apad 1 ".
Proof.
  pose proof (proj1 (proj2 (check_hevc_valid_iff_copy
                (mk_probe (Some 5000) (Doc Samples.video_audio) "")))
                5000 Samples.video_audio
                (match Samples.video_audio with
                 | VDict (("streams", VList ds) :: _) => ds
                 | _ => []
                 end)
                (fst (for_streams Samples.video_audio 5000
                        (match Samples.video_audio with
                         | VDict (("streams", VList ds) :: _) => ds
                         | _ => []
                         end) locals0))) as W.
  destruct W as (V & C & _); try (vm_compute; reflexivity).
  - discriminate.
  - split; [exact V | exact C].
Defined.

(** C1, as stated, fails.  The only stream is the main video stream; its
    bit rate, duration and frame rate are all there; the main fragment is
    filled; the copy fragment is empty and the result is not valid. *)
Lemma check_hevc_counterexample :
  check_hevc (mk_probe (Some 5000) (Doc Samples.video_only) "")
  = mk_result false ""
      (mk_info (VStr "h264") (VInt 1000000) (VFloat 30) "1280x720"
         (VStr "00:00:10.0") "-map 0:v:0 -c:v:0 hevc_amf " ""
         ("00:00:10.0, video:h264 yuv420p(),  1280x720@30.0fps 1000kb/s"
          ++ nl)).
Proof. vm_compute. reflexivity. Qed.

(* ================================================================== *)
(** * Part III. Further properties of the code *)
(* ================================================================== *)

(** ** Decimal text of integers: [int(str(z)) == z] *)


Lemma is_digit_not_space (a : ascii) :
  Str.is_digit a = true -> Str.is_space a = false.
Proof.
  unfold Str.is_digit, Str.is_space. intros Hd.
  apply andb_prop in Hd. destruct Hd as [H1 H2].
  apply N.leb_le in H1. apply N.leb_le in H2.
  destruct (N.leb_spec 9 (N_of_ascii a)), (N.leb_spec (N_of_ascii a) 13),
    (N.leb_spec 28 (N_of_ascii a)), (N.leb_spec (N_of_ascii a) 32);
    cbn; try reflexivity; lia.
Qed.

Lemma lstrip_id (s : string) :
  Chars.all (fun a => negb (Str.is_space a)) s = true -> Str.lstrip s = s.
Proof.
  destruct s as [|a s]; [reflexivity|]. cbn [Chars.all Str.lstrip].
  intros Hs. apply andb_prop in Hs. destruct Hs as [Ha _].
  apply negb_true_iff in Ha. rewrite Ha. reflexivity.
Qed.

Lemma rstrip_id (s : string) :
  Chars.all (fun a => negb (Str.is_space a)) s = true -> Str.rstrip s = s.
Proof.
  induction s as [|a s IH]; [reflexivity|]. cbn [Chars.all Str.rstrip].
  intros Hs. apply andb_prop in Hs. destruct Hs as [Ha Hr].
  apply negb_true_iff in Ha. rewrite (IH Hr).
  destruct s; [rewrite Ha|]; reflexivity.
Qed.

Lemma strip_id (s : string) :
  Chars.all (fun a => negb (Str.is_space a)) s = true -> Str.strip s = s.
Proof.
  intros Hs. unfold Str.strip. rewrite (lstrip_id s Hs). apply rstrip_id, Hs.
Qed.

Lemma all_impl (p q : ascii -> bool) (s : string) :
  (forall a, p a = true -> q a = true) ->
  Chars.all p s = true -> Chars.all q s = true.
Proof.
  intros Hpq. induction s as [|a s IH]; [reflexivity|]. cbn [Chars.all].
  intros Hs. apply andb_prop in Hs. destruct Hs as [Ha Hr].
  rewrite (Hpq a Ha), (IH Hr). reflexivity.
Qed.

Lemma all_app (p : ascii -> bool) (a b : string) :
  Chars.all p (a ++ b) = Chars.all p a && Chars.all p b.
Proof.
  induction a as [|c a IH]; [reflexivity|]. cbn [append Chars.all].
  rewrite IH, andb_assoc. reflexivity.
Qed.

Lemma uint_digits (d : Decimal.uint) :
  Chars.all Str.is_digit (NilEmpty.string_of_uint d) = true.
Proof. induction d; cbn; auto. Qed.

Lemma digits_acc_uint (d : Decimal.uint) :
  forall (acc : positive) (seen : bool),
    d <> Decimal.Nil \/ seen = true ->
    Py.digits_acc (Zpos acc) seen (NilEmpty.string_of_uint d)
    = Some (Zpos (Pos.of_uint_acc d acc)).
Proof.
  induction d; intros acc seen Hs;
    [destruct Hs as [Hs | ->]; [contradiction | reflexivity] | ..];
    cbn [NilEmpty.string_of_uint Py.digits_acc Pos.of_uint_acc];
    (match goal with
     | |- context [Str.is_digit ?c] =>
         change (Str.is_digit c) with true; cbv beta iota
     end);
    (match goal with
     | |- Py.digits_acc ?x true _ = Some (Zpos (Pos.of_uint_acc _ ?a)) =>
         replace x with (Zpos a)
           by (match goal with
               | |- context [Str.digit_val ?c] =>
                   let v := eval vm_compute in (Str.digit_val c) in
                   change (Str.digit_val c) with v
               end; lia)
     end);
    apply IHd; right; reflexivity.
Qed.

Lemma digits_acc_uint0 (d : Decimal.uint) :
  forall seen : bool,
    d <> Decimal.Nil \/ seen = true ->
    Py.digits_acc 0 seen (NilEmpty.string_of_uint d) = Some (Z.of_uint d).
Proof.
  induction d; intros seen Hs;
    [destruct Hs as [Hs | ->]; [contradiction | reflexivity] | ..];
    cbn [NilEmpty.string_of_uint Py.digits_acc];
    (match goal with
     | |- context [Str.is_digit ?c] =>
         change (Str.is_digit c) with true; cbv beta iota
     end).
  - rewrite IHd by (right; reflexivity). reflexivity.
  - apply (digits_acc_uint d 1 true). right; reflexivity.
  - apply (digits_acc_uint d 2 true). right; reflexivity.
  - apply (digits_acc_uint d 3 true). right; reflexivity.
  - apply (digits_acc_uint d 4 true). right; reflexivity.
  - apply (digits_acc_uint d 5 true). right; reflexivity.
  - apply (digits_acc_uint d 6 true). right; reflexivity.
  - apply (digits_acc_uint d 7 true). right; reflexivity.
  - apply (digits_acc_uint d 8 true). right; reflexivity.
  - apply (digits_acc_uint d 9 true). right; reflexivity.
Qed.

Lemma nilzero_nonnil (d : Decimal.uint) :
  d <> Decimal.Nil ->
  NilZero.string_of_uint d = NilEmpty.string_of_uint d.
Proof. destruct d; [contradiction | reflexivity ..]. Qed.

Lemma of_Z_pos (p : positive) :
  Str.of_Z (Zpos p) = NilEmpty.string_of_uint (Pos.to_uint p).
Proof.
  unfold Str.of_Z. cbn [Z.to_int NilZero.string_of_int].
  apply nilzero_nonnil, DecimalPos.Unsigned.to_uint_nonnil.
Qed.

Lemma of_Z_neg (p : positive) :
  Str.of_Z (Zneg p) = String "-" (NilEmpty.string_of_uint (Pos.to_uint p)).
Proof.
  unfold Str.of_Z. cbn [Z.to_int NilZero.string_of_int]. f_equal.
  apply nilzero_nonnil, DecimalPos.Unsigned.to_uint_nonnil.
Qed.

Lemma of_Z_digits (z : Z) :
  0 <= z -> Chars.all Str.is_digit (Str.of_Z z) = true.
Proof.
  destruct z as [|p|p]; intros Hz; [reflexivity | | lia].
  rewrite of_Z_pos. apply uint_digits.
Qed.

Lemma of_Z_numeric (z : Z) : Chars.all Chars.numeric (Str.of_Z z) = true.
Proof.
  destruct z as [|p|p]; [reflexivity | |].
  - apply (all_impl Str.is_digit); [|apply of_Z_digits; lia].
    intros a Ha. unfold Chars.numeric. rewrite Ha. reflexivity.
  - rewrite of_Z_neg. cbn [Chars.all]. apply andb_true_intro. split;
      [reflexivity|].
    apply (all_impl Str.is_digit); [|apply uint_digits].
    intros a Ha. unfold Chars.numeric. rewrite Ha. reflexivity.
Qed.

Lemma digits_of_Z (z : Z) (seen : bool) :
  0 <= z -> Py.digits_acc 0 seen (Str.of_Z z) = Some z.
Proof.
  destruct z as [|p|p]; intros Hz; [reflexivity | | lia].
  rewrite of_Z_pos, digits_acc_uint0
    by (left; apply DecimalPos.Unsigned.to_uint_nonnil).
  f_equal. exact (DecimalZ.of_to (Zpos p)).
Qed.

Lemma numeric_not_space (a : ascii) :
  Chars.numeric a = true -> negb (Str.is_space a) = true.
Proof.
  unfold Chars.numeric. intros H. apply orb_prop in H.
  destruct H as [H|H].
  - rewrite (is_digit_not_space a H). reflexivity.
  - apply Ascii.eqb_eq in H. subst a. reflexivity.
Qed.

Lemma digit_not_space (a : ascii) :
  Str.is_digit a = true -> negb (Str.is_space a) = true.
Proof. intros H. rewrite (is_digit_not_space a H). reflexivity. Qed.

(** [int(str(z)) == z] *)
Lemma parse_int_of_Z (z : Z) : Py.parse_int (Str.of_Z z) = Some z.
Proof.
  unfold Py.parse_int.
  rewrite strip_id
    by (apply (all_impl Chars.numeric);
        [exact numeric_not_space | apply of_Z_numeric]).
  destruct z as [|p|p]; [reflexivity | |].
  - pose proof (digits_of_Z (Zpos p) false ltac:(lia)) as D.
    pose proof (of_Z_digits (Zpos p) ltac:(lia)) as A.
    unfold Py.signed, Py.digits.
    destruct (Str.of_Z (Zpos p)) as [|a s] eqn:E; [exact D|].
    cbn [Chars.all] in A. apply andb_prop in A. destruct A as [Ha _].
    destruct (Ascii.eqb_spec a "-") as [->|N1]; [discriminate Ha|].
    destruct (Ascii.eqb_spec a "+") as [->|N2]; [discriminate Ha|].
    destruct a as [[] [] [] [] [] [] [] []]; try exact D;
      first [exfalso; apply N1; reflexivity | exfalso; apply N2; reflexivity].
  - rewrite of_Z_neg. cbn [Py.signed]. unfold Py.digits.
    rewrite digits_acc_uint0
      by (left; apply DecimalPos.Unsigned.to_uint_nonnil).
    cbn [option_map]. f_equal.
    pose proof (DecimalZ.of_to (Zpos p)) as E. cbn in E.
    change (Z.of_uint (Pos.to_uint p)) with (Z.of_int (Z.to_int (Zpos p))).
    rewrite DecimalZ.of_to. reflexivity.
Qed.

(** ** Cutting text at a separator that occurs where it is expected *)

Lemma find_absent (c : ascii) (s : string) :
  Chars.all (fun a => negb (Ascii.eqb a c)) s = true -> Str.find c s = -1.
Proof.
  induction s as [|a s IH]; [reflexivity|]. cbn [Chars.all Str.find].
  intros Hs. apply andb_prop in Hs. destruct Hs as [Ha Hr].
  apply negb_true_iff in Ha. rewrite Ha, (IH Hr). reflexivity.
Qed.

Lemma split_absent (c : ascii) (s : string) :
  forall n : nat,
    Chars.all (fun a => negb (Ascii.eqb a c)) s = true ->
    Str.split c n s = [s].
Proof.
  induction s as [|a s IH]; intros n Hs; [destruct n; reflexivity|].
  cbn [Chars.all] in Hs. apply andb_prop in Hs. destruct Hs as [Ha Hr].
  apply negb_true_iff in Ha.
  destruct n as [|n]; [reflexivity|].
  cbn [Str.split]. rewrite Ha, (IH (S n) Hr). reflexivity.
Qed.

Lemma split_cons (c : ascii) (a r : string) (n : nat) :
  Chars.all (fun x => negb (Ascii.eqb x c)) a = true ->
  Str.split c (S n) (a ++ String c r) = a :: Str.split c n r.
Proof.
  induction a as [|x a IH]; intros Ha.
  - cbn [append Str.split]. rewrite Ascii.eqb_refl. reflexivity.
  - cbn [Chars.all] in Ha. apply andb_prop in Ha. destruct Ha as [Hx Hr].
    apply negb_true_iff in Hx.
    cbn [append Str.split]. rewrite Hx, (IH Hr). reflexivity.
Qed.

Lemma digit_is_not (c : ascii) :
  Str.is_digit c = false ->
  forall a, Str.is_digit a = true -> negb (Ascii.eqb a c) = true.
Proof.
  intros Hc a Ha. destruct (Ascii.eqb_spec a c) as [->|]; [congruence|].
  reflexivity.
Qed.

Lemma digits_without (c : ascii) (s : string) :
  Str.is_digit c = false ->
  Chars.all Str.is_digit s = true ->
  Chars.all (fun a => negb (Ascii.eqb a c)) s = true.
Proof.
  intros Hc. apply all_impl. exact (digit_is_not c Hc).
Qed.

Lemma signed_digits {A : Type} (f : string -> option A) (neg : A -> A)
    (s : string) :
  Chars.all Str.is_digit s = true -> Py.signed f neg s = f s.
Proof.
  destruct s as [|a s]; [reflexivity|]. cbn [Chars.all]. intros Ha.
  apply andb_prop in Ha. destruct Ha as [Ha _].
  destruct (Ascii.eqb_spec a "-") as [->|N1]; [discriminate Ha|].
  destruct (Ascii.eqb_spec a "+") as [->|N2]; [discriminate Ha|].
  unfold Py.signed.
  destruct a as [[] [] [] [] [] [] [] []]; try reflexivity;
    first [exfalso; apply N1; reflexivity | exfalso; apply N2; reflexivity].
Qed.

(** ** Clock strings: [hms2sec(sec_hum(n)) == n] *)

Lemma fmt_02d_digits (z : Z) :
  0 <= z -> Chars.all Str.is_digit (Units.fmt_02d z) = true.
Proof.
  intros Hz. unfold Units.fmt_02d.
  destruct ((0 <=? z) && (z <? 10)); [cbn [append Chars.all]|];
    rewrite (of_Z_digits z Hz); reflexivity.
Qed.

Lemma digits_fmt_02d (z : Z) :
  0 <= z -> Py.digits (Units.fmt_02d z) = Some z.
Proof.
  intros Hz. unfold Units.fmt_02d, Py.digits.
  destruct ((0 <=? z) && (z <? 10)).
  - cbn [append Py.digits_acc]. change (Str.is_digit "0") with true.
    cbv beta iota. apply (digits_of_Z z true Hz).
  - apply (digits_of_Z z false Hz).
Qed.

(** [int] reads back the two-digit fields of a clock string. *)
Lemma int_fmt_02d (z : Z) :
  0 <= z -> Py.int (VStr (Units.fmt_02d z)) = Ok z.
Proof.
  intros Hz. cbn [Py.int]. unfold Py.parse_int.
  rewrite strip_id
    by (apply (all_impl Str.is_digit);
        [exact digit_not_space | apply fmt_02d_digits, Hz]).
  rewrite signed_digits by (apply fmt_02d_digits, Hz).
  rewrite (digits_fmt_02d z Hz). reflexivity.
Qed.

Lemma fmt_02d_nonempty (z : Z) : 0 <= z -> Units.fmt_02d z <> "".
Proof.
  intros Hz E. pose proof (digits_fmt_02d z Hz) as D. rewrite E in D.
  discriminate D.
Qed.

Lemma cut_exponent_absent (s : string) :
  Chars.all (fun a => negb (Ascii.eqb a "e" || Ascii.eqb a "E")) s = true ->
  Py.cut_exponent s = (s, None).
Proof.
  induction s as [|a s IH]; [reflexivity|]. cbn [Chars.all Py.cut_exponent].
  intros Hs. apply andb_prop in Hs. destruct Hs as [Ha Hr].
  apply negb_true_iff in Ha. rewrite Ha, (IH Hr). reflexivity.
Qed.

Lemma Qred_inject_Z (z : Z) : Qred (inject_Z z) = inject_Z z.
Proof.
  unfold Qred, inject_Z.
  pose proof (Z.ggcd_gcd z 1) as G.
  pose proof (Z.ggcd_correct_divisors z 1) as D.
  destruct (Z.ggcd z 1) as [g [a b]]. cbn [fst snd] in *.
  rewrite Z.gcd_1_r in G. subst g. destruct D as [Da Db].
  rewrite Z.mul_1_l in Da, Db. subst a b. reflexivity.
Qed.

(** [float] reads back the seconds field with its [.0]. *)
Lemma float_seconds (z : Z) :
  0 <= z ->
  exists q, Py.float (VStr (Units.fmt_02d z ++ ".0")) = Ok q
            /\ (q == inject_Z z)%Q.
Proof.
  intros Hz. cbn [Py.float]. unfold Py.parse_float.
  pose proof (fmt_02d_digits z Hz) as D.
  assert (A : Chars.all (fun a => Str.is_digit a || Ascii.eqb a ".")
                (Units.fmt_02d z ++ ".0") = true).
  { rewrite all_app. apply andb_true_intro. split; [|reflexivity].
    apply (all_impl Str.is_digit); [|exact D].
    intros a Ha. rewrite Ha. reflexivity. }
  rewrite strip_id.
  2:{ apply (all_impl (fun a => Str.is_digit a || Ascii.eqb a "."));
        [|exact A].
      intros a Ha. apply orb_prop in Ha. destruct Ha as [Ha|Ha].
      - apply digit_not_space, Ha.
      - apply Ascii.eqb_eq in Ha. subst a. reflexivity. }
  assert (S1 : Py.signed Py.parse_mantissa Qopp (Units.fmt_02d z ++ ".0")
               = Py.parse_mantissa (Units.fmt_02d z ++ ".0")).
  { pose proof (fmt_02d_nonempty z Hz) as N.
    destruct (Units.fmt_02d z) as [|a s] eqn:E; [contradiction|].
    cbn [Chars.all] in D. apply andb_prop in D. destruct D as [Ha _].
    destruct (Ascii.eqb_spec a "-") as [->|N1]; [discriminate Ha|].
    destruct (Ascii.eqb_spec a "+") as [->|N2]; [discriminate Ha|].
    cbn [append]. unfold Py.signed.
    destruct a as [[] [] [] [] [] [] [] []]; try reflexivity;
      first [exfalso; apply N1; reflexivity
            | exfalso; apply N2; reflexivity]. }
  rewrite S1. unfold Py.parse_mantissa.
  rewrite cut_exponent_absent.
  2:{ apply (all_impl (fun a => Str.is_digit a || Ascii.eqb a "."));
        [|exact A].
      intros a Ha. apply orb_prop in Ha. destruct Ha as [Ha|Ha].
      - destruct (Ascii.eqb_spec a "e") as [->|]; [discriminate Ha|].
        destruct (Ascii.eqb_spec a "E") as [->|]; [discriminate Ha|].
        reflexivity.
      - apply Ascii.eqb_eq in Ha. subst a. reflexivity. }
  change (Units.fmt_02d z ++ ".0")
    with (Units.fmt_02d z ++ String "." "0").
  rewrite split_cons by (apply digits_without; [reflexivity | exact D]).
  cbn [Str.split].
  pose proof (fmt_02d_nonempty z Hz) as N.
  pose proof (digits_fmt_02d z Hz) as P.
  destruct (Units.fmt_02d z) as [|a s] eqn:E; [contradiction|].
  unfold Py.opt_digits. rewrite P.
  change (Py.digits "0") with (Some 0).
  change (Py.count_digits "0") with 1%nat.
  eexists. split; [reflexivity|].
  unfold Py.mkQ. rewrite Qred_correct. unfold Qeq. cbn. lia.
Qed.

Section ClockRoundTrip.

Context `{Host}.

(** [sec_hum] of an int that is not negative: hours, minutes and seconds
    in at least two digits each, and [.0]. *)
Lemma sec_hum_int (n : Z) :
  Units.sec_hum (VInt n)
  = Ok (Units.fmt_02d (n / 3600) ++ ":"
        ++ Units.fmt_02d (n mod 3600 / 60) ++ ":"
        ++ Units.fmt_02d (n mod 3600 mod 60) ++ "." ++ "0").
Proof.
  unfold Units.sec_hum. cbn [Py.int ebind Py.str Py.repr].
  rewrite find_absent; [reflexivity|].
  apply (all_impl Chars.numeric); [|apply of_Z_numeric].
  intros a Ha. unfold Chars.numeric in Ha. apply orb_prop in Ha.
  destruct Ha as [Ha|Ha].
  - destruct (Ascii.eqb_spec a ".") as [->|]; [discriminate Ha|reflexivity].
  - apply Ascii.eqb_eq in Ha. subst a. reflexivity.
Qed.

(** The clock string of a count of seconds, read back. *)
Lemma sec_hum_read_back (n : Z) :
  0 <= n < 2 ^ 53 ->
  exists (t : string) (q : Q),
    Units.sec_hum (VInt n) = Ok t
    /\ Units.hms2sec (VStr t) = Ok q
    /\ (q == inject_Z n)%Q
    /\ t = Units.fmt_02d (n / 3600) ++ ":"
           ++ Units.fmt_02d (n mod 3600 / 60) ++ ":"
           ++ Units.fmt_02d (n mod 60) ++ ".0"
    /\ 0 <= n mod 3600 / 60 < 60 /\ 0 <= n mod 60 < 60.
Proof.
  intros [Hn _].
  assert (Hh : 0 <= n / 3600) by (apply Z.div_pos; lia).
  assert (Hm : 0 <= n mod 3600 / 60 < 60)
    by (pose proof (Z.mod_pos_bound n 3600 ltac:(lia));
        split; [apply Z.div_pos; lia | apply Z.div_lt_upper_bound; lia]).
  assert (Hs : 0 <= n mod 3600 mod 60 < 60)
    by (apply Z.mod_pos_bound; lia).
  assert (Es : n mod 3600 mod 60 = n mod 60).
  { apply Z.mod_mod_divide. exists 60. reflexivity. }
  destruct (float_seconds (n mod 3600 mod 60) ltac:(lia)) as [q [Hq Eq]].
  exists (Units.fmt_02d (n / 3600) ++ ":"
          ++ Units.fmt_02d (n mod 3600 / 60) ++ ":"
          ++ Units.fmt_02d (n mod 3600 mod 60) ++ ".0").
  exists (Qred (inject_Z (n / 3600 * 3600 + n mod 3600 / 60 * 60) + q)).
  split; [apply sec_hum_int|]. split; [|split; [|split; [|split]]].
  - unfold Units.hms2sec. cbn [Py.split3].
    change (Units.fmt_02d (n / 3600) ++ ":"
            ++ Units.fmt_02d (n mod 3600 / 60) ++ ":"
            ++ Units.fmt_02d (n mod 3600 mod 60) ++ ".0")
      with (Units.fmt_02d (n / 3600)
            ++ String ":" (Units.fmt_02d (n mod 3600 / 60)
            ++ String ":" (Units.fmt_02d (n mod 3600 mod 60) ++ ".0"))).
    rewrite split_cons
      by (apply digits_without; [reflexivity | apply fmt_02d_digits, Hh]).
    rewrite split_cons
      by (apply digits_without;
          [reflexivity | apply fmt_02d_digits; lia]).
    rewrite split_absent.
    2:{ rewrite all_app. apply andb_true_intro. split; [|reflexivity].
        apply digits_without; [reflexivity | apply fmt_02d_digits; lia]. }
    cbn [ebind]. rewrite (int_fmt_02d _ Hh). cbn [ebind].
    rewrite int_fmt_02d by lia. cbn [ebind]. rewrite Hq. reflexivity.
  - rewrite Qred_correct, Eq, <- inject_Z_plus. unfold Qeq. cbn.
    rewrite !Z.mul_1_r.
    pose proof (Z.div_mod n 3600 ltac:(lia)).
    pose proof (Z.div_mod (n mod 3600) 60 ltac:(lia)). lia.
  - rewrite Es. reflexivity.
  - exact Hm.
  - rewrite <- Es. exact Hs.
Qed.

(** X1.  For every int [n] from 0 up to [2 ^ 53] (the range in which
    the float sum of [hms2sec] is exact), [sec_hum(n)] is a clock string
    that [hms2sec] reads back as [n]: the minutes and seconds fields are
    below 60 and the hours field is not wrapped at 24. *)
Theorem hms2sec_sec_hum (n : Z) :
  0 <= n < 2 ^ 53 ->
  exists (t : string) (q : Q),
    Units.sec_hum (VInt n) = Ok t
    /\ Units.hms2sec (VStr t) = Ok q
    /\ (q == inject_Z n)%Q
    /\ t = Units.fmt_02d (n / 3600) ++ ":"
           ++ Units.fmt_02d (n mod 3600 / 60) ++ ":"
           ++ Units.fmt_02d (n mod 60) ++ ".0"
    /\ 0 <= n mod 3600 / 60 < 60 /\ 0 <= n mod 60 < 60.
Proof. exact (sec_hum_read_back n). Qed.

End ClockRoundTrip.

(** Two hours, three minutes and four seconds more than a day. *)
Lemma hms2sec_sec_hum_witness :
  exists (t : string) (q : Q),
    Units.sec_hum (VInt 93784) = Ok t
    /\ Units.hms2sec (VStr t) = Ok q
    /\ (q == inject_Z 93784)%Q
    /\ t = Units.fmt_02d (93784 / 3600) ++ ":"
           ++ Units.fmt_02d (93784 mod 3600 / 60) ++ ":"
           ++ Units.fmt_02d (93784 mod 60) ++ ".0"
    /\ 0 <= 93784 mod 3600 / 60 < 60 /\ 0 <= 93784 mod 60 < 60.
Proof. apply (hms2sec_sec_hum 93784). split; [lia | reflexivity]. Defined.

(** ** hms2sec: what it raises *)

Lemma split_length (c : ascii) (s : string) :
  forall n : nat,
    List.length (Str.split c n s) = S (Nat.min (Chars.count c s) n).
Proof.
  induction s as [|a s IH]; intros n.
  - destruct n; reflexivity.
  - destruct n as [|n]; [cbn; rewrite Nat.min_0_r; reflexivity|].
    cbn [Str.split Chars.count].
    destruct (Ascii.eqb a c).
    + cbn [List.length]. rewrite IH. reflexivity.
    + specialize (IH (S n)).
      destruct (Str.split c (S n) s) as [|x r]; cbn [List.length] in *;
        [discriminate IH | exact IH].
Qed.

(** X2.  [hms2sec] of a str raises [ValueError] when the str has not
    exactly two colons; of a str of at most 300 characters, whose hours
    and minutes are within the range of a float, it returns a number or
    raises [ValueError], nothing else; of a value that is no str it
    raises [AttributeError]. *)
Theorem hms2sec_errors :
  (forall s : string,
     Chars.count ":" s <> 2%nat ->
     Units.hms2sec (VStr s) = Raise ValueError)
  /\ (forall s : string,
        (String.length s <= 300)%nat ->
        (exists q, Units.hms2sec (VStr s) = Ok q)
        \/ Units.hms2sec (VStr s) = Raise ValueError)
  /\ (forall v : value,
        (forall s, v <> VStr s) ->
        Units.hms2sec v = Raise AttributeError).
Proof.
  split; [|split].
  - intros s Hc. unfold Units.hms2sec. cbn [Py.split3].
    pose proof (split_length ":" s 3) as L.
    destruct (Str.split ":" 3 s) as [|a [|b [|c [|d r]]]];
      cbn [List.length] in L; try reflexivity.
    exfalso. apply Hc. injection L as L. lia.
  - intros s _. unfold Units.hms2sec. cbn [Py.split3].
    destruct (Str.split ":" 3 s) as [|a [|b [|c [|d r]]]];
      try (right; reflexivity).
    cbn [ebind Py.int Py.float].
    destruct (Py.parse_int a); [|right; reflexivity]. cbn [Py.of_opt ebind].
    destruct (Py.parse_int b); [|right; reflexivity]. cbn [Py.of_opt ebind].
    destruct (Py.parse_float c); [|right; reflexivity].
    cbn [Py.of_opt ebind]. left. eexists. reflexivity.
  - intros v Hv. destruct v; try reflexivity.
    exfalso. exact (Hv s eq_refl).
Qed.

Lemma hms2sec_errors_witness :
  Units.hms2sec (VStr "01:02") = Raise ValueError
  /\ Units.hms2sec (VStr "") = Raise ValueError
  /\ ((exists q, Units.hms2sec (VStr "01:02:03.5") = Ok q)
      \/ Units.hms2sec (VStr "01:02:03.5") = Raise ValueError)
  /\ Units.hms2sec VNone = Raise AttributeError.
Proof.
  split; [|split; [|split]].
  - apply (proj1 hms2sec_errors "01:02"). cbn. discriminate.
  - apply (proj1 hms2sec_errors ""). cbn. discriminate.
  - apply (proj1 (proj2 hms2sec_errors) "01:02:03.5"). cbn. lia.
  - apply (proj2 (proj2 hms2sec_errors) VNone). intros s. discriminate.
Defined.

(** ** size_hum with the default base *)

Lemma unit_index (m : Z) :
  0 <= m < 2 ^ 53 ->
  exists k : nat,
    (k < 6)%nat
    /\ (k = O \/ 1024 ^ Z.of_nat k <= m)
    /\ m < 1024 ^ Z.of_nat (S k).
Proof.
  intros [H0 H9].
  destruct (Z.lt_ge_cases m (1024 ^ 1)) as [L1|G1];
    [exists 0%nat; repeat split; [lia | left; reflexivity | exact L1]|].
  destruct (Z.lt_ge_cases m (1024 ^ 2)) as [L2|G2];
    [exists 1%nat; repeat split; [lia | right; exact G1 | exact L2]|].
  destruct (Z.lt_ge_cases m (1024 ^ 3)) as [L3|G3];
    [exists 2%nat; repeat split; [lia | right; exact G2 | exact L3]|].
  destruct (Z.lt_ge_cases m (1024 ^ 4)) as [L4|G4];
    [exists 3%nat; repeat split; [lia | right; exact G3 | exact L4]|].
  destruct (Z.lt_ge_cases m (1024 ^ 5)) as [L5|G5];
    [exists 4%nat; repeat split; [lia | right; exact G4 | exact L5]|].
  exists 5%nat. repeat split; [lia | right; exact G5 |].
  change (1024 ^ Z.of_nat 6) with (1024 ^ 6).
  assert (2 ^ 53 < 1024 ^ 6) by reflexivity. lia.
Qed.

(** X3.  With the base 1024 and a count of magnitude below [2 ^ 53]
    (the range in which the float arithmetic of the code is exact),
    [size_hum] does not raise: it returns the sign, a number with two
    decimals and one of the units [B] to [PB].  The number is the
    magnitude over [1024 ^ k] for the unit of index [k]; it lies in
    [1, 1024) unless the unit is [B]. *)
Theorem size_hum_total (n : Z) :
  Z.abs n < 2 ^ 53 ->
  exists (k : nat) (q : Q),
    (k < 6)%nat
    /\ (q == inject_Z (Z.abs n) / inject_Z (1024 ^ Z.of_nat k))%Q
    /\ Units.size_hum n 1024
       = Ok ((if 0 <=? n then "" else "-") ++ Units.fmt_2f q
             ++ nth k Units.units "")
    /\ (k = O \/ 1 <= q)%Q /\ (0 <= q < 1024)%Q.
Proof.
  intros Hn.
  destruct (unit_index (Z.abs n) ltac:(lia)) as (k & Hk & Hlo & Hhi).
  exists k, (inject_Z (Z.abs n) / inject_Z (1024 ^ Z.of_nat k))%Q.
  assert (P : (0 < inject_Z (1024 ^ Z.of_nat k))%Q).
  { change 0%Q with (inject_Z 0). rewrite <- Zlt_Qlt. apply pow1024_pos. }
  split; [exact Hk|]. split; [reflexivity|].
  split; [apply size_hum_unit; [lia | assumption | assumption]|].
  split; [|split].
  - destruct Hlo as [->|Hlo]; [left; reflexivity | right].
    apply Qle_shift_div_l; [exact P|]. rewrite Qmult_1_l.
    rewrite <- Zle_Qle. exact Hlo.
  - apply Qle_shift_div_l; [exact P|]. rewrite Qmult_0_l.
    change 0%Q with (inject_Z 0). rewrite <- Zle_Qle. lia.
  - apply Qlt_shift_div_r; [exact P|].
    change 1024%Q with (inject_Z 1024).
    rewrite <- inject_Z_mult, <- Zlt_Qlt, <- pow1024_S. exact Hhi.
Qed.

(** Three mebibytes and a half, lost. *)
Lemma size_hum_total_witness :
  exists (k : nat) (q : Q),
    (k < 6)%nat
    /\ (q == inject_Z (Z.abs (-3670016)) / inject_Z (1024 ^ Z.of_nat k))%Q
    /\ Units.size_hum (-3670016) 1024
       = Ok ((if 0 <=? -3670016 then "" else "-") ++ Units.fmt_2f q
             ++ nth k Units.units "")
    /\ (k = O \/ 1 <= q)%Q /\ (0 <= q < 1024)%Q.
Proof.
  apply (size_hum_total (-3670016)). reflexivity.
Defined.

(** ** bitrate_hum *)

Lemma trunc_Qred (q : Q) : Py.trunc (Qred q) = Py.trunc q.
Proof.
  unfold Py.trunc, Qred. destruct q as [a b]. cbn [Qnum Qden].
  pose proof (Z.ggcd_gcd a (Zpos b)) as G.
  pose proof (Z.ggcd_correct_divisors a (Zpos b)) as D.
  pose proof (Z.gcd_nonneg a (Zpos b)) as N.
  destruct (Z.ggcd a (Zpos b)) as [g [aa bb]]. cbn [fst snd] in *.
  destruct D as [Da Db]. cbn [Qnum Qden].
  assert (Hg : 0 < g) by (destruct (Z.eq_dec g 0); [subst; lia | lia]).
  assert (Hb : 0 < bb) by nia.
  rewrite Z2Pos.id by exact Hb.
  rewrite Da, Db. symmetry. apply Z.quot_mul_cancel_l; lia.
Qed.

(** X4.  [bitrate_hum] of an int of magnitude below [2 ^ 53] is the int
    over 1000, cut towards zero (so 999 gives 0 and -1500 gives -1),
    followed by [kb/s]; of a value that is no number it raises
    [TypeError]. *)
Theorem bitrate_hum_spec :
  (forall x : Z,
     Z.abs x < 2 ^ 53 ->
     Units.bitrate_hum (VInt x) = Ok (Str.of_Z (Z.quot x 1000) ++ "kb/s"))
  /\ (forall v : value,
        Py.num v = Raise TypeError ->
        Units.bitrate_hum v = Raise TypeError).
Proof.
  split.
  - intros x _. unfold Units.bitrate_hum. cbn [Py.num ebind].
    change (Py.truediv (inject_Z x) 1000)
      with (Ok (Qred (inject_Z x / 1000))).
    cbn [ebind]. rewrite trunc_Qred. unfold Py.trunc. cbn.
    rewrite Z.mul_1_r. reflexivity.
  - intros v Hv. unfold Units.bitrate_hum. rewrite Hv. reflexivity.
Qed.

Lemma bitrate_hum_spec_witness :
  Units.bitrate_hum (VStr "128000") = Raise TypeError
  /\ Units.bitrate_hum (VInt (-1500)) = Ok "-1kb/s"
  /\ Units.bitrate_hum (VInt 999) = Ok "0kb/s".
Proof.
  split; [|split].
  - apply (proj2 bitrate_hum_spec (VStr "128000")). reflexivity.
  - apply (proj1 bitrate_hum_spec (-1500)). reflexivity.
  - apply (proj1 bitrate_hum_spec 999). reflexivity.
Defined.

(** ** The notifier: the label of the bar *)

Lemma shorten_50 (s : string) :
  (Str.len s <= 50 -> Units.shorten s 50 "[...]" = s)
  /\ (50 < Str.len s ->
      Units.shorten s 50 "[...]"
      = Str.take 22 s ++ "[...]" ++ Str.drop (String.length s - 23) s
      /\ Str.len (Units.shorten s 50 "[...]") = 50).
Proof.
  split; [apply shorten_fits|]. intros Hl.
  pose proof (shorten_middle s "[...]" 50 Hl ltac:(reflexivity)) as E.
  change (Z.to_nat ((50 - Str.len "[...]") / 2)) with 22%nat in E.
  change (Z.to_nat ((50 - Str.len "[...]" + 1) / 2)) with 23%nat in E.
  split; [exact E|]. rewrite E. unfold Str.len in *.
  rewrite !length_app, length_take, length_drop.
  change (String.length "[...]") with 5%nat. lia.
Qed.

Section SourceLabel.

Context `{Host}.

(** X5.  The label [get_source] returns is never longer than 50
    characters: it is the base name of the decoded path when that has at
    most 50 characters, and otherwise its first 22 characters, the text
    [[...]] and its last 23 characters.  When the pattern is not found the
    result is [None], and a path that does not decode raises. *)
Theorem get_source_label (enc line : string) :
  (forall x, get_source enc line = Ok (Some x) ->
     Str.len x <= 50
     /\ exists g p,
          SOURCE_RX line = Some g /\ bytes_decode enc g = Ok p
          /\ (Str.len (basename p) <= 50 -> x = basename p)
          /\ (50 < Str.len (basename p) ->
              x = Str.take 22 (basename p) ++ "[...]"
                  ++ Str.drop (String.length (basename p) - 23)
                       (basename p)))
  /\ (SOURCE_RX line = None -> get_source enc line = Ok None)
  /\ (forall g e, SOURCE_RX line = Some g -> bytes_decode enc g = Raise e ->
        get_source enc line = Raise e).
Proof.
  unfold get_source. split; [|split].
  - intros x. destruct (SOURCE_RX line) as [g|]; [|discriminate].
    destruct (bytes_decode enc g) as [p|e] eqn:D; [|discriminate].
    cbn [ebind]. intros E. injection E as <-.
    destruct (shorten_50 (basename p)) as [Hs Hl]. split.
    + destruct (Z.le_gt_cases (Str.len (basename p)) 50) as [L|G].
      * rewrite (Hs L). exact L.
      * destruct (Hl G) as [_ E]. rewrite E. lia.
    + exists g, p. split; [reflexivity|]. split; [exact D|].
      split; [exact Hs | intros G; exact (proj1 (Hl G))].
  - intros ->. reflexivity.
  - intros g e -> ->. reflexivity.
Qed.

End SourceLabel.

Lemma get_source_label_witness :
  Str.len "a_very_long_file_name_[...]growing_and_growing.mkv" <= 50.
Proof.
  refine (proj1 (proj1 (get_source_label "utf8"
    "Input #0, matroska, from 'D:/v/a_very_long_file_name_that_keeps_growing_and_growing.mkv':")
    "a_very_long_file_name_[...]growing_and_growing.mkv" _)).
  vm_compute. reflexivity.
Defined.

(** ** The notifier: the groups of the patterns are numbers *)

Lemma digit_val_range (a : ascii) :
  Str.is_digit a = true -> 0 <= Str.digit_val a <= 9.
Proof.
  unfold Str.is_digit, Str.digit_val. intros Hd.
  apply andb_prop in Hd. destruct Hd as [H1 H2].
  apply N.leb_le in H1. apply N.leb_le in H2. lia.
Qed.

Lemma int_str2 (a b : ascii) :
  Str.is_digit a = true -> Str.is_digit b = true ->
  Py.int (VStr (str2 a b)) = Ok (Str.digit_val a * 10 + Str.digit_val b).
Proof.
  intros Ha Hb. cbn [Py.int]. unfold Py.parse_int, str2.
  assert (D : Chars.all Str.is_digit (String a (String b "")) = true)
    by (cbn [Chars.all]; rewrite Ha, Hb; reflexivity).
  rewrite strip_id by (apply (all_impl Str.is_digit);
                       [exact digit_not_space | exact D]).
  rewrite signed_digits by exact D.
  unfold Py.digits. cbn [Py.digits_acc]. rewrite Ha, Hb. reflexivity.
Qed.

Lemma match_clock_groups (s h m x : string) :
  match_clock s = Some (h, m, x) ->
  exists a b c d e f,
    h = str2 a b /\ m = str2 c d /\ x = str2 e f
    /\ Str.is_digit a = true /\ Str.is_digit b = true
    /\ Str.is_digit c = true /\ Str.is_digit d = true
    /\ Str.is_digit e = true /\ Str.is_digit f = true.
Proof.
  unfold match_clock.
  repeat match goal with
         | |- context [match ?s with "" => _ | String _ _ => _ end] =>
             destruct s; try discriminate
         | |- context [match ?a with Ascii _ _ _ _ _ _ _ _ => _ end] =>
             destruct a as [[] [] [] [] [] [] [] []]; try discriminate
         end.
  all: match goal with
       | |- (if all_digits ?l then _ else _) = _ -> _ =>
           destruct (all_digits l) eqn:D; [|discriminate]
       end.
  all: intros E; injection E as <- <- <-.
  all: cbn [all_digits forallb] in D.
  all: repeat (apply andb_prop in D; let D' := fresh "D" in
               destruct D as [D' D]).
  all: do 6 eexists; repeat split; eassumption.
Qed.

Lemma search_clock_groups (prefix s h m x : string) :
  search_clock prefix s = Some (h, m, x) ->
  exists t, match_clock t = Some (h, m, x).
Proof.
  induction s as [|a s IH]; cbn [search_clock].
  - destruct (Str.starts_with prefix "");
      [|discriminate].
    destruct (match_clock (Str.drop (String.length prefix) "")) eqn:E;
      [|discriminate].
    intros G. injection G as ->. eexists. exact E.
  - destruct (Str.starts_with prefix (String a s)); [|exact IH].
    destruct (match_clock (Str.drop (String.length prefix) (String a s)))
      eqn:E; [|exact IH].
    intros G. injection G as ->. eexists. exact E.
Qed.

(** The seconds of a clock that one of the two patterns found: no
    exception, and a number from 0 to 99:99:99. *)
Lemma seconds_of_groups (prefix s h m x : string) :
  search_clock prefix s = Some (h, m, x) ->
  exists v, _seconds h m x = Ok v /\ 0 <= v <= 362439.
Proof.
  intros G. destruct (search_clock_groups _ _ _ _ _ G) as [t M].
  destruct (match_clock_groups _ _ _ _ M)
    as (a & b & c & d & e & f & -> & -> & -> & Ha & Hb & Hc & Hd & He & Hf).
  unfold _seconds. rewrite (int_str2 a b Ha Hb). cbn [ebind].
  rewrite (int_str2 c d Hc Hd). cbn [ebind].
  rewrite (int_str2 e f He Hf). cbn [ebind].
  eexists. split; [reflexivity|].
  pose proof (digit_val_range a Ha). pose proof (digit_val_range b Hb).
  pose proof (digit_val_range c Hc). pose proof (digit_val_range d Hd).
  pose proof (digit_val_range e He). pose proof (digit_val_range f Hf).
  lia.
Qed.

Lemma digit_not_exp (a : ascii) :
  Str.is_digit a = true -> negb (Ascii.eqb a "e" || Ascii.eqb a "E") = true.
Proof.
  intros Ha.
  destruct (Ascii.eqb_spec a "e") as [->|]; [discriminate Ha|].
  destruct (Ascii.eqb_spec a "E") as [->|]; [discriminate Ha|].
  reflexivity.
Qed.

Lemma float_str2 (a b : ascii) :
  Str.is_digit a = true -> Str.is_digit b = true ->
  exists q, Py.float (VStr (str2 a b)) = Ok q.
Proof.
  intros Ha Hb. cbn [Py.float]. unfold Py.parse_float, str2.
  assert (D : Chars.all Str.is_digit (String a (String b "")) = true)
    by (cbn [Chars.all]; rewrite Ha, Hb; reflexivity).
  rewrite strip_id by (apply (all_impl Str.is_digit);
                       [exact digit_not_space | exact D]).
  rewrite signed_digits by exact D.
  unfold Py.parse_mantissa.
  rewrite cut_exponent_absent
    by (apply (all_impl Str.is_digit); [exact digit_not_exp | exact D]).
  rewrite split_absent
    by (apply digits_without; [reflexivity | exact D]).
  unfold Py.digits. cbn [Py.digits_acc]. rewrite Ha, Hb.
  eexists. reflexivity.
Qed.

Lemma float_str2_str2 (a b c d : ascii) :
  Str.is_digit a = true -> Str.is_digit b = true ->
  Str.is_digit c = true -> Str.is_digit d = true ->
  exists q,
    Py.float (VStr (String a (String b (String "." (String c (String d ""))))))
    = Ok q.
Proof.
  intros Ha Hb Hc Hd. cbn [Py.float]. unfold Py.parse_float.
  assert (D1 : Chars.all Str.is_digit (String a (String b "")) = true)
    by (cbn [Chars.all]; rewrite Ha, Hb; reflexivity).
  assert (D2 : Chars.all Str.is_digit (String c (String d "")) = true)
    by (cbn [Chars.all]; rewrite Hc, Hd; reflexivity).
  assert (A : Chars.all (fun x => Str.is_digit x || Ascii.eqb x ".")
                (String a (String b (String "." (String c (String d "")))))
              = true)
    by (cbn [Chars.all]; rewrite Ha, Hb, Hc, Hd; reflexivity).
  rewrite strip_id.
  2:{ apply (all_impl (fun x => Str.is_digit x || Ascii.eqb x "."));
        [|exact A].
      intros x Hx. apply orb_prop in Hx. destruct Hx as [Hx|Hx].
      - apply digit_not_space, Hx.
      - apply Ascii.eqb_eq in Hx. subst x. reflexivity. }
  assert (S1 : forall r, Py.signed Py.parse_mantissa Qopp (String a r)
                         = Py.parse_mantissa (String a r)).
  { intros r.
    destruct (Ascii.eqb_spec a "-") as [->|N1]; [discriminate Ha|].
    destruct (Ascii.eqb_spec a "+") as [->|N2]; [discriminate Ha|].
    unfold Py.signed.
    destruct a as [[] [] [] [] [] [] [] []]; try reflexivity;
      first [exfalso; apply N1; reflexivity
            | exfalso; apply N2; reflexivity]. }
  rewrite S1. unfold Py.parse_mantissa.
  rewrite cut_exponent_absent.
  2:{ apply (all_impl (fun x => Str.is_digit x || Ascii.eqb x "."));
        [|exact A].
      intros x Hx. apply orb_prop in Hx. destruct Hx as [Hx|Hx].
      - apply digit_not_exp, Hx.
      - apply Ascii.eqb_eq in Hx. subst x. reflexivity. }
  change (String a (String b (String "." (String c (String d "")))))
    with (String a (String b "") ++ String "." (String c (String d ""))).
  rewrite split_cons by (apply digits_without; [reflexivity | exact D1]).
  cbn [Str.split]. unfold Py.opt_digits, Py.digits.
  cbn [Py.digits_acc]. rewrite Ha, Hb, Hc, Hd.
  eexists. reflexivity.
Qed.

Lemma match_fps_float (s g : string) :
  match_fps s = Some g -> exists q, Py.float (VStr g) = Ok q.
Proof.
  unfold match_fps.
  destruct s as [|a [|b r]]; try discriminate.
  assert (Alt2 : (if all_digits [a; b] && Str.starts_with " fps" r
                  then Some (str2 a b) else None) = Some g ->
                 exists q, Py.float (VStr g) = Ok q).
  { destruct (all_digits [a; b]) eqn:D; [|discriminate].
    destruct (Str.starts_with " fps" r); [|discriminate].
    cbn [andb]. intros E. injection E as <-.
    cbn [all_digits forallb] in D.
    apply andb_prop in D. destruct D as [Ha D].
    apply andb_prop in D. destruct D as [Hb _].
    apply float_str2; assumption. }
  destruct r as [|p [|c [|d r']]]; try exact Alt2;
    destruct p as [[] [] [] [] [] [] [] []]; try exact Alt2.
  destruct (all_digits [a; b; c; d]) eqn:D; [|exact Alt2].
  destruct (Str.starts_with " fps" r'); [|exact Alt2].
  cbn [andb]. intros E. injection E as <-.
  cbn [all_digits forallb] in D.
  apply andb_prop in D. destruct D as [Ha D].
  apply andb_prop in D. destruct D as [Hb D].
  apply andb_prop in D. destruct D as [Hc D].
  apply andb_prop in D. destruct D as [Hd _].
  apply float_str2_str2; assumption.
Qed.

Lemma FPS_RX_float (s g : string) :
  FPS_RX s = Some g -> exists q, Py.float (VStr g) = Ok q.
Proof.
  induction s as [|a s IH]; cbn [FPS_RX].
  - destruct (match_fps "") eqn:E; [|discriminate].
    intros G. injection G as ->. exact (match_fps_float _ _ E).
  - destruct (match_fps (String a s)) eqn:E; [|exact IH].
    intros G. injection G as ->. exact (match_fps_float _ _ E).
Qed.

(** The three extractions that read numbers never raise. *)
Lemma get_duration_returns (line : string) :
  get_duration line = Ok None
  \/ exists d, get_duration line = Ok (Some d) /\ 0 <= d <= 362439.
Proof.
  unfold get_duration, DURATION_RX.
  destruct (search_clock "Duration: " line) as [[[h m] x]|] eqn:G;
    [|left; reflexivity].
  destruct (seconds_of_groups _ _ _ _ _ G) as [v [E B]].
  right. exists v. rewrite E. split; [reflexivity | exact B].
Qed.

Lemma get_fps_returns (line : string) :
  exists r, get_fps line = Ok r.
Proof.
  unfold get_fps. destruct (FPS_RX line) as [g|] eqn:G;
    [|eexists; reflexivity].
  destruct (FPS_RX_float _ _ G) as [q E]. rewrite E. eexists. reflexivity.
Qed.

(** ** The notifier: what a call raises *)

Section NotifierRaises.

Context `{Host}.

Lemma progress_returns (line : string) (s : state) :
  exists s', progress line s = (s', Ok tt).
Proof.
  unfold progress, PROGRESS_RX.
  destruct (search_clock "time=" line) as [[[h m] x]|] eqn:G;
    [|eexists; reflexivity].
  destruct (seconds_of_groups _ _ _ _ _ G) as [v [E _]].
  unfold self, on_self. notifier_eval. rewrite E.
  destruct (fps (fst s)), (bar (fst s)); eexists; reflexivity.
Qed.

Lemma get_source_raises (enc line : string) (e : exn) :
  get_source enc line = Raise e ->
  exists g, SOURCE_RX line = Some g /\ bytes_decode enc g = Raise e.
Proof.
  unfold get_source. destruct (SOURCE_RX line) as [g|]; [|discriminate].
  destruct (bytes_decode enc g) as [p|e'] eqn:D; [discriminate|].
  cbn [ebind]. intros E. injection E as <-. exists g. split;
    [reflexivity | exact D].
Qed.

Lemma on_separator_raises (s s' : state) (e : exn) :
  on_separator s = (s', Raise e) ->
  exists g, SOURCE_RX (line_acc (fst s)) = Some g
            /\ bytes_decode (encoding (fst s)) g = Raise e.
Proof.
  destruct s as [o w]. unfold on_separator. unfold sbind at 1.
  rewrite newline_eq. unfold self, on_self.
  notifier_eval.
  assert (Hd : exists a, get_duration (line_acc o) = Ok a).
  { destruct (get_duration_returns (line_acc o)) as [E|[d [E _]]];
      eexists; exact E. }
  destruct Hd as [a Ed]. rewrite Ed.
  destruct (get_fps_returns (line_acc o)) as [r Ef]. rewrite Ef.
  assert (Tail : forall st : state,
            (let (s'2, e2) :=
               (if match fps (fst st) with
                   | Some _ => false
                   | None => true
                   end
                then fun s : state => (set_fps r (fst s), snd s, Ok tt)
                else ret tt) st in
             match e2 with
             | Ok _ => progress (line_acc o) s'2
             | Raise e3 => (s'2, Raise e3)
             end) <> (s', Raise e)).
  { intros st. destruct (fps (fst st)); cbn [ret].
    - destruct (progress_returns (line_acc o) st) as [s2 E2].
      rewrite E2. discriminate.
    - destruct (progress_returns (line_acc o)
                  (set_fps r (fst st), snd st)) as [s2 E2].
      rewrite E2. discriminate. }
  destruct (duration o); cbn [ret fst snd set_duration set_line_acc
                             set_lines source encoding].
  all: destruct (source o);
    cbv beta; cbn [ret fst snd set_duration set_line_acc set_lines source
                   encoding].
  all: try (intros E; exfalso; exact (Tail _ E)).
  all: destruct (get_source (encoding o) (line_acc o)) as [x|e1] eqn:Es;
    [intros E; exfalso; exact (Tail _ E)|].
  all: intros E; injection E as _ <-.
  all: exact (get_source_raises _ _ _ Es).
Qed.

(** X6.  A call on bytes raises in two cases only: the text to decode
    (the path found on a completed line, or the buffer that ends with the
    prompt) does not decode, or [input()] meets the end of the terminal
    input.  The numbers the patterns find never make [int] or [float]
    raise.  A call on a str always raises [TypeError]. *)
Theorem call_raises (char : chunk) (stdin : bool) (s s' : state) (e : exn) :
  call char stdin s = (s', Raise e) ->
  match char with
  | Text _ => e = TypeError /\ s' = s
  | Bytes c =>
      (stdin = true /\ e = EOFError /\ tty (snd s) = [])
      \/ exists b, bytes_decode (encoding (fst s)) b = Raise e
  end.
Proof.
  destruct char as [c|t]; cbn [call].
  2:{ unfold throw. intros E. injection E as <- <-. split; reflexivity. }
  destruct (Str.contains c CRLF).
  - intros E. right.
    destruct (on_separator_raises s s' e E) as [g [_ D]].
    exists g. exact D.
  - destruct s as [o w]. unfold on_other, newline, print, put, input.
    unfold on_self, self. notifier_eval.
    destruct (String.eqb (Str.slice_from (line_acc o ++ c) (-6)) "[y/N] ");
      [|intros E; discriminate E].
    cbv beta. cbn [fst snd encoding set_line_acc].
    destruct (bytes_decode (encoding o) (line_acc o ++ c)) as [text|e1]
      eqn:D.
    + destruct stdin; cbv beta; cbn [fst snd tty];
        [|intros E; discriminate E].
      destruct (tty w) as [|l r] eqn:T; [|intros E; discriminate E].
      intros E. injection E as _ <-. left. repeat split.
    + intros E. injection E as _ <-. right. eexists. exact D.
Qed.

End NotifierRaises.

(** The prompt arrives and the terminal has nothing to read. *)
Lemma call_raises_witness :
  (true = true /\ EOFError = EOFError /\ @nil string = [])
  \/ exists b, bytes_decode "utf8" b = Raise EOFError.
Proof.
  exact (call_raises (Bytes " ") true
           (set_line_acc "Overwrite? [y/N]" (init "utf8"), mk_world [] [] [])
           (set_line_acc "Overwrite? [y/N] " (init "utf8"),
            mk_world ["Overwrite? [y/N] "] [] [])
           EOFError eq_refl).
Defined.

(** ** The notifier: each value is extracted once *)

Lemma inv_bind_gets {S A B : Type} (I : S -> Prop) (f : S -> A)
    (k : A -> SE S B) :
  (forall s, I s -> inv (fun s' => I s' /\ s' = s) (k (f s))) ->
  inv I (sbind (gets f) k).
Proof.
  intros Hk s Hs. unfold sbind, gets.
  specialize (Hk s Hs s (conj Hs eq_refl)).
  destruct (k (f s) s) as [s' [b|e]]; exact (proj1 Hk).
Qed.

Lemma inv_weaken {S A : Type} (I J : S -> Prop) (m : SE S A) :
  inv I m -> (forall s, J s -> I s) -> (forall s, I s -> J s) -> inv J m.
Proof.
  intros Hm HJI HIJ s Hs. specialize (Hm s (HJI s Hs)).
  destruct (m s) as [s' [a|e]]; apply HIJ; exact Hm.
Qed.

(** A step that is skipped: the value read is already there. *)
Lemma inv_read_skip {S A B : Type} (I : S -> Prop) (f : S -> option A)
    (body : SE S unit) (k : SE S B) :
  (forall s, I s -> exists a, f s = Some a) ->
  inv I k ->
  inv I (sbind (gets f)
           (fun d => sbind (when (match d with None => true | _ => false end)
                              body)
                       (fun _ => k))).
Proof.
  intros Hf Hk s Hs. unfold sbind at 1. unfold gets.
  destruct (Hf s Hs) as [a Ea]. rewrite Ea. cbn [when].
  unfold sbind, ret. exact (Hk s Hs).
Qed.

Section NotifierOnce.

Context `{Host}.

Lemma input_keeps (P : notifier -> Prop) :
  inv (fun s : state => P (fst s)) input.
Proof.
  intros s Hs. unfold input. destruct (tty (snd s)); exact Hs.
Qed.

Lemma newline_keeps (P : notifier -> Prop) :
  (forall o l a, P o -> P (set_line_acc a (set_lines l o))) ->
  inv (fun s : state => P (fst s)) newline.
Proof.
  intros HP [o w] Hs. rewrite newline_eq. cbn [fst] in *. apply HP, Hs.
Qed.

Lemma on_other_keeps (P : notifier -> Prop) (c : string) (stdin : bool) :
  (forall o a, P o -> P (set_line_acc a o)) ->
  (forall o l, P o -> P (set_lines l o)) ->
  inv (fun s : state => P (fst s)) (on_other c stdin).
Proof.
  intros Ha Hl. unfold on_other, print, put, on_self, self.
  repeat first
    [ apply input_keeps
    | apply newline_keeps; intros; apply Ha, Hl; assumption
    | inv_step ];
    cbn [fst]; try apply Ha; assumption.
Qed.

Lemma progress_keeps (P : notifier -> Prop) (line : string) :
  (forall o b, P o -> P (set_bar b o)) ->
  inv (fun s : state => P (fst s)) (progress line).
Proof.
  intros Hb. unfold progress, on_self, self.
  destruct (PROGRESS_RX line) as [[[h m] x]|]; inv_auto;
    cbn [fst]; try apply Hb; assumption.
Qed.

Lemma on_separator_keeps_duration (d : Z) :
  inv (fun s : state => duration (fst s) = Some d) on_separator.
Proof.
  unfold on_separator.
  apply inv_bind; [apply (newline_keeps (fun o => duration o = Some d));
                   intros; assumption|].
  intros line. unfold self.
  apply inv_read_skip; [intros s Hs; eexists; exact Hs|].
  unfold on_self.
  repeat first
    [ apply (progress_keeps (fun o => duration o = Some d));
      intros; assumption
    | inv_step ]; assumption.
Qed.

Lemma on_separator_keeps_source (x : string) :
  inv (fun s : state => source (fst s) = Some x) on_separator.
Proof.
  unfold on_separator.
  apply inv_bind; [apply (newline_keeps (fun o => source o = Some x));
                   intros; assumption|].
  intros line. unfold self.
  apply inv_bind; [inv_auto|intros d].
  apply inv_bind; [unfold on_self; inv_auto; assumption|intros _].
  apply inv_read_skip; [intros s Hs; eexists; exact Hs|].
  unfold on_self.
  repeat first
    [ apply (progress_keeps (fun o => source o = Some x));
      intros; assumption
    | inv_step ]; assumption.
Qed.

Lemma on_separator_keeps_fps (f : Z) :
  inv (fun s : state => fps (fst s) = Some f) on_separator.
Proof.
  unfold on_separator.
  apply inv_bind; [apply (newline_keeps (fun o => fps o = Some f));
                   intros; assumption|].
  intros line. unfold self.
  apply inv_bind; [inv_auto|intros d].
  apply inv_bind; [unfold on_self; inv_auto; assumption|intros _].
  apply inv_bind; [inv_auto|intros src].
  apply inv_bind; [unfold on_self; inv_auto; assumption|intros _].
  apply inv_read_skip; [intros s Hs; eexists; exact Hs|].
  apply (progress_keeps (fun o => fps o = Some f)). intros; assumption.
Qed.

End NotifierOnce.

Section NotifierBar.

Context `{Host}.

(** X8.  On a line in which the progress pattern finds a time, the bar
    is there afterwards and its position is the time found, in seconds,
    times the frame rate when one is known: the position is absolute, it
    does not depend on where the bar was.  A bar that existed keeps its
    label, total and unit; a new bar takes the source as label, counts
    frames when the frame rate is known and seconds otherwise, and has
    the duration (times the frame rate, unless it is unknown or 0) as
    total. *)
Theorem progress_position (line h m x : string) (s : state) :
  PROGRESS_RX line = Some (h, m, x) ->
  exists (cur : Z) (b : pbar),
    _seconds h m x = Ok cur /\ 0 <= cur <= 362439
    /\ snd (progress line s) = Ok tt
    /\ bar (fst (fst (progress line s))) = Some b
    /\ bar_n b = match fps (fst s) with Some f => cur * f | None => cur end
    /\ match bar (fst s) with
       | Some b0 =>
           bar_desc b = bar_desc b0 /\ bar_total b = bar_total b0
           /\ bar_unit b = bar_unit b0
       | None =>
           bar_desc b = source (fst s)
           /\ bar_unit b
              = match fps (fst s) with
                | Some _ => " frames"
                | None => " seconds"
                end
           /\ bar_total b
              = match fps (fst s), duration (fst s) with
                | Some f, Some t => if t =? 0 then Some t else Some (t * f)
                | _, t => t
                end
       end.
Proof.
  intros G.
  destruct (seconds_of_groups "time=" line h m x G) as [cur [E B]].
  exists cur. destruct s as [[ls acc du so st ba fp en] w].
  unfold progress. rewrite G. unfold self, on_self.
  notifier_eval. rewrite E.
  destruct fp as [f|], ba as [b0|]; notifier_eval;
    eexists; (split; [reflexivity|]); (split; [exact B|]);
    (split; [reflexivity|]); (split; [reflexivity|]);
    cbn [bar_n bar_desc bar_total bar_unit update tqdm];
    (split; [lia|]); repeat split.
  destruct du; reflexivity.
Qed.

Lemma progress_keeps_bar (D : option string) (T : option Z) (U : string)
    (line : string) :
  inv (fun s : state => exists n, bar (fst s) = Some (mk_pbar D T U n))
    (progress line).
Proof.
  intros [[ls acc du so st ba fp en] w] [n Hn]. cbn [fst bar] in Hn.
  subst ba.
  unfold progress. destruct (PROGRESS_RX line) as [[[h m] x]|];
    [|exists n; reflexivity].
  unfold self, on_self. notifier_eval.
  destruct (_seconds h m x) as [cur|e]; [|exists n; reflexivity].
  destruct fp; notifier_eval; eexists; reflexivity.
Qed.

Lemma on_separator_keeps_bar (D : option string) (T : option Z) (U : string) :
  inv (fun s : state => exists n, bar (fst s) = Some (mk_pbar D T U n))
    on_separator.
Proof.
  unfold on_separator.
  apply inv_bind;
    [apply (newline_keeps
              (fun o => exists n, bar o = Some (mk_pbar D T U n)));
     intros; assumption|].
  intros line. unfold self, on_self.
  repeat first [ apply progress_keeps_bar | inv_step ]; assumption.
Qed.

(** X7.  What a session extracted once it keeps: no call changes a
    duration, a source label or a frame rate that is set, and a bar that
    exists keeps its label, its total and its unit; only its position
    moves. *)
Theorem extracted_once (char : chunk) (stdin : bool) (s : state) :
  (forall d, duration (fst s) = Some d ->
     duration (fst (fst (call char stdin s))) = Some d)
  /\ (forall x, source (fst s) = Some x ->
        source (fst (fst (call char stdin s))) = Some x)
  /\ (forall f, fps (fst s) = Some f ->
        fps (fst (fst (call char stdin s))) = Some f)
  /\ (forall b, bar (fst s) = Some b ->
        exists n,
          bar (fst (fst (call char stdin s)))
          = Some (mk_pbar (bar_desc b) (bar_total b) (bar_unit b) n)).
Proof.
  destruct char as [c|t].
  2:{ cbn [call throw fst]. repeat split; try (intros; assumption).
      intros b Hb. exists (bar_n b). rewrite Hb. destruct b; reflexivity. }
  cbn [call]. destruct (Str.contains c CRLF).
  - split; [|split; [|split]].
    + intros d Hd.
      exact (inv_fst _ _ s (on_separator_keeps_duration d) Hd).
    + intros x Hx.
      exact (inv_fst _ _ s (on_separator_keeps_source x) Hx).
    + intros f Hf.
      exact (inv_fst _ _ s (on_separator_keeps_fps f) Hf).
    + intros b Hb.
      apply (inv_fst _ _ s
               (on_separator_keeps_bar (bar_desc b) (bar_total b)
                  (bar_unit b))).
      exists (bar_n b). rewrite Hb. destruct b; reflexivity.
  - split; [|split; [|split]].
    + intros d Hd.
      apply (inv_fst _ _ s
               (on_other_keeps (fun o => duration o = Some d) c stdin
                  ltac:(intros; assumption) ltac:(intros; assumption))).
      exact Hd.
    + intros x Hx.
      apply (inv_fst _ _ s
               (on_other_keeps (fun o => source o = Some x) c stdin
                  ltac:(intros; assumption) ltac:(intros; assumption))).
      exact Hx.
    + intros f Hf.
      apply (inv_fst _ _ s
               (on_other_keeps (fun o => fps o = Some f) c stdin
                  ltac:(intros; assumption) ltac:(intros; assumption))).
      exact Hf.
    + intros b Hb.
      apply (inv_fst _ _ s
               (on_other_keeps
                  (fun o => exists n,
                     bar o = Some (mk_pbar (bar_desc b) (bar_total b)
                                     (bar_unit b) n)) c stdin
                  ltac:(intros; assumption) ltac:(intros; assumption))).
      exists (bar_n b). rewrite Hb. destruct b; reflexivity.
Qed.

End NotifierBar.

(** A second header line with another duration leaves the first one. *)
Lemma extracted_once_witness :
  duration (fst (fst (call (Bytes Hevc.nl) false
     (set_line_acc "  Duration: 00:09:59.00, start: 0.0"
        (set_duration (Some 330) (init "utf8")), mk_world [] [] []))))
  = Some 330.
Proof.
  refine (proj1 (extracted_once (Bytes Hevc.nl) false
     (set_line_acc "  Duration: 00:09:59.00, start: 0.0"
        (set_duration (Some 330) (init "utf8")), mk_world [] [] [])) 330 _).
  reflexivity.
Defined.

(** The encoder reports a time before the one it reported last: the bar
    goes back. *)
Lemma progress_position_witness :
  exists (cur : Z) (b : pbar),
    _seconds "00" "00" "10" = Ok cur /\ 0 <= cur <= 362439
    /\ snd (progress "time=00:00:10.00"
              (set_bar (Some (mk_pbar None (Some 9900) " frames" 1800))
                 (set_fps (Some 30) (init "utf8")), mk_world [] [] []))
       = Ok tt
    /\ bar (fst (fst (progress "time=00:00:10.00"
              (set_bar (Some (mk_pbar None (Some 9900) " frames" 1800))
                 (set_fps (Some 30) (init "utf8")), mk_world [] [] []))))
       = Some b
    /\ bar_n b = cur * 30
    /\ bar_desc b = None /\ bar_total b = Some 9900
    /\ bar_unit b = " frames".
Proof.
  exact (progress_position "time=00:00:10.00" "00" "00" "10"
           (set_bar (Some (mk_pbar None (Some 9900) " frames" 1800))
              (set_fps (Some 30) (init "utf8")), mk_world [] [] [])
           eq_refl).
Defined.

(** ** check_hevc: the error text *)

Lemma triple_and {S A : Type} (P1 P2 : S -> Prop) (m : SE S A)
    (Q1 Q2 : A -> S -> Prop) (E1 E2 : S -> Prop) :
  triple P1 m Q1 E1 -> triple P2 m Q2 E2 ->
  triple (fun s => P1 s /\ P2 s) m
    (fun a s => Q1 a s /\ Q2 a s) (fun s => E1 s /\ E2 s).
Proof.
  intros H1 H2 s [Hs1 Hs2]. specialize (H1 s Hs1). specialize (H2 s Hs2).
  destruct (m s) as [s' [a|e]]; split; assumption.
Qed.

(** One step of a sequence whose steps before the last keep [P]. *)
Ltac keep_step tac :=
  lazymatch goal with
  | |- triple _ (sbind (lift _) _) _ _ =>
      apply triple_bind_lift; [intros ? ? | auto]
  | |- triple _ (sbind _ _) _ _ =>
      eapply triple_bind_keep; [solve [tac] | intros ?]
  end.

Section HevcErr.

Context `{Host}.

Lemma main_stream_err (_d _codec_name _codec_type _duration _bitrate : value) :
  triple (fun l => l_err l = "")
    (main_stream _d _codec_name _codec_type _duration _bitrate)
    err_after (fun _ => True).
Proof.
  unfold main_stream, add_filter, add_desc.
  repeat keep_step ltac:(inv_auto; assumption).
  match goal with
  | |- triple _ (if ?c then _ else _) _ _ => destruct c
  end.
  - eapply triple_bind with (R := fun _ l => l_err l = no_rate_text).
    + apply triple_modify. reflexivity.
    + intros _. apply triple_ret. auto.
  - repeat keep_step ltac:(inv_auto; assumption).
    apply triple_ret. auto.
Qed.

(** A stream that is not the main one never ends the loop. *)
Lemma other_stream_next (P : locals -> Prop)
    (_d _codec_name _codec_type _pix_fmt _bitrate : value) :
  inv P (other_stream _d _codec_name _codec_type _pix_fmt _bitrate) ->
  triple P (other_stream _d _codec_name _codec_type _pix_fmt _bitrate)
    (fun f l => f = Next /\ P l) (fun _ => True).
Proof.
  intros HP.
  assert (HN : triple (fun _ => True)
                 (other_stream _d _codec_name _codec_type _pix_fmt _bitrate)
                 (fun f _ => f = Next) (fun _ => True)).
  { unfold other_stream, add_copy, add_desc.
    repeat match goal with
           | |- triple _ (if ?c then _ else _) _ _ => destruct c
           end;
      repeat keep_step ltac:(inv_auto; exact I);
      apply triple_ret; auto. }
  intros l Hl. specialize (HN l I). specialize (HP l Hl).
  destruct (other_stream _ _ _ _ _ l) as [l' [f|e]]; auto.
Qed.

Lemma other_stream_keeps_err (e0 : string)
    (_d _codec_name _codec_type _pix_fmt _bitrate : value) :
  inv (fun l => l_err l = e0)
    (other_stream _d _codec_name _codec_type _pix_fmt _bitrate).
Proof. unfold other_stream, add_copy, add_desc. inv_auto; assumption. Qed.

Lemma stream_err (j_data : value) (_old_size : Z) (_d : value) :
  triple (fun l => l_err l = "") (stream j_data _old_size _d)
    err_after (fun _ => True).
Proof.
  unfold stream.
  repeat keep_step ltac:(inv_auto; assumption).
  match goal with
  | |- triple _ (if ?c then _ else _) _ _ => destruct c
  end.
  - apply main_stream_err.
  - eapply triple_conseq;
      [apply other_stream_next, (other_stream_keeps_err "") | | |]; auto.
    intros f l [-> E]. exact E.
Qed.

Lemma for_streams_err (j_data : value) (_old_size : Z) (ds : list value) :
  triple (fun l => l_err l = "") (for_streams j_data _old_size ds)
    err_after (fun _ => True).
Proof.
  induction ds as [|d ds IH]; cbn [for_streams].
  - apply triple_ret. auto.
  - eapply triple_bind; [apply stream_err|].
    intros [|]; [exact IH | apply triple_ret; auto].
Qed.

Lemma finish_keeps_err (e0 : string) : inv (fun l => l_err l = e0) finish.
Proof. unfold finish. inv_auto; assumption. Qed.

Lemma try_body_err (_old_size : Z) (out : probe_stdout) :
  triple (fun l => l_err l = "" /\ l_valid l = false)
    (try_body _old_size out)
    (fun _ l => l_err l = ""
                \/ (l_err l = no_rate_text /\ l_valid l = false))
    (fun _ => True).
Proof.
  destruct out as [| |j_data]; cbn [try_body].
  - apply triple_ret. intros l [E _]. left. exact E.
  - apply triple_throw. auto.
  - apply triple_bind_lift; [|auto]. intros ds _.
    eapply triple_bind with
      (R := fun f l => err_after f l /\ l_valid l = false).
    + eapply triple_conseq.
      * apply (triple_and _ _ _ _ _ _ _
                 (for_streams_err j_data _old_size ds)
                 (for_streams_keeps_invalid j_data _old_size ds)).
      * auto.
      * auto.
      * auto.
    + intros [|].
      * eapply triple_conseq; [apply (finish_keeps_err "") | | |]; auto.
        intros l [E _]. exact E.
      * apply triple_ret. intros l [E V]. right. split; assumption.
Qed.

(** X9.  The error text of a result is empty, the text for a missing or
    empty file, the text for a main stream without bit rate, duration or
    frame rate, or what the probe wrote to its standard error; a valid
    result has the empty one. *)
Theorem check_hevc_err (p : probe) :
  (is_valid (check_hevc p) = true -> err (check_hevc p) = "")
  /\ (err (check_hevc p) = ""
      \/ err (check_hevc p) = "file not exist or 0 bytes"
      \/ err (check_hevc p) = "empty main_bitrate/duration/fps"
      \/ err (check_hevc p) = stderr p).
Proof.
  unfold check_hevc.
  destruct (st_size p) as [sz|];
    [|split; [discriminate | right; left; reflexivity]].
  destruct (sz =? 0); [split; [discriminate | right; left; reflexivity]|].
  pose proof (try_body_err sz (stdout p) locals0 (conj eq_refl eq_refl))
    as He.
  pose proof (try_body_valid sz (stdout p) locals0 eq_refl) as Hv.
  destruct (try_body sz (stdout p) locals0) as [l [u|e]];
    cbn [result_of set_err is_valid err l_valid l_err].
  - destruct He as [E|[E V]].
    + split; [intros _; exact E | left; exact E].
    + split; [congruence | right; right; left; exact E].
  - split; [congruence | right; right; right; reflexivity].
Qed.

End HevcErr.

(** The sample with a video and an audio stream is valid. *)
Lemma check_hevc_err_witness :
  err (check_hevc (mk_probe (Some 5000) (Doc Samples.video_audio) "warn"))
  = "".
Proof.
  refine (proj1 (check_hevc_err
                   (mk_probe (Some 5000) (Doc Samples.video_audio) "warn"))
            _).
  vm_compute. reflexivity.
Defined.

(** ** check_hevc: the choice of the main stream *)

Section HevcMain.

Context `{Host}.

Lemma stream_not_mjpeg (j_data : value) (_old_size : Z) (_d : value) :
  inv (fun l => Py.eq_str (main_encoder (l_info l)) "mjpeg" = false)
    (stream j_data _old_size _d).
Proof.
  unfold stream.
  repeat (apply inv_bind_lift; intros ? _).
  apply inv_bind; [inv_auto; assumption|]. intros _.
  apply inv_bind_lift; intros ? _.
  apply inv_bind; [inv_auto|]. intros enc.
  match goal with
  | |- inv _ (if ?c then _ else _) => destruct c eqn:C
  end.
  - apply andb_prop in C. destruct C as [_ C].
    apply negb_true_iff in C.
    unfold main_stream, add_filter, add_desc. inv_auto; assumption.
  - unfold other_stream, add_copy, add_desc. inv_auto; assumption.
Qed.

Lemma for_streams_not_mjpeg (j_data : value) (_old_size : Z)
    (ds : list value) :
  inv (fun l => Py.eq_str (main_encoder (l_info l)) "mjpeg" = false)
    (for_streams j_data _old_size ds).
Proof.
  induction ds as [|d ds IH]; cbn [for_streams]; [apply inv_ret|].
  apply inv_bind; [apply stream_not_mjpeg|].
  intros [|]; [exact IH | apply inv_ret].
Qed.

Lemma check_hevc_not_mjpeg (p : probe) :
  Py.eq_str (main_encoder (info (check_hevc p))) "mjpeg" = false.
Proof.
  unfold check_hevc.
  destruct (st_size p) as [sz|]; [|reflexivity].
  destruct (sz =? 0); [reflexivity|].
  assert (Ht : inv (fun l => Py.eq_str (main_encoder (l_info l)) "mjpeg"
                             = false) (try_body sz (stdout p))).
  { destruct (stdout p) as [| |j]; cbn [try_body];
      [apply inv_ret | apply inv_throw |].
    apply inv_bind_lift. intros ds _.
    apply inv_bind; [apply for_streams_not_mjpeg|].
    intros [|]; [|apply inv_ret].
    unfold finish. inv_auto; assumption. }
  specialize (Ht locals0 eq_refl).
  destruct (try_body sz (stdout p) locals0) as [l [u|e]]; exact Ht.
Qed.

(** X10.  The main encoder of a result is never mjpeg: a cover picture
    is not taken for the main video stream, wherever it stands among the
    streams and however the check ends. *)
Theorem main_never_mjpeg (p : probe) :
  Py.eq_str (main_encoder (info (check_hevc p))) "mjpeg" = false.
Proof. exact (check_hevc_not_mjpeg p). Qed.

End HevcMain.

Lemma inv_gets_known {S A B : Type} (I : S -> Prop) (f : S -> A)
    (k : A -> SE S B) :
  (forall s, I s -> inv I (k (f s))) -> inv I (sbind (gets f) k).
Proof. intros Hk s Hs. unfold sbind, gets. exact (Hk s Hs s Hs). Qed.

Lemma triple_bind_inv {S A B : Type} (P : S -> Prop) (m : SE S A)
    (k : A -> SE S B) (Q : B -> S -> Prop) :
  inv P m -> (forall a, triple P (k a) Q P) -> triple P (sbind m k) Q P.
Proof. intros Hm Hk. eapply triple_bind; [exact Hm | exact Hk]. Qed.

Section HevcFrozen.

Context `{Host}.

Lemma stream_frozen (m0 : value * value * value * string * value * string
                          * string * string)
    (j_data : value) (_old_size : Z) (_d : value) :
  triple (frozen m0) (stream j_data _old_size _d)
    (fun f l => f = Next /\ frozen m0 l) (fun l => frozen m0 l).
Proof.
  unfold stream.
  repeat (apply triple_bind_lift; [intros ? _ | auto]).
  apply triple_bind_inv; [inv_auto; assumption|]. intros _.
  apply triple_bind_lift; [intros ? _ | auto].
  intros l Hl. unfold sbind at 1. unfold gets.
  destruct Hl as [T M]. rewrite T. cbn [negb andb].
  match goal with
  | |- context [other_stream ?d ?n ?t ?p ?b l] =>
      assert (HK : inv (frozen m0) (other_stream d n t p b))
        by (unfold other_stream, add_copy, add_desc; inv_auto; assumption);
      pose proof (other_stream_next _ _ _ _ _ _ HK l (conj T M)) as HN;
      specialize (HK l (conj T M));
      destruct (other_stream d n t p b l) as [l' [f|e]];
      [exact HN | exact HK]
  end.
Qed.

Lemma for_streams_frozen (m0 : value * value * value * string * value
                               * string * string * string)
    (j_data : value) (_old_size : Z) (ds : list value) :
  triple (frozen m0) (for_streams j_data _old_size ds)
    (fun f l => f = Next /\ frozen m0 l) (fun l => frozen m0 l).
Proof.
  induction ds as [|d ds IH]; cbn [for_streams].
  - apply triple_ret. auto.
  - eapply triple_bind; [apply stream_frozen|].
    intros f. cbv beta.
    intros l0 [-> Hl0]. exact (IH l0 Hl0).
Qed.

(** A stream that is no video stream, or an mjpeg one, goes the way of
    the secondary streams, whatever the main encoder is. *)
Lemma stream_non_candidate (m0 : value * value * value * string * value
                                 * string * string * string)
    (j_data : value) (_old_size : Z) (_d : value) :
  main_candidate _d = false ->
  triple (fun l => main_part l = m0) (stream j_data _old_size _d)
    (fun f l => f = Next /\ main_part l = m0) (fun l => main_part l = m0).
Proof.
  intros Hc. unfold stream, main_candidate in *.
  apply triple_bind_lift; [intros name Hn | auto].
  apply triple_bind_lift; [intros ty Ht | auto].
  rewrite Hn, Ht in Hc.
  repeat (apply triple_bind_lift; [intros ? _ | auto]).
  apply triple_bind_inv; [inv_auto; assumption|]. intros _.
  apply triple_bind_lift; [intros ? _ | auto].
  intros l Hl. unfold sbind at 1. unfold gets.
  rewrite <- andb_assoc, Hc, andb_false_r.
  match goal with
  | |- context [other_stream ?d ?n ?t ?p ?b l] =>
      assert (HK : inv (fun l => main_part l = m0) (other_stream d n t p b))
        by (unfold other_stream, add_copy, add_desc; inv_auto; assumption);
      pose proof (other_stream_next _ _ _ _ _ _ HK l Hl) as HN;
      specialize (HK l Hl);
      destruct (other_stream d n t p b l) as [l' [f|e]];
      [exact HN | exact HK]
  end.
Qed.

Lemma main_stream_sets (_d _codec_name _codec_type _duration _bitrate : value) :
  triple (fun _ => True)
    (main_stream _d _codec_name _codec_type _duration _bitrate)
    (fun _ l => main_encoder (l_info l) = _codec_name) (fun _ => True).
Proof.
  unfold main_stream.
  eapply triple_bind with
    (R := fun _ l => main_encoder (l_info l) = _codec_name).
  - apply triple_modify. reflexivity.
  - intros _. apply triple_of_inv; [|auto].
    unfold add_filter, add_desc. inv_auto; assumption.
Qed.

(** A video stream that is not mjpeg, met while no main encoder is set,
    becomes the main stream. *)
Lemma stream_candidate (j_data : value) (_old_size : Z) (_d name : value) :
  main_candidate _d = true ->
  Py.getitem _d "codec_name" = Ok name ->
  triple (fun l => Py.truthy (main_encoder (l_info l)) = false)
    (stream j_data _old_size _d)
    (fun _ l => main_encoder (l_info l) = name) (fun _ => True).
Proof.
  intros Hc Hname. unfold stream, main_candidate in *.
  apply triple_bind_lift; [intros n Hn | auto].
  apply triple_bind_lift; [intros ty Ht | auto].
  rewrite Hn, Ht in Hc.
  assert (n = name) by congruence. subst n.
  repeat (apply triple_bind_lift; [intros ? _ | auto]).
  eapply triple_bind_keep; [inv_auto; assumption|]. intros _.
  apply triple_bind_lift; [intros ? _ | auto].
  intros l Hl. unfold sbind at 1. unfold gets.
  rewrite Hl, <- andb_assoc, Hc. cbn [negb andb].
  match goal with
  | |- context [main_stream ?d ?n ?t ?du ?b l] =>
      exact (main_stream_sets d n t du b l I)
  end.
Qed.

Lemma main_part_encoder (l l' : locals) :
  main_part l' = main_part l ->
  main_encoder (l_info l') = main_encoder (l_info l).
Proof. unfold main_part. congruence. Qed.

Lemma for_streams_first (j_data : value) (_old_size : Z)
    (pre post : list value) (_d name : value) :
  (forall x, In x pre -> main_candidate x = false) ->
  main_candidate _d = true ->
  Py.getitem _d "codec_name" = Ok name ->
  Py.truthy name = true ->
  triple (fun l => Py.truthy (main_encoder (l_info l)) = false)
    (for_streams j_data _old_size (pre ++ _d :: post))
    (fun _ l => main_encoder (l_info l) = name) (fun _ => True).
Proof.
  intros Hpre Hc Hname Htrue.
  induction pre as [|x pre IH]; cbn [app for_streams].
  - eapply triple_bind; [exact (stream_candidate _ _ _ _ Hc Hname)|].
    intros [|]; [|apply triple_ret; auto].
    intros l Hl.
    assert (T : Py.truthy (main_encoder (l_info l)) = true)
      by (rewrite Hl; exact Htrue).
    pose proof (for_streams_frozen (main_part l) j_data _old_size post l
                  (conj T eq_refl)) as HF.
    destruct (for_streams j_data _old_size post l) as [l' [f|e]];
      [|exact I].
    destruct HF as [_ [_ M]]. rewrite (main_part_encoder _ _ M). exact Hl.
  - intros l Hl. unfold sbind.
    pose proof (stream_non_candidate (main_part l) j_data _old_size x
                  (Hpre x (or_introl eq_refl)) l eq_refl) as Hx.
    destruct (stream j_data _old_size x l) as [l1 [f|e]]; [|exact I].
    destruct Hx as [-> M].
    apply IH.
    + intros y Hy. apply Hpre. right. exact Hy.
    + rewrite (main_part_encoder _ _ M). exact Hl.
Qed.

(** X11.  The main stream is the first video stream that is not mjpeg,
    when that stream has a codec name that is not empty.  A stream that
    is not a video stream, or is an mjpeg one, changes none of the main
    fields and does not end the loop; a video stream that is not mjpeg,
    met while no main encoder is set, makes its codec name the main
    encoder; so after a loop that returns, the main encoder is the codec
    name of the first such stream.  Once a main encoder is set, no later
    stream changes it, nor the main bit rate, frame rate, resolution and
    duration, the main fragment, the filter text or the error text, and
    no later stream ends the loop with the [return] of line 403. *)
Theorem main_stream_first (j_data : value) (_old_size : Z) :
  (forall (ds : list value) (l : locals),
      Py.truthy (main_encoder (l_info l)) = true ->
      main_part (fst (for_streams j_data _old_size ds l)) = main_part l
      /\ snd (for_streams j_data _old_size ds l) <> Ok Return)
  /\ (forall (_d : value) (l : locals),
        main_candidate _d = false ->
        main_part (fst (stream j_data _old_size _d l)) = main_part l
        /\ snd (stream j_data _old_size _d l) <> Ok Return)
  /\ (forall (_d name : value) (l l' : locals) (f : flow),
        Py.truthy (main_encoder (l_info l)) = false ->
        main_candidate _d = true ->
        Py.getitem _d "codec_name" = Ok name ->
        stream j_data _old_size _d l = (l', Ok f) ->
        main_encoder (l_info l') = name)
  /\ (forall (pre post : list value) (_d name : value) (l l' : locals)
             (f : flow),
        Py.truthy (main_encoder (l_info l)) = false ->
        (forall x, In x pre -> main_candidate x = false) ->
        main_candidate _d = true ->
        Py.getitem _d "codec_name" = Ok name ->
        Py.truthy name = true ->
        for_streams j_data _old_size (pre ++ _d :: post) l = (l', Ok f) ->
        main_encoder (l_info l') = name).
Proof.
  split; [|split; [|split]].
  - intros ds l T.
    pose proof (for_streams_frozen (main_part l) j_data _old_size ds l
                  (conj T eq_refl)) as HF.
    destruct (for_streams j_data _old_size ds l) as [l' [f|e]];
      cbn [fst snd].
    + destruct HF as [-> [_ M]]. split; [exact M | discriminate].
    + destruct HF as [_ M]. split; [exact M | discriminate].
  - intros d l Hc.
    pose proof (stream_non_candidate (main_part l) j_data _old_size d Hc
                  l eq_refl) as Hx.
    destruct (stream j_data _old_size d l) as [l' [f|e]]; cbn [fst snd].
    + destruct Hx as [-> M]. split; [exact M | discriminate].
    + split; [exact Hx | discriminate].
  - intros d name l l' f Hl Hc Hname E.
    pose proof (stream_candidate j_data _old_size d name Hc Hname l Hl)
      as Hs.
    rewrite E in Hs. exact Hs.
  - intros pre post d name l l' f Hl Hpre Hc Hname Htrue E.
    pose proof (for_streams_first j_data _old_size pre post d name
                  Hpre Hc Hname Htrue l Hl) as Hs.
    rewrite E in Hs. exact Hs.
Qed.

End HevcFrozen.

(** A cover picture, the video stream of the sample and its audio
    stream: the main encoder is the codec of the video stream. *)
Lemma main_stream_first_witness :
  main_encoder
    (l_info
       (fst (for_streams Samples.no_bitrate_doc 5000
               ([VDict [("codec_name", VStr "mjpeg");
                        ("codec_type", VStr "video");
                        ("pix_fmt", VStr "yuvj420p");
                        ("duration", VStr "3.000000");
                        ("bit_rate", VStr "1000")]]
                ++ Samples.no_bitrate_stream :: [Samples.aac_stream])
               locals0)))
  = VStr "h264".
Proof.
  refine (proj2 (proj2 (proj2 (main_stream_first Samples.no_bitrate_doc 5000)))
            [VDict [("codec_name", VStr "mjpeg");
                    ("codec_type", VStr "video");
                    ("pix_fmt", VStr "yuvj420p");
                    ("duration", VStr "3.000000");
                    ("bit_rate", VStr "1000")]]
            [Samples.aac_stream] Samples.no_bitrate_stream (VStr "h264")
            locals0 _ Next _ _ _ _ _ _).
  - reflexivity.
  - intros x [<-|[]]. reflexivity.
  - reflexivity.
  - reflexivity.
  - reflexivity.
  - vm_compute. reflexivity.
Defined.

(** ** check_hevc: a stream without a duration *)

Section HevcAssert.

Context `{Host}.

(** A stream that is neither video nor audio nor subtitle and has no
    duration of its own fails the assertion of line 377, before the
    branch that would drop it. *)
Lemma stream_other_type_raises (j_data : value) (_old_size : Z)
    (kv : list (string * value)) (t : string) (l : locals) :
  Py.assoc "codec_type" kv = Some (VStr t) ->
  t <> "video" -> t <> "audio" -> t <> "subtitle" ->
  Py.assoc "duration" kv = None ->
  exists e,
    stream j_data _old_size (VDict kv) l = (l, Raise e)
    /\ (Py.assoc "codec_name" kv <> None ->
        Py.assoc "bit_rate" kv = None -> e = AssertionError).
Proof.
  intros Ht Hv Ha Hs Hd.
  apply String.eqb_neq in Hv, Ha, Hs.
  unfold stream, sbind, lift. cbn [Py.getitem Py.get].
  rewrite Ht, Hd. cbn [Py.of_opt Py.float ebind].
  destruct (Py.assoc "codec_name" kv) as [name|];
    [|eexists; split; [reflexivity | intros N; contradiction N; reflexivity]].
  cbn [Py.of_opt].
  destruct (Py.assoc "bit_rate" kv) as [b|] eqn:Eb.
  - match goal with
    | |- context [if ?c then ?x else ?y] =>
        destruct (if c then x else y) as [br|e]
    end; [|eexists; split; [reflexivity | intros _ N; discriminate N]].
    eexists. split; [|intros _ N; discriminate N].
    change (Py.trunc 0 =? 0) with true. cbn [negb Py.truthy Z.eqb].
    unfold Meta.calc_duration. cbn [Py.getitem Py.of_opt]. rewrite Ht.
    cbn [ebind Py.of_opt Py.eq_str]. rewrite Hv, Ha, Hs.
    cbn [Py.truthy String.eqb negb]. unfold throw. reflexivity.
  - cbn [Py.eq_str String.eqb Ascii.eqb Bool.eqb negb ebind].
    eexists. split; [|reflexivity].
    change (Py.trunc 0 =? 0) with true. cbn [negb Py.truthy Z.eqb].
    unfold Meta.calc_duration. cbn [Py.getitem Py.of_opt]. rewrite Ht.
    cbn [ebind Py.of_opt Py.eq_str]. rewrite Hv, Ha, Hs.
    cbn [Py.truthy String.eqb negb]. unfold throw. reflexivity.
Qed.

Lemma for_streams_other_type (j_data : value) (_old_size : Z)
    (ds : list value) (kv : list (string * value)) (t : string) :
  In (VDict kv) ds ->
  Py.assoc "codec_type" kv = Some (VStr t) ->
  t <> "video" -> t <> "audio" -> t <> "subtitle" ->
  Py.assoc "duration" kv = None ->
  triple (fun l => l_err l = "") (for_streams j_data _old_size ds)
    (fun f l => f = Return /\ l_err l = no_rate_text) (fun _ => True).
Proof.
  intros Hin Ht Hv Ha Hs Hd.
  induction ds as [|d ds IH]; [destruct Hin|].
  cbn [for_streams]. destruct Hin as [->|Hin].
  - intros l _. unfold sbind.
    destruct (stream_other_type_raises j_data _old_size kv t l
                Ht Hv Ha Hs Hd) as [e [E _]].
    rewrite E. exact I.
  - eapply triple_bind; [apply stream_err|].
    intros [|]; [exact (IH Hin)|].
    apply triple_ret. intros l E. split; [reflexivity | exact E].
Qed.

(** X12.  A file with a stream that is neither video nor audio nor
    subtitle and that has no duration of its own is never valid, a
    bin_data stream too, which the loop would otherwise drop: the check
    ends at that stream with the text of the probe's standard error as
    error, unless an earlier stream ended it. *)
Theorem check_hevc_other_type (p : probe) (_old_size : Z)
    (j_data : value) (ds : list value) (kv : list (string * value))
    (t : string) :
  st_size p = Some _old_size ->
  stdout p = Doc j_data ->
  Py.getitem j_data "streams" = Ok (VList ds) ->
  In (VDict kv) ds ->
  Py.assoc "codec_type" kv = Some (VStr t) ->
  t <> "video" -> t <> "audio" -> t <> "subtitle" ->
  Py.assoc "duration" kv = None ->
  is_valid (check_hevc p) = false
  /\ (err (check_hevc p) = stderr p
      \/ err (check_hevc p) = "empty main_bitrate/duration/fps"
      \/ err (check_hevc p) = "file not exist or 0 bytes").
Proof.
  intros Hsz Ho Hg Hin Ht Hv Ha Hs Hd.
  unfold check_hevc. rewrite Hsz.
  destruct (_old_size =? 0); [split; [reflexivity | auto]|].
  rewrite Ho. cbn [try_body]. unfold sbind at 1. unfold lift.
  rewrite Hg. cbn [ebind iterate]. unfold sbind.
  pose proof (for_streams_other_type j_data _old_size ds kv t
                Hin Ht Hv Ha Hs Hd locals0 eq_refl) as Hf.
  pose proof (for_streams_keeps_invalid j_data _old_size ds locals0 eq_refl)
    as Hi.
  destruct (for_streams j_data _old_size ds locals0) as [l [f|e]].
  - destruct Hf as [-> E]. cbn [ret result_of is_valid err].
    split; [exact Hi | right; left; exact E].
  - cbn [result_of set_err is_valid err l_valid l_err].
    split; [exact Hi | left; reflexivity].
Qed.

End HevcAssert.

(** A file whose second stream is a bin_data stream without duration. *)
Lemma check_hevc_other_type_witness :
  is_valid
    (check_hevc
       (mk_probe (Some 5000)
          (Doc (VDict [("streams",
                        VList [Samples.no_bitrate_stream;
                               VDict [("codec_name", VStr "bin_data");
                                      ("codec_type", VStr "data")]]);
                       ("format", VDict [("bit_rate", VStr "1100000")])]))
          "probe messages"))
  = false.
Proof.
  refine (proj1 (check_hevc_other_type
                   (mk_probe (Some 5000)
                      (Doc (VDict [("streams",
                                    VList [Samples.no_bitrate_stream;
                                           VDict [("codec_name", VStr "bin_data");
                                                  ("codec_type", VStr "data")]]);
                                   ("format",
                                    VDict [("bit_rate", VStr "1100000")])]))
                      "probe messages")
                   5000 _ _
                   [("codec_name", VStr "bin_data");
                    ("codec_type", VStr "data")] "data"
                   eq_refl eq_refl eq_refl _ eq_refl _ _ _ eq_refl));
    [right; left; reflexivity | discriminate | discriminate | discriminate].
Defined.

(** ** The batch driver: the test of a conversion *)

Section DriverJudge.

Context `{Host}.

Lemma hms2sec_empty : Units.hms2sec (VStr "") = Raise ValueError.
Proof. reflexivity. Qed.

(** X13.  When the check of the output returns an empty duration, as it
    does for an output that is missing or empty and for a probe that
    printed nothing or no document, the conversion is not counted as an
    error: building the warning of line 617 raises [ValueError], since
    [hms2sec] is applied to the empty str. *)
Theorem judge_missing_output (p : probe) :
  (st_size p = None \/ st_size p = Some 0
   \/ stdout p = Empty \/ stdout p = Garbage ->
   main_duration (info (check_hevc p)) = VStr "")
  /\ (main_duration (info (check_hevc p)) = VStr "" ->
      forall (_single_saved : Z) (_main_duration : value),
        Driver.judge (is_valid (check_hevc p)) _single_saved
          (main_duration (info (check_hevc p))) _main_duration
        = Raise ValueError).
Proof.
  split.
  - unfold check_hevc. intros [E|[E|[E|E]]].
    + rewrite E. reflexivity.
    + rewrite E. reflexivity.
    + destruct (st_size p) as [sz|]; [|reflexivity].
      destruct (sz =? 0); [reflexivity|]. rewrite E. reflexivity.
    + destruct (st_size p) as [sz|]; [|reflexivity].
      destruct (sz =? 0); [reflexivity|]. rewrite E. reflexivity.
  - intros E saved md.
    assert (V : is_valid (check_hevc p) = false).
    { destruct (is_valid (check_hevc p)) eqn:V; [|reflexivity].
      destruct (check_hevc_valid_all_set p V) as (_ & _ & _ & _ & D & _).
      rewrite E in D. discriminate D. }
    rewrite V, E. reflexivity.
Qed.

End DriverJudge.

(** The output does not exist. *)
Lemma judge_missing_output_witness :
  Driver.judge
    (is_valid (check_hevc (mk_probe None Empty "")))
    0 (main_duration (info (check_hevc (mk_probe None Empty ""))))
    (VStr "00:00:10.0")
  = Raise ValueError.
Proof.
  refine (proj2 (judge_missing_output (mk_probe None Empty "")) _ 0
            (VStr "00:00:10.0")).
  reflexivity.
Defined.

(** ** call_ffmpeg: an encoder that fails before it completes a line *)

Section CallFfmpeg.

Context `{Host}.

Lemma pump_plain (outs : list string) :
  forall (o : notifier) (w : world),
    (forall out, In out outs -> (String.length out <= 1)%nat) ->
    plain (line_acc o) (fold_right append "" outs) = true ->
    Driver.pump outs (o, w)
    = ((set_line_acc (line_acc o ++ fold_right append "" outs) o, w), Ok tt).
Proof.
  induction outs as [|out outs IH]; intros o w Hlen Hp.
  - cbn. rewrite append_nil_r. destruct o; reflexivity.
  - cbn [Driver.pump fold_right] in *.
    assert (Hout : (String.length out <= 1)%nat)
      by (apply Hlen; left; reflexivity).
    assert (Hrest : forall x, In x outs -> (String.length x <= 1)%nat)
      by (intros x Hx; apply Hlen; right; exact Hx).
    destruct out as [|a [|b out]]; [| |cbn in Hout; lia].
    + cbn [Py.truthy String.eqb negb when append] in *.
      unfold sbind, ret. exact (IH o w Hrest Hp).
    + cbn [append plain] in Hp.
      apply andb_prop in Hp. destruct Hp as [Hp Hr].
      apply andb_prop in Hp. destruct Hp as [Hsep Hprompt].
      apply negb_true_iff in Hsep. apply negb_true_iff in Hprompt.
      change (Py.truthy (VStr (String a ""))) with true. cbn [when].
      unfold sbind at 1. unfold call. rewrite Hsep.
      unfold on_other, on_self, self, when.
      cbn [sbind modify gets fst snd set_line_acc line_acc].
      rewrite Hprompt. cbn [ret].
      rewrite (IH (set_line_acc (line_acc o ++ String a "") o) w Hrest).
      * cbn [set_line_acc line_acc lines duration source started bar fps
               encoding append].
        rewrite append_assoc. reflexivity.
      * exact Hr.
Qed.

(** X14.  With the progress bar, when all that was read from the
    encoder holds no carriage return, no line feed and no prompt, the
    notifier of [call_ffmpeg] prints nothing; the call returns if the
    exit code is 0 and raises [IndexError] if it is not: the error it
    wants to log is the last completed line, and there is none. *)
Theorem call_ffmpeg_no_line (r : Driver.run) (w : world) :
  Driver.bytewise r ->
  plain "" (Driver.output r) = true ->
  Driver.call_ffmpeg r true w
  = (w, if Driver.returncode r =? 0 then Ok tt else Raise IndexError).
Proof.
  intros Hb Hp. unfold Driver.call_ffmpeg. cbn [negb].
  unfold sbind at 1.
  rewrite (pump_plain _ (init "utf8") w Hb Hp).
  destruct (Driver.returncode r =? 0); reflexivity.
Qed.

End CallFfmpeg.

(** The encoder writes a message without a line end and exits with
    code 1. *)
Lemma call_ffmpeg_no_line_witness :
  Driver.call_ffmpeg (Driver.mk_run ["n"; "o"; ""; " "; "g"; "p"] "u" 1)
    true (mk_world [] [] [])
  = (mk_world [] [] [], Raise IndexError).
Proof.
  refine (call_ffmpeg_no_line
            (Driver.mk_run ["n"; "o"; ""; " "; "g"; "p"] "u" 1)
            (mk_world [] [] []) _ _).
  - intros out Hin. cbn in Hin.
    repeat (destruct Hin as [<-|Hin]; [cbn; lia|]). destruct Hin.
  - reflexivity.
Defined.

(** ** calc_fps: the frame rate of a stream *)

Lemma find_present (c : ascii) (a r : string) :
  0 <= Str.find c (a ++ String c r).
Proof.
  induction a as [|x a IH]; cbn [append Str.find].
  - rewrite Ascii.eqb_refl. lia.
  - destruct (Ascii.eqb x c); [lia|].
    destruct (Z.ltb_spec (Str.find c (a ++ String c r)) 0); lia.
Qed.

Lemma split_pair (c : ascii) (a b : string) :
  Chars.all (fun x => negb (Ascii.eqb x c)) a = true ->
  Chars.all (fun x => negb (Ascii.eqb x c)) b = true ->
  Str.split c 2 (a ++ String c b) = [a; b].
Proof.
  intros Ha Hb. rewrite (split_cons c a b 1 Ha), (split_absent c b 1 Hb).
  reflexivity.
Qed.

(** The text [a/b] of two counts, read by the rate branch of
    [calc_fps]. *)
Lemma parse_rate_ratio (a b : Z) :
  0 <= a -> 0 <= b ->
  Meta.parse_rate (VStr (Str.of_Z a ++ "/" ++ Str.of_Z b))
  = if b =? 0 then Raise ZeroDivisionError
    else Ok (VFloat (Py.round_to 3 (Qred (inject_Z a / inject_Z b)))).
Proof.
  intros Ha Hb. unfold Meta.parse_rate. cbn [Py.find ebind].
  change (Str.of_Z a ++ "/" ++ Str.of_Z b)
    with (Str.of_Z a ++ String "/" (Str.of_Z b)).
  pose proof (find_present "/" (Str.of_Z a) (Str.of_Z b)) as Hf.
  destruct (Z.eqb_spec (Str.find "/" (Str.of_Z a ++ String "/" (Str.of_Z b)))
              (-1)) as [E|_]; [lia|].
  cbn [negb Py.split2].
  rewrite split_pair
    by (apply digits_without; [reflexivity | apply of_Z_digits; assumption]).
  cbn [ebind]. unfold Meta.ratio. cbn [Py.int].
  rewrite !parse_int_of_Z. cbn [Py.of_opt ebind].
  unfold Py.truediv, Py.is_zero. cbn [inject_Z Qnum].
  destruct (b =? 0); reflexivity.
Qed.

(** X15.  A frame rate given as the text [a/b] of two counts, with [a]
    below [2 ^ 1023] so that the quotient is within the range of a float,
    is read from [r_frame_rate], and from [avg_frame_rate] when the
    stream has no [r_frame_rate]: with [b] = 0, as in the text 0/0 the
    probe prints for a stream without frames, [calc_fps] raises
    [ZeroDivisionError]; otherwise it returns a float, also for a whole
    rate such as 25/1, whatever the duration passed. *)
Theorem calc_fps_ratio (kv : list (string * value)) (a b : Z)
    (duration : Q) :
  0 <= a < 2 ^ 1023 -> 0 <= b ->
  Py.assoc "r_frame_rate" kv = Some (VStr (Str.of_Z a ++ "/" ++ Str.of_Z b))
  \/ (Py.assoc "r_frame_rate" kv = None
      /\ Py.assoc "avg_frame_rate" kv
         = Some (VStr (Str.of_Z a ++ "/" ++ Str.of_Z b))) ->
  (b = 0 -> Meta.calc_fps (VDict kv) duration = Raise ZeroDivisionError)
  /\ (b <> 0 -> exists q, Meta.calc_fps (VDict kv) duration = Ok (VFloat q)).
Proof.
  intros [Ha _] Hb Hk.
  assert (E : Meta.calc_fps (VDict kv) duration
              = Meta.parse_rate (VStr (Str.of_Z a ++ "/" ++ Str.of_Z b))).
  { unfold Meta.calc_fps. cbn [Py.get ebind].
    destruct Hk as [Hr|[Hr Hv]]; rewrite Hr; [reflexivity|].
    cbn [Py.is_none]. rewrite Hv. reflexivity. }
  rewrite E, (parse_rate_ratio a b Ha Hb). split.
  - intros ->. reflexivity.
  - intros Hn. destruct (Z.eqb_spec b 0) as [|_]; [contradiction|].
    eexists. reflexivity.
Qed.

(** A stream whose rate is the text 0/0, and one whose rate is the
    text 30000/1001. *)
Lemma calc_fps_ratio_witness :
  Meta.calc_fps (VDict [("codec_type", VStr "video");
                        ("r_frame_rate", VStr "0/0")]) 10
  = Raise ZeroDivisionError
  /\ exists q,
       Meta.calc_fps (VDict [("codec_type", VStr "video");
                             ("avg_frame_rate", VStr "30000/1001")]) 10
       = Ok (VFloat q).
Proof.
  split.
  - refine (proj1 (calc_fps_ratio [("codec_type", VStr "video");
                                   ("r_frame_rate", VStr "0/0")] 0 0 10
                     _ _ _) eq_refl).
    + split; [lia | reflexivity].
    + lia.
    + left. reflexivity.
  - refine (proj2 (calc_fps_ratio [("codec_type", VStr "video");
                                   ("avg_frame_rate", VStr "30000/1001")]
                     30000 1001 10 _ _ _) _).
    + split; [lia | reflexivity].
    + lia.
    + right. split; reflexivity.
    + lia.
Defined.

Section HevcNoRate.

Context `{Host}.

(** X16.  A stream with no [r_frame_rate], no [avg_frame_rate] and no
    count of frames in its tags has the frame rate [None], not 0; for a
    main video stream the comparison of line 384 then raises
    [TypeError], so that the test for an empty frame rate of line 400 is
    not reached. *)
Theorem main_stream_no_rate :
  (forall (kv : list (string * value)) (duration : Q),
      Py.assoc "r_frame_rate" kv = None ->
      Py.assoc "avg_frame_rate" kv = None ->
      Py.assoc "tags" kv = None
      \/ (exists tags, Py.assoc "tags" kv = Some (VDict tags)
                       /\ Py.assoc "NUMBER_OF_FRAMES-eng" tags = None) ->
      Meta.calc_fps (VDict kv) duration = Ok VNone)
  /\ (forall (_d _codec_name _codec_type _duration _bitrate : value)
             (q : Q) (l : locals),
         Units.hms2sec _duration = Ok q ->
         Meta.calc_fps _d q = Ok VNone ->
         snd (main_stream _d _codec_name _codec_type _duration _bitrate l)
         = Raise TypeError).
Proof.
  split.
  - intros kv q Hr Hv Ht. unfold Meta.calc_fps. cbn [Py.get ebind].
    rewrite Hr. cbn [Py.is_none]. rewrite Hv. cbn [Py.is_none].
    destruct Ht as [Ht|[tags [Ht Hn]]]; rewrite Ht; [reflexivity|].
    cbn [Py.is_none negb Py.get ebind]. rewrite Hn. reflexivity.
  - intros d name ty dur br q l Hq Hf.
    unfold main_stream, sbind, modify, gets, lift.
    rewrite Hq. cbn [ebind]. rewrite Hf. reflexivity.
Qed.

End HevcNoRate.

(** A video stream that has only a codec and a size. *)
Lemma main_stream_no_rate_witness :
  snd (main_stream
         (VDict [("codec_name", VStr "h264"); ("codec_type", VStr "video");
                 ("width", VInt 1280); ("height", VInt 720)])
         (VStr "h264") (VStr "video") (VStr "00:00:10.0") (VInt 1000000)
         locals0)
  = Raise TypeError.
Proof.
  refine (proj2 main_stream_no_rate
            (VDict [("codec_name", VStr "h264"); ("codec_type", VStr "video");
                    ("width", VInt 1280); ("height", VInt 720)])
            (VStr "h264") (VStr "video") (VStr "00:00:10.0") (VInt 1000000)
            10%Q locals0 _ _).
  - reflexivity.
  - refine (proj1 main_stream_no_rate _ 10%Q _ _ _);
      [reflexivity | reflexivity | left; reflexivity].
Defined.

(** ** The notifier: a frame rate of three digits *)

Lemma digit_cases (c : ascii) :
  Str.is_digit c = true ->
  In c ["0"; "1"; "2"; "3"; "4"; "5"; "6"; "7"; "8"; "9"]%char.
Proof.
  destruct c as [[|] [|] [|] [|] [|] [|] [|] [|]];
    intros E; try discriminate E; cbn; tauto.
Qed.

(** X17.  The frame rate pattern takes two digits: in a line that
    starts with a rate of three digits, such as 120 fps, the search
    passes over the first digit and [get_fps] returns the number made of
    the last two. *)
Theorem get_fps_three_digits (a b c : ascii) (rest : string) :
  Str.is_digit a = true -> Str.is_digit b = true -> Str.is_digit c = true ->
  get_fps (String a (String b (String c (" fps" ++ rest))))
  = Ok (Some (Str.digit_val b * 10 + Str.digit_val c)).
Proof.
  intros Ha Hb Hc.
  apply digit_cases in Ha, Hb, Hc. cbn [In] in Ha, Hb, Hc.
  repeat match goal with
         | H : _ \/ _ |- _ => destruct H as [<-|H]
         | H : False |- _ => destruct H
         end; vm_compute; reflexivity.
Qed.

Lemma get_fps_three_digits_witness :
  get_fps "120 fps, 120 tbr" = Ok (Some 20).
Proof.
  exact (get_fps_three_digits "1" "2" "0" ", 120 tbr"
           eq_refl eq_refl eq_refl).
Defined.

(** ** The batch driver: what counts as converted *)

Section DriverConverted.

Context `{Host}.

(** X18.  For durations of whole seconds, as [sec_hum] writes them for
    the counts [n] and [m] below [2 ^ 53] (what [check_hevc] returns for
    a stream that has a duration of its own), the test after a
    conversion never raises, and the conversion is counted as converted,
    the one case in which the source may be removed, exactly when the
    output is valid, exists with a size above 0 and below the size of
    the source, and the two counts differ by at most one second. *)
Theorem converted_whole_seconds (_valid : bool)
    (_old_size _new_size n m : Z) (t u : string) :
  0 <= _new_size -> 0 <= n < 2 ^ 53 -> 0 <= m < 2 ^ 53 ->
  Units.sec_hum (VInt n) = Ok t ->
  Units.sec_hum (VInt m) = Ok u ->
  Driver.judge _valid (Driver.single_saved _old_size _new_size)
    (VStr t) (VStr u)
  = Ok (if _valid && (0 <? _new_size) && (_new_size <? _old_size)
           && (Z.abs (n - m) <=? 1)
        then Driver.Converted else Driver.ConvertError).
Proof.
  intros Hnew Hn Hm Ht Hu.
  destruct (sec_hum_read_back n Hn) as (t' & qn & Et & Hqn & En & _).
  destruct (sec_hum_read_back m Hm) as (u' & qm & Eu & Hqm & Em & _).
  assert (t' = t) by congruence. assert (u' = u) by congruence.
  subst t' u'.
  assert (Hq : Py.qlt (Qabs (qn - qm)) 2 = (Z.abs (n - m) <=? 1)).
  { rewrite (qlt_proper (Qabs (qn - qm)) (inject_Z (Z.abs (n - m)))
               2 (inject_Z 2)).
    - destruct (Z.leb_spec (Z.abs (n - m)) 1).
      + apply qlt_true. rewrite <- Zlt_Qlt. lia.
      + apply qlt_false. rewrite <- Zle_Qle. lia.
    - rewrite En, Em. unfold Qminus.
      rewrite <- inject_Z_opp, <- inject_Z_plus. reflexivity.
    - reflexivity. }
  assert (Hs : (0 <? Driver.single_saved _old_size _new_size)
               = (0 <? _new_size) && (_new_size <? _old_size)).
  { unfold Driver.single_saved.
    destruct (Z.eqb_spec _new_size 0) as [->|Hz]; cbn [negb].
    - reflexivity.
    - destruct (Z.ltb_spec 0 _new_size); [|lia]. cbn [andb].
      destruct (Z.ltb_spec 0 (_old_size - _new_size)),
               (Z.ltb_spec _new_size _old_size); try reflexivity; lia. }
  unfold Driver.judge. rewrite Hs, Hqn, Hqm. cbn [ebind]. rewrite Hq.
  destruct _valid, (0 <? _new_size), (_new_size <? _old_size),
           (Z.abs (n - m) <=? 1); reflexivity.
Qed.

End DriverConverted.

(** An output of 600 against a source of 1000, of 10 seconds against 11
    seconds: converted; against 12 seconds: an error. *)
Lemma converted_whole_seconds_witness :
  Driver.judge true (Driver.single_saved 1000 600)
    (VStr "00:00:10.0") (VStr "00:00:11.0") = Ok Driver.Converted
  /\ Driver.judge true (Driver.single_saved 1000 600)
       (VStr "00:00:10.0") (VStr "00:00:12.0") = Ok Driver.ConvertError.
Proof.
  split.
  - refine (converted_whole_seconds true 1000 600 10 11
              "00:00:10.0" "00:00:11.0" _ _ _ _ _);
      [lia | lia | lia | reflexivity | reflexivity].
  - refine (converted_whole_seconds true 1000 600 10 12
              "00:00:10.0" "00:00:12.0" _ _ _ _ _);
      [lia | lia | lia | reflexivity | reflexivity].
Defined.

(** ** The batch driver: which files are converted *)

Section DriverDecide.

Context `{Host}.

Lemma valid_duration_parses (p : probe) :
  is_valid (check_hevc p) = true ->
  exists q, Units.hms2sec (main_duration (info (check_hevc p))) = Ok q.
Proof.
  intros Hp.
  destruct (check_hevc_valid_all_set p Hp) as (_ & _ & _ & _ & Hd & _).
  destruct (check_hevc_duration_parses p) as [E|E]; [|exact E].
  rewrite E in Hd. discriminate Hd.
Qed.

Lemma skip_converted_valid (src out : probe) :
  is_valid (check_hevc src) = true ->
  Driver.skip_converted (is_valid (check_hevc out))
    (main_duration (info (check_hevc out)))
    (main_duration (info (check_hevc src)))
  = Ok (is_valid (check_hevc out)).
Proof.
  intros Hsrc. unfold Driver.skip_converted.
  destruct (is_valid (check_hevc out)) eqn:Hout; [|reflexivity].
  destruct (valid_duration_parses src Hsrc) as [b Hb].
  destruct (valid_duration_parses out Hout) as [a Ha].
  rewrite Ha, Hb. cbn [ebind]. rewrite abs_bool_lt_2. reflexivity.
Qed.

(** X19.  The decision on a file never raises, and the encoder is
    started only for a file of at least 512 MiB whose name does not end
    with .H265 before the extension, that is valid with an empty error
    text, whose main encoder is neither hevc nor av1 nor mjpeg, and for
    which no valid converted file exists. *)
Theorem decide_convert (size1 size2 : Z) (h265 : bool) (src : probe)
    (out : option probe) :
  (exists d, Driver.decide size1 size2 h265 src out = Ok d)
  /\ (Driver.decide size1 size2 h265 src out = Ok Driver.Convert ->
      536870912 <= size1 /\ h265 = false /\ size2 <> 0
      /\ is_valid (check_hevc src) = true
      /\ err (check_hevc src) = ""
      /\ Py.eq_str (main_encoder (info (check_hevc src))) "hevc" = false
      /\ Py.eq_str (main_encoder (info (check_hevc src))) "av1" = false
      /\ Py.eq_str (main_encoder (info (check_hevc src))) "mjpeg" = false
      /\ match out with
         | Some o => is_valid (check_hevc o) = false
         | None => True
         end).
Proof.
  unfold Driver.decide, Driver.MIN_SIZE.
  destruct (Z.ltb_spec size1 536870912) as [|Hs1];
    [split; [eexists; reflexivity | discriminate]|].
  destruct h265.
  { split; [|destruct (_ && _); discriminate].
    destruct (_ && _); eexists; reflexivity. }
  destruct (Z.eqb_spec size2 0) as [|Hs2];
    [split; [eexists; reflexivity | discriminate]|].
  cbv zeta. cbn [Py.truthy].
  destruct (String.eqb_spec (err (check_hevc src)) "") as [He|He];
    cbn [negb]; [|split; [eexists; reflexivity | discriminate]].
  destruct (is_valid (check_hevc src)) eqn:Hv; cbn [negb orb];
    [|split; [eexists; reflexivity | discriminate]].
  destruct (Py.truthy (main_encoder (info (check_hevc src)))); cbn [negb];
    [|split; [eexists; reflexivity | discriminate]].
  assert (Hd : match out with
               | Some o =>
                   Driver.skip_converted (is_valid (check_hevc o))
                     (main_duration (info (check_hevc o)))
                     (main_duration (info (check_hevc src)))
               | None => Ok false
               end
               = Ok (match out with
                     | Some o => is_valid (check_hevc o)
                     | None => false
                     end)).
  { destruct out as [o|]; [|reflexivity].
    apply skip_converted_valid. exact Hv. }
  rewrite Hd. cbn [ebind].
  destruct (match out with
            | Some o => is_valid (check_hevc o)
            | None => false
            end) eqn:Ho;
    [split; [eexists; reflexivity | discriminate]|].
  pose proof (check_hevc_not_mjpeg src) as Hm.
  destruct (Py.eq_str (main_encoder (info (check_hevc src))) "hevc");
    cbn [negb andb]; [split; [eexists; reflexivity | discriminate]|].
  destruct (Py.eq_str (main_encoder (info (check_hevc src))) "av1");
    cbn [negb andb]; [split; [eexists; reflexivity | discriminate]|].
  split; [eexists; reflexivity|]. intros _.
  repeat split; try assumption; try reflexivity.
  destruct out as [o|]; [exact Ho | exact I].
Qed.

End DriverDecide.

(** The sample with a video and an audio stream, of 600 MiB, with no
    converted file beside it. *)
Lemma decide_convert_witness :
  629145600 <> 0
  /\ is_valid (check_hevc (mk_probe (Some 629145600)
                             (Doc Samples.video_audio) "")) = true.
Proof.
  pose proof (proj2 (decide_convert 629145600 629145600 false
                       (mk_probe (Some 629145600)
                          (Doc Samples.video_audio) "")
                       None) ltac:(vm_compute; reflexivity)) as W.
  exact (conj (proj1 (proj2 (proj2 W)))
              (proj1 (proj2 (proj2 (proj2 W))))).
Defined.

(** ** The batch driver: the share of the bit rate *)

(** X20.  The share of the main bit rate the encoder aims at does not
    grow with the size of the source and lies between 0.6 and 0.8; a
    source of exactly 4 GiB has the share of one of 3 GiB, 0.65. *)
Theorem factor_antitone :
  (forall s1 s2 : Z, s1 <= s2 -> (Driver.factor s2 <= Driver.factor s1)%Q)
  /\ (forall s : Z, (0.6 <= Driver.factor s <= 0.8)%Q)
  /\ (forall s : Z,
        3 * 1024 ^ 3 <= s <= 4 * 1024 ^ 3 -> Driver.factor s = 0.65%Q).
Proof.
  unfold Driver.factor. repeat split.
  - intros s1 s2 Hs.
    repeat match goal with
           | |- context [?a <? ?b] => destruct (Z.ltb_spec a b)
           | |- context [?a <=? ?b] => destruct (Z.leb_spec a b)
           end; try lia; apply Qle_bool_imp_le; reflexivity.
  - repeat match goal with
           | |- context [?a <? ?b] => destruct (Z.ltb_spec a b)
           | |- context [?a <=? ?b] => destruct (Z.leb_spec a b)
           end; apply Qle_bool_imp_le; reflexivity.
  - repeat match goal with
           | |- context [?a <? ?b] => destruct (Z.ltb_spec a b)
           | |- context [?a <=? ?b] => destruct (Z.leb_spec a b)
           end; apply Qle_bool_imp_le; reflexivity.
  - intros s Hs.
    repeat match goal with
           | |- context [?a <? ?b] => destruct (Z.ltb_spec a b)
           | |- context [?a <=? ?b] => destruct (Z.leb_spec a b)
           end; try lia; reflexivity.
Qed.

Lemma factor_antitone_witness :
  (Driver.factor 5000000000 <= Driver.factor 1000)%Q
  /\ Driver.factor 4294967296 = 0.65%Q.
Proof.
  split.
  - apply (proj1 factor_antitone 1000 5000000000). lia.
  - apply (proj2 (proj2 factor_antitone) 4294967296). lia.
Defined.

(** ** calc_duration, video streams *)


Section Duration.

Context `{Host}.



End Duration.


